(** * Excel-Insight-Engine: the analysis passes of [ExcelInsights]

    A shallow embedding of [src/excel_insights.py].  The class keeps a
    default table ([self.data]), the sheets by name ([self.sheets]) and the
    accumulated insights ([self.insights]); every pass reads a table,
    prints diagnostics, and stores one record.

    Python floats and the float64 entries of a pandas column are IEEE 754
    binary64 numbers: they are modelled by [spec_float] at precision 53,
    with the rounding of every operation.  Dictionaries keyed by strings
    are [gmap string _]; mappings whose order is part of their meaning
    (frequency tables) are association lists. *)

From Stdlib Require Import ZArith SpecFloat Ascii String.
From stdpp Require Import base option list gmap strings.

(** ** binary64 arithmetic *)

Module F64.

Local Open Scope Z_scope.

Definition float : Type := spec_float.

Definition prec : Z := 53.
Definition emax : Z := 1024.

Definition nan : float := S754_nan.
Definition zero : float := S754_zero false.

Definition add : float -> float -> float := SFadd prec emax.
Definition sub : float -> float -> float := SFsub prec emax.
Definition mul : float -> float -> float := SFmul prec emax.
Definition div : float -> float -> float := SFdiv prec emax.
Definition sqrt : float -> float := SFsqrt prec emax.
Definition abs : float -> float := SFabs.

(** Python's [==], [<], [<=] on floats; [>] and [>=] swap the
    arguments.  Every comparison with NaN is false. *)
Definition eqb : float -> float -> bool := SFeqb.
Definition ltb : float -> float -> bool := SFltb.
Definition leb : float -> float -> bool := SFleb.
Definition gtb (x y : float) : bool := ltb y x.
Definition geb (x y : float) : bool := leb y x.
(** [x != y] is the negation of [x == y], so it holds for NaN. *)
Definition neqb (x y : float) : bool := negb (eqb x y).

(** [float(z)]: the integer rounded to nearest-even. *)
Definition of_Z (z : Z) : float := binary_normalize prec emax z 0 false.
Definition of_nat (n : nat) : float := of_Z (Z.of_nat n).

(** The decimal literal [n/d] for small [n], [d]: the correctly rounded
    quotient is the double nearest to the decimal. *)
Definition lit (n d : Z) : float := div (of_Z n) (of_Z d).

Definition is_nan (x : float) : bool :=
  match x with S754_nan => true | _ => false end.

(** [np.isfinite]. *)
Definition is_finite (x : float) : bool :=
  match x with S754_zero _ | S754_finite _ _ _ => true | _ => false end.

Definition is_zero (x : float) : bool :=
  match x with S754_zero _ => true | _ => false end.

(** [floor(x)] as an integer, for a finite [x]. *)
Definition floor (x : float) : Z :=
  match x with
  | S754_finite s m e => Z.shiftl (cond_Zopp s (Zpos m)) e
  | _ => 0
  end.

Global Instance float_eq_dec : EqDecision float.
Proof. solve_decision. Defined.

End F64.

Abbreviation float := F64.float.

(** ** Python-level outcomes *)

(** The exceptions the modelled statements can raise.  Dividing two Python
    integers by [/] raises on a zero divisor; numpy scalars and arrays return
    NaN or an infinity instead.  [Timestamp.strftime] raises
    [NotImplementedError] on a timestamp outside the years of Python's
    [datetime]; the difference of two timestamps that does not fit a
    [Timedelta] raises an [OverflowError]. *)
Inductive exn : Type :=
  | ZeroDivisionError
  | NotImplementedError
  | OverflowError.

Inductive result (A : Type) : Type :=
  | Ok (a : A)
  | Raise (e : exn).
Arguments Ok {A} a.
Arguments Raise {A} e.

Global Instance result_ret : MRet result := fun _ a => Ok a.

Global Instance result_bind : MBind result := fun _ _ k r =>
  match r with
  | Ok a => k a
  | Raise e => Raise e
  end.

Global Instance result_fmap : FMap result := fun _ _ f r =>
  match r with
  | Ok a => Ok (f a)
  | Raise e => Raise e
  end.

(** [[f(x) for x in l]]: the first exception ends the loop. *)
Fixpoint map_result {A B} (f : A -> result B) (l : list A) : result (list B) :=
  match l with
  | [] => Ok []
  | x :: l' => y ← f x; ys ← map_result f l'; mret (y :: ys)
  end.

(** [a / b] on Python integers. *)
Definition py_truediv (a b : nat) : result float :=
  if decide (b = 0) then Raise ZeroDivisionError
  else Ok (F64.div (F64.of_nat a) (F64.of_nat b)).

(** [a / b] where [a] is a numpy integer scalar (the result of [.sum()]). *)
Definition np_truediv (a b : nat) : float :=
  F64.div (F64.of_nat a) (F64.of_nat b).

(** ** Tables *)

(** The column types of the frames [pd.read_excel] builds.  (It never
    builds a column of the category type, which [select_dtypes] also
    accepts in the categorical pass.) *)
Inductive dtype : Type :=
  | Int64 | Float64 | Bool | Object | StringDtype | Datetime64.

Global Instance dtype_eq_dec : EqDecision dtype.
Proof. solve_decision. Defined.

(** One entry of a column.  Numeric columns hold [VNum] (an int64 entry is
    read as the double of the same value), with NaN as the missing marker;
    [VDate] is a timestamp in nanoseconds since the epoch; [VNone] is
    [None] / [NaT]. *)
Inductive cell : Type :=
  | VNum (x : float)
  | VStr (s : string)
  | VBool (b : bool)
  | VDate (ns : Z)
  | VNone.

Global Instance cell_eq_dec : EqDecision cell.
Proof. solve_decision. Defined.

Record Series : Type := mkSeries {
  name : string;
  dt : dtype;
  values : list cell
}.

(** A [DataFrame] is its columns, in order.  Tables come from
    [pd.read_excel], which makes the column labels pairwise distinct, so
    [data[col]] for a label [col] of the frame is that one column: the loops
    below run over the columns themselves. *)
Definition DataFrame : Type := list Series.

(** [len(data)]: the number of rows. *)
Definition len_df (data : DataFrame) : nat :=
  match data with
  | [] => 0
  | c :: _ => length (values c)
  end.

Module pd.

(** [isnull] on one entry. *)
Definition isnull (c : cell) : bool :=
  match c with
  | VNone => true
  | VNum x => F64.is_nan x
  | _ => false
  end.

Definition notnull (c : cell) : bool := negb (isnull c).

(** [s.isnull().sum()] and [s.notnull().sum()]. *)
Definition isnull_sum (s : list cell) : nat := length (filter (fun c => isnull c = true) s).
Definition notnull_sum (s : list cell) : nat := length (filter (fun c => notnull c = true) s).

(** [data.select_dtypes(include=[np.number])]: integer and float columns;
    booleans and datetimes are not numbers. *)
Definition is_number (d : dtype) : bool :=
  match d with Int64 | Float64 => true | _ => false end.

Definition select_dtypes_number (data : DataFrame) : list Series :=
  filter (fun c => is_number (dt c) = true) data.

(** [data.select_dtypes(include=["object", "string", "category"])]. *)
Definition is_categorical (d : dtype) : bool :=
  match d with Object | StringDtype => true | _ => false end.

Definition select_dtypes_categorical (data : DataFrame) : list Series :=
  filter (fun c => is_categorical (dt c) = true) data.

(** [pd.api.types.is_datetime64_any_dtype]. *)
Definition is_datetime64_any_dtype (s : Series) : bool :=
  match dt s with Datetime64 => true | _ => false end.

(** The entries of a numeric column as doubles. *)
Definition to_float (c : cell) : float :=
  match c with VNum x => x | _ => F64.nan end.

(** [data[col].dropna()] on a numeric column: the non-NaN values in row
    order. *)
Definition dropna (s : Series) : list float :=
  filter (fun x => F64.is_nan x = false) (to_float <$> values s).

(** Ascending order of a NaN-free array. *)
Fixpoint insert_sorted (x : float) (l : list float) : list float :=
  match l with
  | [] => [x]
  | y :: l' => if F64.leb x y then x :: l else y :: insert_sorted x l'
  end.

Definition sort (l : list float) : list float := foldr insert_sorted [] l.

(** numpy's [_lerp a b t]. *)
Definition lerp (a b t : float) : float :=
  let diff_b_a := F64.sub b a in
  if F64.geb t (F64.lit 1 2)
  then F64.sub b (F64.mul diff_b_a (F64.sub (F64.of_Z 1) t))
  else F64.add a (F64.mul diff_b_a t).

(** [Series.quantile(q)] with the default linear interpolation: NaN on an
    empty array; otherwise [np.percentile(values, q * 100)], which
    interpolates between the two order statistics around the virtual index
    [(n - 1) * q]. *)
Definition quantile (col_data : list float) (q : float) : float :=
  match col_data with
  | [] => F64.nan
  | _ =>
    let arr := sort col_data in
    let n := length arr in
    let q := F64.div (F64.mul q (F64.of_Z 100)) (F64.of_Z 100) in
    let virtual_index := F64.mul (F64.of_Z (Z.of_nat n - 1)) q in
    let previous := F64.floor virtual_index in
    let gamma := F64.sub virtual_index (F64.of_Z previous) in
    let prev_i := Z.to_nat (0 `max` (previous `min` (Z.of_nat n - 1)))%Z in
    let next_i := Z.to_nat (0 `max` ((previous + 1) `min` (Z.of_nat n - 1)))%Z in
    lerp (nth prev_i arr F64.nan) (nth next_i arr F64.nan) gamma
  end.

(** *** Sums

    numpy adds the values of an array by pairwise summation
    ([pairwise_sum]): fewer than 8 values are added in row order; up to 128
    values are added into 8 accumulators, one group of 8 at a time, the
    accumulators are added as a tree and the values that are left over
    are added in row order; a longer array is cut in two at a multiple of
    8 near its middle. *)

(** The 8 accumulators [r[0] .. r[7]]. *)
Record accumulators : Type := mkAccumulators {
  r0 : float; r1 : float; r2 : float; r3 : float;
  r4 : float; r5 : float; r6 : float; r7 : float
}.

(** [for (i = 8; i < n - (n % 8); i += 8) r[k] += a[i + k]]: the
    accumulators after the whole groups of 8, and the values left over. *)
Fixpoint unrolled (r : accumulators) (a : list float) : accumulators * list float :=
  match a with
  | a0 :: a1 :: a2 :: a3 :: a4 :: a5 :: a6 :: a7 :: rest =>
      unrolled (mkAccumulators (F64.add (r0 r) a0) (F64.add (r1 r) a1)
                               (F64.add (r2 r) a2) (F64.add (r3 r) a3)
                               (F64.add (r4 r) a4) (F64.add (r5 r) a5)
                               (F64.add (r6 r) a6) (F64.add (r7 r) a7))
               rest
  | _ => (r, a)
  end.

(** The branch [n < 8]: the sum starts from -0.0. *)
Definition sum_in_order (a : list float) : float :=
  foldl F64.add (S754_zero true) a.

(** The branch [n <= 128] (and [8 <= n]). *)
Definition sum_block (a : list float) : float :=
  match a with
  | a0 :: a1 :: a2 :: a3 :: a4 :: a5 :: a6 :: a7 :: rest =>
      let '(r, left_over) := unrolled (mkAccumulators a0 a1 a2 a3 a4 a5 a6 a7) rest in
      let res := F64.add (F64.add (F64.add (r0 r) (r1 r)) (F64.add (r2 r) (r3 r)))
                         (F64.add (F64.add (r4 r) (r5 r)) (F64.add (r6 r) (r7 r))) in
      foldl F64.add res left_over
  | _ => sum_in_order a
  end.

(** [pairwise_sum]; the recursion halves the array, so a depth of
    [length a] is never exhausted ([pairwise_sum_unfold] below). *)
Fixpoint pairwise_sum_rec (depth : nat) (a : list float) : float :=
  let n := length a in
  if decide (n < 8) then sum_in_order a
  else if decide (n <= 128) then sum_block a
  else
    match depth with
    | 0 => sum_block a
    | S depth =>
        let n2 := n / 2 - (n / 2) `mod` 8 in
        F64.add (pairwise_sum_rec depth (take n2 a))
                (pairwise_sum_rec depth (drop n2 a))
    end.

Definition pairwise_sum (a : list float) : float :=
  pairwise_sum_rec (length a) a.

(** [values.sum(dtype=np.float64)] on float64 data: the reduction starts
    from -0.0 and adds the pairwise sum of the whole array; the sum of an
    empty array is 0.0. *)
Definition sum (values : list float) : float :=
  match values with
  | [] => F64.zero
  | _ => F64.add (S754_zero true) (pairwise_sum values)
  end.

(** The buffers of at most [size] values an array is cut into. *)
Fixpoint buffers_rec (depth size : nat) (a : list float) : list (list float) :=
  match depth, a with
  | _, [] => []
  | 0, _ => [a]
  | S depth, _ => take size a :: buffers_rec depth size (drop size a)
  end.

Definition buffers (size : nat) (a : list float) : list (list float) :=
  buffers_rec (length a) size a.

(** [values.sum(dtype=np.float64)] on int64 data: the values are cast in
    buffers of 8192, and the pairwise sum of each buffer is added to the
    result. *)
Definition sum_cast (values : list float) : float :=
  match values with
  | [] => F64.zero
  | _ => foldl (fun res buffer => F64.add res (pairwise_sum buffer))
               (S754_zero true) (buffers (Z.to_nat 8192) values)
  end.

(** The values with 0 in the place of NaN, and the number of values that
    are not NaN. *)
Definition fill_zero (values : list float) : list float :=
  (fun x => if F64.is_nan x then F64.zero else x) <$> values.

Definition count (values : list float) : nat :=
  length (filter (fun x => F64.is_nan x = false) values).

(** [Series.mean()] ([nanmean]) on a column of type [d]: the sum of the
    values, 0 for NaN, over the number of the others; NaN when there is
    none.  An int64 column is added as it is cast. *)
Definition mean (d : dtype) (values : list float) : float :=
  let the_sum :=
    match d with
    | Int64 => sum_cast (fill_zero values)
    | _ => sum (fill_zero values)
    end in
  F64.div the_sum (F64.of_nat (count values)).

(** [Series.std()] ([nanstd], [ddof = 1]), by the two-pass algorithm of
    [nanvar], which works on float64 values: NaN with fewer than two
    values. *)
Definition std (values : list float) : float :=
  let count := count values in
  if decide (count <= 1) then F64.nan
  else
    let avg := F64.div (sum (fill_zero values)) (F64.of_nat count) in
    let sqr := (fun x => if F64.is_nan x then F64.zero
                         else let d := F64.sub avg x in F64.mul d d) <$> values in
    F64.sqrt (F64.div (sum sqr) (F64.of_nat (count - 1))).

Definition fmin (l : list float) : float :=
  match l with
  | [] => F64.nan
  | x :: r => foldl (fun a b => if F64.ltb b a then b else a) x r
  end.

Definition fmax (l : list float) : float :=
  match l with
  | [] => F64.nan
  | x :: r => foldl (fun a b => if F64.gtb b a then b else a) x r
  end.

(** One column of [DataFrame.describe()]. *)
Record describe_row : Type := mkDescribe {
  d_count : float;
  d_mean : float;
  d_std : float;
  d_min : float;
  d_25 : float;
  d_50 : float;
  d_75 : float;
  d_max : float
}.

Definition describe (s : Series) : describe_row :=
  let v := dropna s in
  {| d_count := F64.of_nat (length v);
     d_mean := mean (dt s) (to_float <$> values s);
     d_std := std (to_float <$> values s);
     d_min := fmin v;
     d_25 := quantile v (F64.lit 1 4);
     d_50 := quantile v (F64.lit 1 2);
     d_75 := quantile v (F64.lit 3 4);
     d_max := fmax v |}.

(** *** [DataFrame.corr()]

    pandas' [nancorr]: for each pair of columns, Welford's method over the
    rows where both entries are finite, then [covxy / sqrt(ssqdm_x *
    ssqdm_y)], clipped to [-1, 1]; NaN when no row is complete or when the
    divisor is zero. *)
Record welford : Type := mkWelford {
  nobs : nat;
  meanx : float;
  meany : float;
  ssqdm_x : float;
  ssqdm_y : float;
  covxy : float
}.

Definition welford_init : welford :=
  mkWelford 0 F64.zero F64.zero F64.zero F64.zero F64.zero.

Definition welford_step (w : welford) (v : float * float) : welford :=
  let '(vx, vy) := v in
  if F64.is_finite vx && F64.is_finite vy then
    let nobs' := S (nobs w) in
    let dx := F64.sub vx (meanx w) in
    let dy := F64.sub vy (meany w) in
    let meanx' := F64.add (meanx w) (F64.mul (F64.div (F64.of_Z 1) (F64.of_nat nobs')) dx) in
    let meany' := F64.add (meany w) (F64.mul (F64.div (F64.of_Z 1) (F64.of_nat nobs')) dy) in
    mkWelford nobs' meanx' meany'
      (F64.add (ssqdm_x w) (F64.mul (F64.sub vx meanx') dx))
      (F64.add (ssqdm_y w) (F64.mul (F64.sub vy meany') dy))
      (F64.add (covxy w) (F64.mul (F64.sub vx meanx') dy))
  else w.

Definition welford_run (x y : list float) : welford :=
  foldl welford_step welford_init (zip x y).

Definition corr_of_welford (w : welford) : float :=
  if decide (nobs w < 1) then F64.nan
  else
    let divisor := F64.sqrt (F64.mul (ssqdm_x w) (ssqdm_y w)) in
    if F64.neqb divisor F64.zero then
      let val := F64.div (covxy w) divisor in
      if F64.gtb val (F64.of_Z 1) then F64.of_Z 1
      else if F64.ltb val (F64.of_Z (-1)) then F64.of_Z (-1)
      else val
    else F64.nan.

Definition nancorr (x y : list float) : float :=
  corr_of_welford (welford_run x y).

(** [corr_matrix.loc[col1, col2]] for [col1] before [col2] in the frame:
    pandas fills the matrix from its lower triangle, where the later column
    is [x] and the earlier one is [y]. *)
Definition corr_loc (col1 col2 : Series) : float :=
  nancorr (to_float <$> values col2) (to_float <$> values col1).

(** *** Frequency tables *)

(** Equality as the hash table behind [value_counts] and [nunique] sees
    it: Python's [==] on the entries of the column. *)
Class PyEq (A : Type) : Type := py_eq : A -> A -> bool.

(** Numbers and booleans are compared by value ([1 == True],
    [0 == False], [0.0 == -0.0]); strings and timestamps are equal to
    themselves only. *)
Definition cell_eq (a b : cell) : bool :=
  match a, b with
  | VNum x, VNum y => F64.eqb x y
  | VNum x, VBool c | VBool c, VNum x => F64.eqb x (F64.of_Z (if c then 1 else 0))
  | VBool c, VBool c' => bool_decide (c = c')
  | VStr s, VStr t => bool_decide (s = t)
  | VDate ns, VDate ns' => bool_decide (ns = ns')
  | VNone, VNone => true
  | _, _ => false
  end.

Global Instance cell_py_eq : PyEq cell := cell_eq.
Global Instance string_py_eq : PyEq string := fun s t => bool_decide (s = t).
Global Instance Z_py_eq : PyEq Z := fun m n => bool_decide (m = n).

(** The distinct elements in order of first appearance. *)
Definition unique {A} `{PyEq A} (l : list A) : list A :=
  foldl (fun acc x => if existsb (fun y => py_eq y x) acc then acc else acc ++ [x]) [] l.

Definition count_of {A} `{PyEq A} (x : A) (l : list A) : nat :=
  length (filter (fun y => py_eq y x = true) l).

(** Descending by count; equal counts keep their relative order. *)
Fixpoint insert_desc {A} (x : A * nat) (l : list (A * nat)) : list (A * nat) :=
  match l with
  | [] => [x]
  | y :: l' => if decide (snd y <= snd x) then x :: l else y :: insert_desc x l'
  end.

(** [s.value_counts()] on the non-null entries [l]. *)
Definition value_counts {A} `{PyEq A} (l : list A) : list (A * nat) :=
  foldr insert_desc [] ((fun k => (k, count_of k l)) <$> unique l).

(** [s.head(n)]: the first [n] rows, or all but the last [-n] when [n] is
    negative. *)
Definition head {A} (n : Z) (l : list A) : list A :=
  if decide (0 <= n)%Z then take (Z.to_nat n) l
  else take (length l - Z.to_nat (- n)) l.

Definition nonnull (s : list cell) : list cell :=
  filter (fun c => notnull c = true) s.

(** [s.nunique()]. *)
Definition nunique (s : list cell) : nat := length (unique (nonnull s)).

(** The entries of a datetime column; [None] is [NaT]. *)
Definition as_datetime (c : cell) : option Z :=
  match c with VDate ns => Some ns | _ => None end.

(** [date_col.min()] and [date_col.max()], skipping [NaT]; [NaT] when
    nothing is left. *)
Definition date_min (l : list (option Z)) : option Z :=
  match omap id l with
  | [] => None
  | x :: r => Some (foldl Z.min x r)
  end.

Definition date_max (l : list (option Z)) : option Z :=
  match omap id l with
  | [] => None
  | x :: r => Some (foldl Z.max x r)
  end.

End pd.

(** The calendar functions of pandas the temporal pass calls:
    [pd.to_datetime(s, errors='coerce')] on a column that is not of a
    datetime type ([None] when it raises, otherwise the parsed column with
    [None] for [NaT]); [t.strftime('%Y-%m-%d')]; [(hi - lo).days]; and the
    day name, the month name and the year of a timestamp.  All but the
    first are called outside the [try] of the pass, where an exception of
    theirs ends the pass. *)
Class Calendar : Type := {
  to_datetime : Series -> option (list (option Z));
  strftime_ymd : Z -> result string;
  days_between : Z -> Z -> result Z;
  day_name : Z -> result string;
  month_name : Z -> result string;
  year : Z -> result Z
}.

(** ** Insight records *)

Record summary : Type := mkSummary {
  numerical_columns : list string;
  statistics : gmap string pd.describe_row
}.

Record outlier_info : Type := mkOutlier {
  o_count : nat;
  o_percentage : float;
  o_values : list float
}.

Record categorical_info : Type := mkCategorical {
  unique_values : nat;
  missing_values : nat;
  missing_percentage : float;
  top_categories : list (cell * nat);
  top_categories_pct : list (cell * float)
}.

Record date_distributions : Type := mkDistributions {
  day_of_week_distribution : list (string * nat);
  month_distribution : list (string * nat);
  year_distribution : list (Z * nat)
}.

Record date_info : Type := mkDate {
  min_date : option string;
  max_date : option string;
  range_days : option Z;
  dt_missing_values : nat;
  dt_missing_percentage : float;
  distributions : option date_distributions
}.

(** What a pass returns and stores.  [RSummary None] is the empty dictionary
    the summary pass returns on its early exits; for the other passes the
    empty dictionary is the empty map. *)
Inductive record : Type :=
  | RSummary (s : option summary)
  | RCorrelations (m : gmap string float)
  | ROutliers (m : gmap string outlier_info)
  | RCategorical (m : gmap string categorical_info)
  | RDates (m : gmap string date_info).

Definition is_empty_record (r : record) : Prop :=
  match r with
  | RSummary s => s = None
  | RCorrelations m => m = ∅
  | ROutliers m => m = ∅
  | RCategorical m => m = ∅
  | RDates m => m = ∅
  end.

(** ** The engine *)

Record ExcelInsights : Type := mkExcelInsights {
  file_path : option string;
  data : option DataFrame;
  sheets : gmap string DataFrame;
  insights : gmap string (gmap string record)
}.

(** [__init__]. *)
Definition init (file_path : option string) : ExcelInsights :=
  {| file_path := file_path; data := None; sheets := ∅; insights := ∅ |}.

Definition with_insights (self : ExcelInsights)
    (ins : gmap string (gmap string record)) : ExcelInsights :=
  {| file_path := file_path self; data := data self; sheets := sheets self;
     insights := ins |}.

(** A method body: it reads and updates [self], appends to the standard
    output, and returns or raises.  What was printed and stored before an
    exception stays. *)
Definition Py (A : Type) : Type :=
  ExcelInsights -> list string -> result A * ExcelInsights * list string.

Definition ret {A} (a : A) : Py A := fun self out => (Ok a, self, out).

Definition bind {A B} (m : Py A) (k : A -> Py B) : Py B :=
  fun self out =>
    match m self out with
    | (Ok a, self', out') => k a self' out'
    | (Raise e, self', out') => (Raise e, self', out')
    end.

Notation "'let*' x ':=' m 'in' k" := (bind m (fun x => k))
  (at level 10, x name, m at level 100, k at level 200).

Definition get_self : Py ExcelInsights := fun self out => (Ok self, self, out).

Definition print (line : string) : Py unit :=
  fun self out => (Ok tt, self, out ++ [line]).

Definition lift {A} (r : result A) : Py A := fun self out => (r, self, out).

(** [for x in l: acc = body x acc]. *)
Fixpoint for_each {A S} (l : list A) (body : A -> S -> Py S) (acc : S) : Py S :=
  match l with
  | [] => ret acc
  | x :: l' => let* acc' := body x acc in for_each l' body acc'
  end.

(** The truth value of [sheet_name]: [None] and the empty string are false. *)
Definition truthy (sheet_name : option string) : bool :=
  match sheet_name with
  | Some s => bool_decide (s ≠ "")
  | None => false
  end.

(** The table a pass works on:
    [if sheet_name and sheet_name in self.sheets: data = self.sheets[sheet_name]
     elif self.data is not None: data = self.data];
    [None] is the final [else]. *)
Definition select_data (self : ExcelInsights) (sheet_name : option string)
    : option DataFrame :=
  match (if truthy sheet_name then sheet_name ≫= (sheets self !!.) else None) with
  | Some d => Some d
  | None => data self
  end.

(** The key a pass stores under:
    [if sheet_name: ...[sheet_name] = r else: ...["default"] = r]. *)
Definition sheet_key (sheet_name : option string) : string :=
  if truthy sheet_name then default "" sheet_name else "default".

(** [if kind not in self.insights: self.insights[kind] = {}], then the
    assignment under the sheet key. *)
Definition store_insight (kind : string) (sheet_name : option string) (r : record)
    (ins : gmap string (gmap string record)) : gmap string (gmap string record) :=
  let ins' := match ins !! kind with
              | None => <[kind := ∅]> ins
              | Some _ => ins
              end in
  <[kind := <[sheet_key sheet_name := r]> (default ∅ (ins' !! kind))]> ins'.

Definition store (kind : string) (sheet_name : option string) (r : record) : Py unit :=
  fun self out =>
    (Ok tt, with_insights self (store_insight kind sheet_name r (insights self)), out).

Definition no_data_loaded : string :=
  "No data loaded. Please load an Excel file first.".

(** *** Summary statistics *)

Definition generate_summary_statistics (sheet_name : option string)
    : Py (option summary) :=
  let* self := get_self in
  match select_data self sheet_name with
  | None => let* _ := print no_data_loaded in ret None
  | Some data =>
    let numerical_cols := pd.select_dtypes_number data in
    match numerical_cols with
    | [] => let* _ := print "No numerical columns found in the data." in ret None
    | _ =>
      let summary :=
        {| numerical_columns := name <$> numerical_cols;
           statistics :=
             list_to_map ((fun c => (name c, pd.describe c)) <$> numerical_cols) |} in
      let* _ := store "summary_statistics" sheet_name (RSummary (Some summary)) in
      ret (Some summary)
    end
  end.

(** *** Correlations *)

(** The two nested loops over [i < j]: the inner loop for a fixed [col1]. *)
Definition correlations_inner (threshold : float) (col1 : Series)
    (later : list Series) (high_correlations : gmap string float)
    : gmap string float :=
  foldl (fun high_correlations col2 =>
           let correlation := pd.corr_loc col1 col2 in
           if F64.geb (F64.abs correlation) threshold
           then <[name col1 +:+ " - " +:+ name col2 := correlation]> high_correlations
           else high_correlations)
        high_correlations later.

Fixpoint correlations_loop (threshold : float) (numerical_cols : list Series)
    (high_correlations : gmap string float) : gmap string float :=
  match numerical_cols with
  | [] => high_correlations
  | col1 :: later =>
    correlations_loop threshold later
      (correlations_inner threshold col1 later high_correlations)
  end.

Definition find_correlations (sheet_name : option string) (threshold : float)
    : Py (gmap string float) :=
  let* self := get_self in
  match select_data self sheet_name with
  | None => let* _ := print no_data_loaded in ret ∅
  | Some data =>
    let numerical_cols := pd.select_dtypes_number data in
    if decide (length numerical_cols < 2) then
      let* _ := print "Need at least 2 numerical columns to calculate correlations." in
      ret ∅
    else
      let high_correlations := correlations_loop threshold numerical_cols ∅ in
      let* _ := store "correlations" sheet_name (RCorrelations high_correlations) in
      ret high_correlations
  end.

(** *** Outliers *)

Definition unknown_method (method : string) : string :=
  "Unknown method: " +:+ method +:+ ". Using IQR method instead.".

(** One iteration of the loop over the numerical columns.  The first part
    selects [col_outliers]; [None] is the [continue] of the z-score branch.
    [col_data] is of the type [d] of the column. *)
Definition column_outliers (method : string) (threshold : float) (d : dtype)
    (col_data : list float) : Py (option (list float)) :=
  if decide (method = "iqr") then
    let Q1 := pd.quantile col_data (F64.lit 1 4) in
    let Q3 := pd.quantile col_data (F64.lit 3 4) in
    let IQR := F64.sub Q3 Q1 in
    let lower_bound := F64.sub Q1 (F64.mul threshold IQR) in
    let upper_bound := F64.add Q3 (F64.mul threshold IQR) in
    ret (Some (filter (fun x => F64.ltb x lower_bound || F64.gtb x upper_bound = true)
                      col_data))
  else if decide (method = "zscore") then
    let mean := pd.mean d col_data in
    let std := pd.std col_data in
    if F64.eqb std F64.zero then ret None
    else
      let z_score x := F64.abs (F64.div (F64.sub x mean) std) in
      ret (Some (filter (fun x => F64.gtb (z_score x) threshold = true) col_data))
  else
    let* _ := print (unknown_method method) in
    let Q1 := pd.quantile col_data (F64.lit 1 4) in
    let Q3 := pd.quantile col_data (F64.lit 3 4) in
    let IQR := F64.sub Q3 Q1 in
    let lower_bound := F64.sub Q1 (F64.mul threshold IQR) in
    let upper_bound := F64.add Q3 (F64.mul threshold IQR) in
    ret (Some (filter (fun x => F64.ltb x lower_bound || F64.gtb x upper_bound = true)
                      col_data)).

Definition outliers_body (method : string) (threshold : float) (col : Series)
    (outliers : gmap string outlier_info) : Py (gmap string outlier_info) :=
  let col_data := pd.dropna col in
  let* selected := column_outliers method threshold (dt col) col_data in
  match selected with
  | None => ret outliers
  | Some col_outliers =>
    match col_outliers with
    | [] => ret outliers
    | _ =>
      let* ratio := lift (py_truediv (length col_outliers) (length col_data)) in
      ret (<[name col :=
               {| o_count := length col_outliers;
                  o_percentage := F64.mul ratio (F64.of_Z 100);
                  o_values := if decide (length col_outliers <= 10) then col_outliers
                              else take 10 col_outliers |}]> outliers)
    end
  end.

Definition identify_outliers (sheet_name : option string) (method : string)
    (threshold : float) : Py (gmap string outlier_info) :=
  let* self := get_self in
  match select_data self sheet_name with
  | None => let* _ := print no_data_loaded in ret ∅
  | Some data =>
    let numerical_cols := pd.select_dtypes_number data in
    match numerical_cols with
    | [] => let* _ := print "No numerical columns found in the data." in ret ∅
    | _ =>
      let* outliers := for_each numerical_cols (outliers_body method threshold) ∅ in
      let* _ := store "outliers" sheet_name (ROutliers outliers) in
      ret outliers
    end
  end.

(** *** Categorical columns *)

(** [{k: (v / total_count) * 100 for k, v in top_categories.items()}]. *)
Fixpoint percentages (top_categories : list (cell * nat)) (total_count : nat)
    : Py (list (cell * float)) :=
  match top_categories with
  | [] => ret []
  | (k, v) :: rest =>
    let* ratio := lift (py_truediv v total_count) in
    let* rest_pct := percentages rest total_count in
    ret ((k, F64.mul ratio (F64.of_Z 100)) :: rest_pct)
  end.

Definition categorical_body (data : DataFrame) (top_n : Z) (col : Series)
    (categorical_analysis : gmap string categorical_info)
    : Py (gmap string categorical_info) :=
  let value_counts := pd.value_counts (pd.nonnull (values col)) in
  let top_categories := pd.head top_n value_counts in
  let total_count := length (pd.nonnull (values col)) in
  let* top_categories_pct := percentages top_categories total_count in
  let unique_count := pd.nunique (values col) in
  let missing_count := pd.isnull_sum (values col) in
  ret (<[name col :=
           {| unique_values := unique_count;
              missing_values := missing_count;
              missing_percentage :=
                F64.mul (np_truediv missing_count (len_df data)) (F64.of_Z 100);
              top_categories := top_categories;
              top_categories_pct := top_categories_pct |}]> categorical_analysis).

Definition analyze_categorical_data (sheet_name : option string) (top_n : Z)
    : Py (gmap string categorical_info) :=
  let* self := get_self in
  match select_data self sheet_name with
  | None => let* _ := print no_data_loaded in ret ∅
  | Some data =>
    let categorical_cols := pd.select_dtypes_categorical data in
    match categorical_cols with
    | [] => let* _ := print "No categorical columns found in the data." in ret ∅
    | _ =>
      let* categorical_analysis :=
        for_each categorical_cols (categorical_body data top_n) ∅ in
      let* _ := store "categorical_analysis" sheet_name
                      (RCategorical categorical_analysis) in
      ret categorical_analysis
    end
  end.

(** *** The five passes *)

Inductive pass : Type :=
  | SummaryStatistics
  | Correlations (threshold : float)
  | Outliers (method : string) (threshold : float)
  | Categorical (top_n : Z)
  | Dates.

Definition pass_kind (p : pass) : string :=
  match p with
  | SummaryStatistics => "summary_statistics"
  | Correlations _ => "correlations"
  | Outliers _ _ => "outliers"
  | Categorical _ => "categorical_analysis"
  | Dates => "date_analysis"
  end.

(** *** Date columns *)

Section Dates.

Context `{Calendar}.

Definition count_notnull (date_col : list (option Z)) : nat :=
  length (omap id date_col).

Definition count_isnull (date_col : list (option Z)) : nat :=
  length date_col - count_notnull date_col.

(** The column the temporal pass analyses, or [None] where the loop
    [continue]s: a datetime column is taken as it is; any other column is
    converted, and skipped when the conversion raises or when fewer than
    70% of its rows come out as dates. *)
Definition date_column (col : Series) : option (list (option Z)) :=
  if pd.is_datetime64_any_dtype col then Some (pd.as_datetime <$> values col)
  else
    match to_datetime col with
    | None => None
    | Some date_col =>
      if F64.ltb (np_truediv (count_notnull date_col) (length date_col)) (F64.lit 7 10)
      then None
      else Some date_col
    end.

(** [f(t) if not pd.isna(t) else None]. *)
Definition unless_nat {A} (f : Z -> result A) (t : option Z) : result (option A) :=
  match t with
  | Some t => Some <$> f t
  | None => Ok None
  end.

(** The dictionary of one date column, its entries evaluated in the order
    of the source; an exception of the calendar ends the evaluation. *)
Definition date_record (date_col : list (option Z)) : result date_info :=
  min_date ← unless_nat strftime_ymd (pd.date_min date_col);
  max_date ← unless_nat strftime_ymd (pd.date_max date_col);
  range_days ←
    match pd.date_min date_col, pd.date_max date_col with
    | Some lo, Some hi => Some <$> days_between lo hi
    | _, _ => Ok None
    end;
  distributions ←
    (if decide (10 < count_notnull date_col) then
       let dates := omap id date_col in
       day_names ← map_result day_name dates;
       month_names ← map_result month_name dates;
       years ← map_result year dates;
       mret (Some {| day_of_week_distribution := pd.value_counts day_names;
                     month_distribution := pd.value_counts month_names;
                     year_distribution := pd.value_counts years |})
     else Ok None);
  mret {| min_date := min_date;
          max_date := max_date;
          range_days := range_days;
          dt_missing_values := count_isnull date_col;
          dt_missing_percentage :=
            F64.mul (np_truediv (count_isnull date_col) (length date_col))
                    (F64.of_Z 100);
          distributions := distributions |}.

(** One iteration of the loop over the columns. *)
Definition dates_body (col : Series) (date_analysis : gmap string date_info)
    : Py (gmap string date_info) :=
  match date_column col with
  | None => ret date_analysis
  | Some date_col =>
    let* info := lift (date_record date_col) in
    ret (<[name col := info]> date_analysis)
  end.

Definition analyze_date_columns (sheet_name : option string)
    : Py (gmap string date_info) :=
  let* self := get_self in
  match select_data self sheet_name with
  | None => let* _ := print no_data_loaded in ret ∅
  | Some data =>
    let* date_analysis := for_each data dates_body ∅ in
    let* _ := store "date_analysis" sheet_name (RDates date_analysis) in
    ret date_analysis
  end.

Definition fmap_py {A B} (f : A -> B) (m : Py A) : Py B :=
  let* a := m in ret (f a).

Definition run_pass (p : pass) (sheet_name : option string) : Py record :=
  match p with
  | SummaryStatistics => fmap_py RSummary (generate_summary_statistics sheet_name)
  | Correlations threshold =>
      fmap_py RCorrelations (find_correlations sheet_name threshold)
  | Outliers method threshold =>
      fmap_py ROutliers (identify_outliers sheet_name method threshold)
  | Categorical top_n =>
      fmap_py RCategorical (analyze_categorical_data sheet_name top_n)
  | Dates => fmap_py RDates (analyze_date_columns sheet_name)
  end.

End Dates.

(** * Reading the passes

    The loops of the passes as folds, and the vocabulary of the claims. *)

(** ** Method bodies that only print *)

(** [m] returns [a] without raising, leaves [self] as it was and prints
    [msgs], whatever the state it starts from. *)
Definition prints {A} (m : Py A) (a : A) (msgs : list string) : Prop :=
  forall self out, m self out = (Ok a, self, out ++ msgs).

(** ** The outlier loop *)

(** The values the IQR rule selects. *)
Definition iqr_selected (threshold : float) (col_data : list float) : list float :=
  let Q1 := pd.quantile col_data (F64.lit 1 4) in
  let Q3 := pd.quantile col_data (F64.lit 3 4) in
  let IQR := F64.sub Q3 Q1 in
  let lower_bound := F64.sub Q1 (F64.mul threshold IQR) in
  let upper_bound := F64.add Q3 (F64.mul threshold IQR) in
  filter (fun x => F64.ltb x lower_bound || F64.gtb x upper_bound = true) col_data.

(** The values the z-score rule selects. *)
Definition zscore_selected (threshold : float) (d : dtype) (col_data : list float)
    : list float :=
  let mean := pd.mean d col_data in
  let std := pd.std col_data in
  filter (fun x => F64.gtb (F64.abs (F64.div (F64.sub x mean) std)) threshold = true)
         col_data.

(** What one iteration leaves in [outliers], given the selection. *)
Definition add_outliers (col : Series) (selected : option (list float))
    (outliers : gmap string outlier_info) : gmap string outlier_info :=
  match selected with
  | None | Some [] => outliers
  | Some col_outliers =>
    <[name col :=
        {| o_count := length col_outliers;
           o_percentage :=
             F64.mul (np_truediv (length col_outliers) (length (pd.dropna col)))
                     (F64.of_Z 100);
           o_values := take 10 col_outliers |}]> outliers
  end.

(** The selection of a method, and what it prints. *)
Definition selection (method : string) (threshold : float) (d : dtype)
    (col_data : list float) : option (list float) :=
  if decide (method = "zscore") then
    if F64.eqb (pd.std col_data) F64.zero then None
    else Some (zscore_selected threshold d col_data)
  else Some (iqr_selected threshold col_data).

Definition selection_msgs (method : string) : list string :=
  if decide (method = "iqr") then []
  else if decide (method = "zscore") then []
  else [unknown_method method].

(** The loop as a fold. *)
Definition outliers_of (method : string) (threshold : float) (cols : list Series)
    (outliers : gmap string outlier_info) : gmap string outlier_info :=
  foldl (fun outliers col =>
           add_outliers col (selection method threshold (dt col) (pd.dropna col)) outliers)
        outliers cols.

(** The entry one iteration of the outlier loop writes, if any. *)
Definition outlier_entry (method : string) (threshold : float) (col : Series)
    : option outlier_info :=
  match selection method threshold (dt col) (pd.dropna col) with
  | None | Some [] => None
  | Some col_outliers =>
    Some {| o_count := length col_outliers;
            o_percentage :=
              F64.mul (np_truediv (length col_outliers) (length (pd.dropna col)))
                      (F64.of_Z 100);
            o_values := take 10 col_outliers |}
  end.

(** ** The categorical loop *)

Definition pct_of (top_categories : list (cell * nat)) (total_count : nat)
    : list (cell * float) :=
  (fun kv => (kv.1, F64.mul (np_truediv kv.2 total_count) (F64.of_Z 100)))
    <$> top_categories.

Definition categorical_entry (data : DataFrame) (top_n : Z) (col : Series)
    : categorical_info :=
  let top := pd.head top_n (pd.value_counts (pd.nonnull (values col))) in
  {| unique_values := pd.nunique (values col);
     missing_values := pd.isnull_sum (values col);
     missing_percentage :=
       F64.mul (np_truediv (pd.isnull_sum (values col)) (len_df data)) (F64.of_Z 100);
     top_categories := top;
     top_categories_pct := pct_of top (length (pd.nonnull (values col))) |}.

Definition categorical_of (data : DataFrame) (top_n : Z) (cols : list Series)
    (acc : gmap string categorical_info) : gmap string categorical_info :=
  foldl (fun acc col => <[name col := categorical_entry data top_n col]> acc) acc cols.

(** ** The five passes as functions of the selected table *)

Definition summary_of (cols : list Series) : summary :=
  {| numerical_columns := name <$> cols;
     statistics := list_to_map ((fun c => (name c, pd.describe c)) <$> cols) |}.

(** The table has the columns the pass works on; otherwise the pass leaves
    by an early [return {}] and stores nothing. *)
Definition has_required_columns (p : pass) (data : DataFrame) : bool :=
  match p with
  | SummaryStatistics | Outliers _ _ => bool_decide (pd.select_dtypes_number data ≠ [])
  | Correlations _ => bool_decide (2 <= length (pd.select_dtypes_number data))
  | Categorical _ => bool_decide (pd.select_dtypes_categorical data ≠ [])
  | Dates => true
  end.

(** The empty dictionary, as each pass returns it. *)
Definition empty_record (p : pass) : record :=
  match p with
  | SummaryStatistics => RSummary None
  | Correlations _ => RCorrelations ∅
  | Outliers _ _ => ROutliers ∅
  | Categorical _ => RCategorical ∅
  | Dates => RDates ∅
  end.

(** The diagnostics of a pass on a table. *)
Definition pass_msgs (p : pass) (data : DataFrame) : list string :=
  if has_required_columns p data then
    match p with
    | Outliers method _ => pd.select_dtypes_number data ≫= fun _ => selection_msgs method
    | _ => []
    end
  else
    match p with
    | SummaryStatistics | Outliers _ _ => ["No numerical columns found in the data."]
    | Correlations _ => ["Need at least 2 numerical columns to calculate correlations."]
    | Categorical _ => ["No categorical columns found in the data."]
    | Dates => []
    end.

Section PassResults.

Context `{Calendar}.

(** The loop of the temporal pass: the dictionary it builds, or the
    exception of the first date column whose record raises. *)
Fixpoint date_records (data : list Series) (date_analysis : gmap string date_info)
    : result (gmap string date_info) :=
  match data with
  | [] => Ok date_analysis
  | col :: rest =>
    match date_column col with
    | None => date_records rest date_analysis
    | Some date_col =>
      info ← date_record date_col;
      date_records rest (<[name col := info]> date_analysis)
    end
  end.

(** The entry of a column whose record does not raise. *)
Definition date_entry (col : Series) : option date_info :=
  match date_column col with
  | Some date_col =>
    match date_record date_col with
    | Ok info => Some info
    | Raise _ => None
    end
  | None => None
  end.

(** The calendar raises on none of the date columns of the table. *)
Definition calendar_succeeds (data : DataFrame) : Prop :=
  forall col date_col,
    col ∈ data -> date_column col = Some date_col ->
    exists info, date_record date_col = Ok info.

(** What a pass returns on a table, or the exception it ends with. *)
Definition pass_result (p : pass) (data : DataFrame) : result record :=
  if has_required_columns p data then
    match p with
    | SummaryStatistics =>
        Ok (RSummary (Some (summary_of (pd.select_dtypes_number data))))
    | Correlations threshold =>
        Ok (RCorrelations (correlations_loop threshold (pd.select_dtypes_number data) ∅))
    | Outliers method threshold =>
        Ok (ROutliers (outliers_of method threshold (pd.select_dtypes_number data) ∅))
    | Categorical top_n =>
        Ok (RCategorical (categorical_of data top_n (pd.select_dtypes_categorical data) ∅))
    | Dates => RDates <$> date_records data ∅
    end
  else Ok (empty_record p).

(** The number of entries of a column that [to_datetime] turns into dates. *)
Definition parsed_count (col : Series) : nat :=
  match to_datetime col with
  | Some date_col => count_notnull date_col
  | None => 0
  end.

End PassResults.

(** One iteration of a loop that fills a dictionary keyed by the column
    label: the column gets an entry, or is passed over. *)
Definition keyed_step {V : Type} (entry : Series -> option V)
    (acc : gmap string V) (col : Series) : gmap string V :=
  match entry col with
  | Some v => <[name col := v]> acc
  | None => acc
  end.

(** ** The correlation loop *)

Definition pair_key (col1 col2 : Series) : string :=
  name col1 +:+ " - " +:+ name col2.

(** The pairs [(numerical_cols[i], numerical_cols[j])] with [i < j], in the
    order the nested loops visit them. *)
Fixpoint pairs (cols : list Series) : list (Series * Series) :=
  match cols with
  | [] => []
  | col1 :: later => ((fun col2 => (col1, col2)) <$> later) ++ pairs later
  end.

(** [abs(correlation) >= threshold]. *)
Definition reported (threshold : float) (p : Series * Series) : bool :=
  F64.geb (F64.abs (pd.corr_loc p.1 p.2)) threshold.

Definition pair_step (threshold : float) (acc : gmap string float)
    (p : Series * Series) : gmap string float :=
  if reported threshold p
  then <[pair_key p.1 p.2 := pd.corr_loc p.1 p.2]> acc
  else acc.

(** The sum of squared deviations from the mean that [nancorr] accumulates
    for [col] when it is paired with [other] (over the rows where both are
    finite): the numerator of the variance of [col]. *)
Definition squared_deviations (col other : Series) : float :=
  pd.ssqdm_x (pd.welford_run (pd.to_float <$> values col) (pd.to_float <$> values other)).

Definition zero_variance_with (col other : Series) : Prop :=
  F64.is_zero (squared_deviations col other) = true.

(** The accumulators of the two columns do not depend on which of them is
    [x] and which is [y]. *)
Definition mirrored (w w' : pd.welford) : Prop :=
  pd.nobs w = pd.nobs w'
  /\ pd.meanx w = pd.meany w' /\ pd.meany w = pd.meanx w'
  /\ pd.ssqdm_x w = pd.ssqdm_y w' /\ pd.ssqdm_y w = pd.ssqdm_x w'.

Fixpoint has_dash (s : string) : bool :=
  match s with
  | EmptyString => false
  | String a rest => bool_decide (a = "-"%char) || has_dash rest
  end.

(** ** A calendar for ISO dates

    An instance of [Calendar] for columns whose dates are written
    [YYYY-MM-DD]: the proleptic Gregorian calendar, timestamps in
    nanoseconds since 1970-01-01. *)

Module Iso.

Local Open Scope Z_scope.

Definition ns_per_day : Z := 86400000000000.

Definition digit (a : ascii) : option Z :=
  let n := Z.of_nat (nat_of_ascii a) in
  if decide (48 <= n <= 57) then Some (n - 48) else None.

Fixpoint number (s : string) (acc : Z) : option Z :=
  match s with
  | EmptyString => Some acc
  | String a rest => d ← digit a; number rest (10 * acc + d)
  end.

Definition is_leap (y : Z) : bool :=
  bool_decide (y `mod` 4 = 0 /\ (y `mod` 100 ≠ 0 \/ y `mod` 400 = 0)).

Definition days_in_month (y m : Z) : Z :=
  if decide (m = 2) then (if is_leap y then 29 else 28)
  else if decide (m = 4 \/ m = 6 \/ m = 9 \/ m = 11) then 30
  else 31.

(** Days since 1970-01-01 of a civil date. *)
Definition days_from_civil (y m d : Z) : Z :=
  let y' := if decide (m <= 2) then y - 1 else y in
  let era := y' `div` 400 in
  let yoe := y' - era * 400 in
  let doy := (153 * (if decide (2 < m) then m - 3 else m + 9) + 2) `div` 5 + d - 1 in
  let doe := yoe * 365 + yoe `div` 4 - yoe `div` 100 + doy in
  era * 146097 + doe - 719468.

(** The civil date of a day number. *)
Definition civil_from_days (z : Z) : Z * Z * Z :=
  let z' := z + 719468 in
  let era := z' `div` 146097 in
  let doe := z' - era * 146097 in
  let yoe := (doe - doe `div` 1460 + doe `div` 36524 - doe `div` 146096) `div` 365 in
  let doy := doe - (365 * yoe + yoe `div` 4 - yoe `div` 100) in
  let mp := (5 * doy + 2) `div` 153 in
  let d := doy - (153 * mp + 2) `div` 5 + 1 in
  let m := if decide (mp < 10) then mp + 3 else mp - 9 in
  let y := yoe + era * 400 in
  (if decide (m <= 2) then y + 1 else y, m, d).

(** [YYYY-MM-DD], or [None] ([NaT]) for anything else. *)
Definition parse (s : string) : option Z :=
  if decide (String.length s = 10%nat /\ String.get 4 s = Some "-"%char
             /\ String.get 7 s = Some "-"%char) then
    y ← number (String.substring 0 4 s) 0;
    m ← number (String.substring 5 2 s) 0;
    d ← number (String.substring 8 2 s) 0;
    if decide (1 <= m <= 12 /\ 1 <= d <= days_in_month y m)
    then Some (days_from_civil y m d * ns_per_day)
    else None
  else None.

(** A number is an offset from the epoch in nanoseconds, cut to an
    integer; NaN, the infinities and the offsets that do not fit 64 bits
    become [NaT]. *)
Definition of_epoch (x : float) : option Z :=
  match x with
  | S754_zero _ => Some 0
  | S754_finite s m e =>
      let ns := cond_Zopp s (Z.shiftl (Zpos m) e) in
      if decide (- 2 ^ 63 < ns < 2 ^ 63) then Some ns else None
  | _ => None
  end.

Definition parse_cell (c : cell) : option Z :=
  match c with
  | VStr s => parse s
  | VDate ns => Some ns
  | VNum x => of_epoch x
  | _ => None
  end.

Definition is_bool (c : cell) : bool :=
  match c with VBool _ => true | _ => false end.

(** A boolean is refused with a [TypeError], whatever [errors] is; the
    entries of a column without booleans are converted one by one. *)
Definition to_datetime (col : Series) : option (list (option Z)) :=
  if existsb is_bool (values col) then None
  else Some (parse_cell <$> values col).

Definition digit_char (d : Z) : ascii := ascii_of_nat (Z.to_nat (48 + d `mod` 10)).

Definition pad2 (n : Z) : string :=
  String (digit_char (n `div` 10)) (String (digit_char n) EmptyString).

Definition pad4 (n : Z) : string :=
  String (digit_char (n `div` 1000)) (String (digit_char (n `div` 100)) (pad2 n)).

(** [strftime] goes through Python's [datetime], which has the years 1 to
    9999 only. *)
Definition strftime_ymd (ns : Z) : result string :=
  let '(y, m, d) := civil_from_days (ns `div` ns_per_day) in
  if decide (1 <= y <= 9999)
  then Ok (pad4 y +:+ "-" +:+ pad2 m +:+ "-" +:+ pad2 d)
  else Raise NotImplementedError.

(** The whole days from [lo] to [hi].  The parsed dates of the years 0000
    to 9999 are kept with a resolution at which their differences fit a
    [Timedelta]. *)
Definition days_between (lo hi : Z) : result Z := Ok ((hi - lo) `div` ns_per_day).

Definition day_name (ns : Z) : result string :=
  Ok (nth (Z.to_nat ((ns `div` ns_per_day + 4) `mod` 7))
          ["Sunday"; "Monday"; "Tuesday"; "Wednesday"; "Thursday"; "Friday"; "Saturday"]
          "").

Definition month_name (ns : Z) : result string :=
  Ok (nth (Z.to_nat ((civil_from_days (ns `div` ns_per_day)).1.2 - 1))
          ["January"; "February"; "March"; "April"; "May"; "June"; "July"; "August";
           "September"; "October"; "November"; "December"]
          "").

Definition year (ns : Z) : result Z := Ok (civil_from_days (ns `div` ns_per_day)).1.1.

Definition calendar : Calendar :=
  Build_Calendar to_datetime strftime_ymd days_between day_name month_name year.

End Iso.

(** ** Sample tables *)

(** An engine as [load_excel] leaves it after reading a workbook with the
    single sheet [Sheet1]. *)
Definition engine_with (d : DataFrame) : ExcelInsights :=
  {| file_path := Some "book.xlsx"; data := Some d;
     sheets := {["Sheet1" := d]}; insights := ∅ |}.

Definition numbers (label : string) (l : list Z) : Series :=
  mkSeries label Int64 (VNum <$> (F64.of_Z <$> l)).

Definition notes_only : DataFrame :=
  [mkSeries "notes" Object [VStr "ok"; VStr "late"]].

Definition flat_and_spread : DataFrame :=
  [numbers "flat" [5; 5; 5; 5; 5]%Z; numbers "spread" [1; 2; 3; 4; 1000]%Z].

Definition small_column : list float := F64.of_Z <$> [1; 2; 3; 100]%Z.

(** A blank worksheet column, as [pd.read_excel] returns it: float64, every
    entry NaN. *)
Definition blank_column : Series :=
  mkSeries "remarks" Float64 [VNum F64.nan; VNum F64.nan; VNum F64.nan].

Definition unfilled_notes : DataFrame :=
  [numbers "amount" [10; 20]%Z; mkSeries "notes" Object [VNone; VNone]].

(** Ten rows: four ISO dates, one entry that is not a date, five empty
    cells. *)
Definition half_empty_dates : Series :=
  mkSeries "shipped" Object
    [VStr "2024-01-01"; VStr "2024-01-02"; VStr "2024-01-03"; VStr "2024-01-04";
     VStr "pending"; VNone; VNone; VNone; VNone; VNone].

(** Ten rows, seven of them ISO dates. *)
Definition mostly_dates : Series :=
  mkSeries "shipped" Object
    [VStr "2024-01-01"; VStr "2024-01-02"; VStr "2024-01-03"; VStr "2024-01-04";
     VStr "2024-03-04"; VStr "2024-03-05"; VStr "2024-03-06"; VNone; VNone; VNone].

(** Dates of the years 0 and 1: they parse, and [strftime] refuses the
    earliest. *)
Definition year_zero : Series :=
  mkSeries "founded" Object [VStr "0000-01-01"; VStr "0000-06-15"; VStr "0001-01-01"].

(** Four numeric columns, two of whose pairs form the same key
    "a - b - c". *)
Definition colliding_labels : DataFrame :=
  [numbers "a" [1; 2; 3]%Z; numbers "b - c" [1; 2; 4]%Z;
   numbers "a - b" [1; 2; 3]%Z; numbers "c" [3; 2; 1]%Z].

Definition three_measures : DataFrame :=
  [numbers "height" [1; 2; 3]%Z; numbers "weight" [1; 2; 4]%Z;
   numbers "age" [3; 2; 1]%Z].

(** ** The claims as the specification states them *)

(** The entry the IQR pass with threshold 1.5 reports for a column, on an
    engine whose only table is that column. *)
Definition iqr_report (col : Series) : option outlier_info :=
  match identify_outliers None "iqr" (F64.lit 3 2) (engine_with [col]) [] with
  | (Ok r, _, _) => r !! name col
  | _ => None
  end.

(** C2, as stated: quartiles 1.75 and 51.5, IQR 49.75, no outlier in
    [1, 2, 3, 100]; 1000 flagged in [1, 2, 3, 4, 1000]. *)
Definition C2_scenario_as_stated : Prop :=
  pd.quantile small_column (F64.lit 1 4) = F64.lit 175 100
  /\ pd.quantile small_column (F64.lit 3 4) = F64.lit 515 10
  /\ F64.sub (pd.quantile small_column (F64.lit 3 4))
             (pd.quantile small_column (F64.lit 1 4)) = F64.lit 4975 100
  /\ iqr_report (numbers "x" [1; 2; 3; 100]%Z) = None
  /\ exists info, iqr_report (numbers "x" [1; 2; 3; 4; 1000]%Z) = Some info
                  /\ F64.of_Z 1000 ∈ o_values info.

(** C7, as stated: the categorical pass over a table reports, for a column
    without any non-null value, a record with 0 unique values and no top
    category. *)
Definition C7_claim_as_stated (top_n : Z) (d : DataFrame) (col : Series) : Prop :=
  exists (r : gmap string categorical_info) (self' : ExcelInsights) (out' : list string),
    analyze_categorical_data None top_n (engine_with d) [] = (Ok r, self', out')
    /\ exists info, r !! name col = Some info
                    /\ unique_values info = 0 /\ top_categories info = [].

(** C1, as stated: on any table, every pair [i < j] of numeric columns whose
    coefficient passes the threshold is in the result under the key
    "colA - colB" with that coefficient. *)
Definition C1_claim_as_stated (threshold : float) (d : DataFrame) : Prop :=
  exists (r : gmap string float) (self' : ExcelInsights) (out' : list string),
    find_correlations None threshold (engine_with d) [] = (Ok r, self', out')
    /\ forall i j col1 col2,
         i < j ->
         pd.select_dtypes_number d !! i = Some col1 ->
         pd.select_dtypes_number d !! j = Some col2 ->
         F64.geb (F64.abs (pd.corr_loc col1 col2)) threshold = true ->
         r !! pair_key col1 col2 = Some (pd.corr_loc col1 col2).

(** C8, as stated: with a method that is not known, the pass returns what
    the IQR run returns and its output tells the two runs apart. *)
Definition C8_claim_as_stated (method : string) (threshold : float)
    (self : ExcelInsights) : Prop :=
  exists (r : gmap string outlier_info) (self' : ExcelInsights)
         (out_iqr out_method : list string),
    identify_outliers None "iqr" threshold self [] = (Ok r, self', out_iqr)
    /\ identify_outliers None method threshold self [] = (Ok r, self', out_method)
    /\ out_method ≠ out_iqr.

(** An engine that has summarised [three_measures] and then got a table
    without numeric columns as its default table. *)
Definition engine_with_old_summary : ExcelInsights :=
  let '(_, self, _) := generate_summary_statistics None (engine_with three_measures) [] in
  {| file_path := file_path self; data := Some notes_only;
     sheets := <["Sheet1" := notes_only]> (sheets self); insights := insights self |}.

Section ClaimsAsStated.

Context `{Calendar}.

(** C6, as stated: after a pass has returned a record, that record is the
    one stored under its (kind, sheet) key. *)
Definition C6_claim_as_stated (p : pass) (sheet_name : option string)
    (self : ExcelInsights) : Prop :=
  forall (r : record) (self' : ExcelInsights) (out' : list string),
    run_pass p sheet_name self [] = (Ok r, self', out') ->
    insights self' !! pass_kind p ≫= (.!! sheet_key sheet_name) = Some r.

(** C10, as stated: with a default table loaded and a sheet name that is not
    in the sheet collection, the pass returns a non-empty result and stores
    it under the given name. *)
Definition unknown_sheet_claim (p : pass) (s : string) (self : ExcelInsights) : Prop :=
  exists (r : record) (self' : ExcelInsights) (out' : list string),
    run_pass p (Some s) self [] = (Ok r, self', out')
    /\ ~ is_empty_record r
    /\ insights self' !! pass_kind p ≫= (.!! s) = Some r.

(** The temporal pass, run on an engine whose table is [d], reports [col]. *)
Definition treated_as_date (d : DataFrame) (col : Series) : Prop :=
  exists (r : gmap string date_info) (self' : ExcelInsights) (out' : list string),
    analyze_date_columns None (engine_with d) [] = (Ok r, self', out')
    /\ is_Some (r !! name col).

(** C3, as stated: a string column is treated as a date column exactly when
    at least 70% of its non-null values parse. *)
Definition C3_claim_as_stated (d : DataFrame) (col : Series) : Prop :=
  treated_as_date d col
  <-> 7 * pd.notnull_sum (values col) <= 10 * parsed_count col.

End ClaimsAsStated.

From stdpp Require Import sorting pretty.

(** * Vocabulary of the further properties *)

(** ** The tests of the outlier pass *)

(** [(col_data < lower_bound) | (col_data > upper_bound)] on one value. *)
Definition outside_iqr_bounds (threshold : float) (col_data : list float) (x : float)
    : bool :=
  let Q1 := pd.quantile col_data (F64.lit 1 4) in
  let Q3 := pd.quantile col_data (F64.lit 3 4) in
  let IQR := F64.sub Q3 Q1 in
  let lower_bound := F64.sub Q1 (F64.mul threshold IQR) in
  let upper_bound := F64.add Q3 (F64.mul threshold IQR) in
  F64.ltb x lower_bound || F64.gtb x upper_bound.

(** [abs((col_data - mean) / std) > threshold] on one value. *)
Definition zscore_above (threshold : float) (d : dtype) (col_data : list float)
    (x : float) : bool :=
  F64.gtb (F64.abs (F64.div (F64.sub x (pd.mean d col_data)) (pd.std col_data)))
          threshold.

(** ** Frequency tables *)

(** The order of [value_counts]: counts do not increase. *)
Definition by_count_desc {A} (a b : A * nat) : Prop := b.2 <= a.2.

(** The value an entry is compared by: two entries that are not null are
    equal for Python exactly when they have the same key. *)
Definition float_key (x : float) : float :=
  match x with S754_zero _ => F64.zero | _ => x end.

Definition category_key (c : cell) : cell :=
  match c with
  | VNum x => VNum (float_key x)
  | VBool b => VNum (F64.of_Z (if b then 1 else 0))
  | _ => c
  end.

(** ** Further sample tables *)

(** Six rows of region labels, one of them empty. *)
Definition regions : Series :=
  mkSeries "region" Object
    [VStr "north"; VStr "south"; VStr "north"; VNone; VStr "east"; VStr "north"].

Definition mixed_labels : DataFrame :=
  [numbers "amount" [10; 20; 30; 40; 50; 60]%Z; regions].

(** A datetime column, three of whose four entries are missing. *)
Definition sparse_dates : Series :=
  mkSeries "shipped" Datetime64 [VDate 1704067200000000000; VNone; VNone; VNone].

(** * Loading a workbook *)

(** What a call into a library gives back to a caller that catches
    exceptions: the value, or the exception with its message [str(e)]. *)
Inductive outcome (A : Type) : Type :=
  | Returned (a : A)
  | Raised (message : string).

Arguments Returned {A} a.
Arguments Raised {A} message.

(** The Excel reader of pandas: [pd.ExcelFile(path).sheet_names] and
    [pd.read_excel(path, sheet_name=sheet)]. *)
Class ExcelReader : Type := {
  sheet_names_of : string -> outcome (list string);
  read_excel : string -> string -> outcome DataFrame
}.

(** [p[p.rfind("/") + 1:]] when [p] has a slash. *)
Fixpoint after_last_sep (p : string) : option string :=
  match p with
  | EmptyString => None
  | String c rest =>
      match after_last_sep rest with
      | Some tail => Some tail
      | None => if bool_decide (c = "/"%char) then Some rest else None
      end
  end.

(** [os.path.basename] of [posixpath]. *)
Definition basename (p : string) : string := default p (after_last_sep p).

Definition set_file_path (self : ExcelInsights) (p : option string) : ExcelInsights :=
  {| file_path := p; data := data self; sheets := sheets self;
     insights := insights self |}.

(** [self.sheets[sheet] = df]. *)
Definition set_sheet (self : ExcelInsights) (sheet : string) (df : DataFrame)
    : ExcelInsights :=
  {| file_path := file_path self; data := data self;
     sheets := <[sheet := df]> (sheets self); insights := insights self |}.

(** [self.data = df]. *)
Definition set_data (self : ExcelInsights) (df : DataFrame) : ExcelInsights :=
  {| file_path := file_path self; data := Some df; sheets := sheets self;
     insights := insights self |}.

Definition no_file_path : string := "Error: No file path provided.".

Definition loaded_message (sheet_names : list string) (p : string) : string :=
  "Successfully loaded " +:+ pretty (length sheet_names) +:+ " sheets from "
    +:+ basename p.

Definition error_loading (e : string) : string := "Error loading Excel file: " +:+ e.

Section Loading.

Context `{ExcelReader}.

(** [for sheet in sheet_names: self.sheets[sheet] = pd.read_excel(...)]: the
    sheets stored before an exception stay in [self.sheets]. *)
Fixpoint read_sheets (p : string) (sheet_names : list string) (self : ExcelInsights)
    : outcome unit * ExcelInsights :=
  match sheet_names with
  | [] => (Returned tt, self)
  | sheet :: rest =>
      match read_excel p sheet with
      | Returned df => read_sheets p rest (set_sheet self sheet df)
      | Raised e => (Raised e, self)
      end
  end.

(** The body of [try]. The lookup [self.sheets[sheet_names[0]]] comes after
    the loop that stored that key; its [KeyError] branch is kept for the
    shape of the code and is never taken. *)
Definition load_sheets (p : string) (self : ExcelInsights) (out : list string)
    : outcome unit * ExcelInsights * list string :=
  match sheet_names_of p with
  | Raised e => (Raised e, self, out)
  | Returned sheet_names =>
      match read_sheets p sheet_names self with
      | (Raised e, self) => (Raised e, self, out)
      | (Returned _, self) =>
          match sheet_names with
          | [] => (Returned tt, self, out ++ [loaded_message sheet_names p])
          | first :: _ =>
              match sheets self !! first with
              | Some df =>
                  (Returned tt, set_data self df, out ++ [loaded_message sheet_names p])
              | None => (Raised ("'" +:+ first +:+ "'"), self, out)
              end
          end
      end
  end.

(** [load_excel]: the path given, or else the one of the engine; [False]
    with a diagnostic when there is none or when the reader raises. *)
Definition load_excel (path : option string) : Py bool :=
  fun self out =>
    let self := if truthy path then set_file_path self path else self in
    if negb (truthy (file_path self)) then (Ok false, self, out ++ [no_file_path])
    else
      match load_sheets (default "" (file_path self)) self out with
      | (Returned _, self, out) => (Ok true, self, out)
      | (Raised e, self, out) => (Ok false, self, out ++ [error_loading e])
      end.

End Loading.

(** A reader over workbooks held in memory, each a list of named sheets. *)
Definition lookup_sheet (sheet : string) (book : list (string * DataFrame))
    : outcome DataFrame :=
  match list_find (fun s => s.1 = sheet) book with
  | Some (_, (_, df)) => Returned df
  | None => Raised ("Worksheet named '" +:+ sheet +:+ "' not found")
  end.

Definition missing_file (p : string) : string :=
  "[Errno 2] No such file or directory: '" +:+ p +:+ "'".

Definition memory_reader (files : gmap string (list (string * DataFrame)))
    : ExcelReader :=
  {| sheet_names_of p :=
       match files !! p with
       | Some book => Returned (book.*1)
       | None => Raised (missing_file p)
       end;
     read_excel p sheet :=
       match files !! p with
       | Some book => lookup_sheet sheet book
       | None => Raised (missing_file p)
       end |}.

(** A workbook of two sheets. *)
Definition two_sheets : list (string * DataFrame) :=
  [("Sales", three_measures); ("Notes", mixed_labels)].

Definition shelf : gmap string (list (string * DataFrame)) :=
  {["reports/q1.xlsx" := two_sheets]}.

(** A reader whose second sheet cannot be parsed. *)
Definition damaged_reader : ExcelReader :=
  {| sheet_names_of _ := Returned ["Sales"; "Totals"; "Notes"];
     read_excel _ sheet :=
       if bool_decide (sheet = "Totals") then Raised "File is not a zip file"
       else Returned three_measures |}.

(** * Charts *)

Global Instance outcome_ret : MRet outcome := fun _ a => Returned a.

(** An exception of a call ends the method. *)
Global Instance outcome_bind : MBind outcome := fun _ _ k m =>
  match m with
  | Returned a => k a
  | Raised e => Raised e
  end.

Definition startswith_sep (p : string) : bool :=
  match p with
  | String c _ => bool_decide (c = "/"%char)
  | EmptyString => false
  end.

Fixpoint endswith_sep (p : string) : bool :=
  match p with
  | EmptyString => false
  | String c EmptyString => bool_decide (c = "/"%char)
  | String _ rest => endswith_sep rest
  end.

(** [os.path.join(a, b)] of [posixpath]. *)
Definition os_path_join (a b : string) : string :=
  if startswith_sep b then b
  else if bool_decide (a = "") || endswith_sep a then a +:+ b
  else a +:+ "/" +:+ b.

(** The five kinds of figure, with the data each is drawn from. *)
Inductive chart : Type :=
  | Histogram (col : Series) (col_data : list float)
  | BarChart (col : Series) (value_counts : list (cell * nat))
  | CorrelationHeatmap (numerical_cols : list Series)
  | BoxPlots (cols : list Series)
  | PieChart (col : Series) (value_counts : list (cell * nat)).

(** The plotting library and the file system.  [makedirs d] is
    [if not os.path.exists(d): os.makedirs(d)].  [render c (Some file_path)]
    is the drawing calls of the figure followed by [plt.savefig(file_path)]
    and [plt.close()]; [render c None] is the drawing calls followed by
    [plt.show()].  None of these exceptions is caught by the method. *)
Class Pyplot : Type := {
  makedirs : string -> outcome unit;
  render : chart -> option string -> outcome unit
}.

Section Charts.

Context `{Pyplot}.

(** The end of each plotting block:
    [if output_dir: file_path = os.path.join(output_dir, file);
       plt.savefig(file_path); saved_files.append(file_path); plt.close()
     else: plt.show()]. *)
Definition save_or_show (output_dir : option string) (c : chart) (file : string)
    (saved_files : list string) : outcome (list string) :=
  if truthy output_dir then
    let file_path := os_path_join (default "" output_dir) file in
    _ ← render c (Some file_path);
    mret (saved_files ++ [file_path])
  else
    _ ← render c None;
    mret saved_files.

(** [for col in cols: ...], threading [saved_files]. *)
Fixpoint plot_each (cols : list Series)
    (body : Series -> list string -> outcome (list string))
    (saved_files : list string) : outcome (list string) :=
  match cols with
  | [] => mret saved_files
  | col :: rest => saved_files ← body col saved_files; plot_each rest body saved_files
  end.

Definition plot_charts (output_dir : option string) (data : DataFrame)
    : outcome (list string) :=
  let saved_files := [] in
  let numerical_cols := pd.select_dtypes_number data in
  let categorical_cols := pd.select_dtypes_categorical data in
  saved_files ←
    plot_each (take 5 numerical_cols)
      (fun col =>
         save_or_show output_dir (Histogram col (pd.dropna col))
           ("histogram_" +:+ name col +:+ ".png"))
      saved_files;
  saved_files ←
    plot_each (take 5 categorical_cols)
      (fun col =>
         let value_counts := pd.head 10 (pd.value_counts (pd.nonnull (values col))) in
         save_or_show output_dir (BarChart col value_counts)
           ("barchart_" +:+ name col +:+ ".png"))
      saved_files;
  saved_files ←
    (if bool_decide (1 < length numerical_cols) then
       save_or_show output_dir (CorrelationHeatmap numerical_cols)
         "correlation_heatmap.png" saved_files
     else mret saved_files);
  saved_files ←
    (if bool_decide (numerical_cols ≠ []) then
       save_or_show output_dir (BoxPlots (take 10 numerical_cols)) "boxplots.png"
         saved_files
     else mret saved_files);
  plot_each (take 3 categorical_cols)
    (fun col saved_files =>
       let value_counts := pd.value_counts (pd.nonnull (values col)) in
       if bool_decide (length value_counts <= 10) then
         save_or_show output_dir (PieChart col value_counts)
           ("piechart_" +:+ name col +:+ ".png") saved_files
       else mret saved_files)
    saved_files.

(** [visualize_data]: the list of the files saved and what is printed; the
    engine is only read. *)
Definition visualize_data (output_dir sheet_name : option string)
    (self : ExcelInsights) (out : list string)
    : outcome (list string) * list string :=
  match select_data self sheet_name with
  | None => (Returned [], out ++ [no_data_loaded])
  | Some data =>
      (_ ← (if truthy output_dir then makedirs (default "" output_dir)
            else Returned tt);
       plot_charts output_dir data,
       out)
  end.

End Charts.

(** A plotting library that draws and saves whatever it is given. *)
Definition drawing_board : Pyplot :=
  {| makedirs _ := Returned tt; render _ _ := Returned tt |}.

(** The file names of the charts of a table, in the order of drawing: a
    histogram for each of the first five numeric columns, a bar chart for
    each of the first five categorical columns, the heatmap when there are
    two numeric columns or more, the box plots when there is one or more,
    and a pie chart for those of the first three categorical columns that
    have at most 10 distinct values. *)
Definition chart_files (data : DataFrame) : list string :=
  let numerical_cols := pd.select_dtypes_number data in
  let categorical_cols := pd.select_dtypes_categorical data in
  ((fun col => "histogram_" +:+ name col +:+ ".png") <$> take 5 numerical_cols)
  ++ ((fun col => "barchart_" +:+ name col +:+ ".png") <$> take 5 categorical_cols)
  ++ (if bool_decide (2 <= length numerical_cols) then ["correlation_heatmap.png"]
      else [])
  ++ (if bool_decide (1 <= length numerical_cols) then ["boxplots.png"] else [])
  ++ ((fun col => "piechart_" +:+ name col +:+ ".png")
        <$> filter (fun col => pd.nunique (values col) <= 10)
                   (take 3 categorical_cols)).

(** A file of a directory: the directory, a slash unless it ends with one,
    and the name of the file. *)
Definition in_dir (dir file : string) : string :=
  dir +:+ (if endswith_sep dir then "" else "/") +:+ file.

(** * Properties *)

(** ** Sums *)

Lemma pairwise_sum_rec_depth (depth depth' : nat) (a : list float) :
  length a <= depth -> length a <= depth' ->
  pd.pairwise_sum_rec depth a = pd.pairwise_sum_rec depth' a.
Proof.
  revert depth' a. induction depth as [|depth IH]; intros depth' a Hd Hd'.
  - destruct a; [|simpl in Hd; lia]. by destruct depth'.
  - destruct depth' as [|depth'].
    { destruct a; [done|simpl in Hd'; lia]. }
    cbn [pd.pairwise_sum_rec]. cbv zeta. repeat case_decide; try done.
    pose proof (Nat.div_mod_eq (length a) 2) as Hhalf.
    pose proof (Nat.mod_upper_bound (length a) 2 ltac:(lia)) as Hrem.
    pose proof (Nat.mod_upper_bound (length a / 2) 8 ltac:(lia)) as Hrem8.
    generalize dependent (length a `mod` 2).
    generalize dependent ((length a / 2) `mod` 8).
    generalize dependent (length a / 2). intros half rem8 Hrem8 rem Hhalf Hrem.
    f_equal; apply IH; rewrite ?length_take, ?length_drop; lia.
Qed.

(** The recursion of [pairwise_sum], as numpy writes it. *)
Lemma pairwise_sum_unfold (a : list float) :
  pd.pairwise_sum a =
  let n := length a in
  if decide (n < 8) then pd.sum_in_order a
  else if decide (n <= 128) then pd.sum_block a
  else
    let n2 := n / 2 - (n / 2) `mod` 8 in
    F64.add (pd.pairwise_sum (take n2 a)) (pd.pairwise_sum (drop n2 a)).
Proof.
  unfold pd.pairwise_sum. destruct (length a) as [|depth] eqn:Hn.
  { by destruct a. }
  cbn [pd.pairwise_sum_rec]. cbv zeta. rewrite Hn. repeat case_decide; try done.
  pose proof (Nat.div_mod_eq (S depth) 2) as Hhalf.
  pose proof (Nat.mod_upper_bound (S depth) 2 ltac:(lia)) as Hrem.
  pose proof (Nat.mod_upper_bound (S depth / 2) 8 ltac:(lia)) as Hrem8.
  generalize dependent (S depth `mod` 2).
  generalize dependent ((S depth / 2) `mod` 8).
  generalize dependent (S depth / 2). intros half rem8 Hrem8 rem Hhalf Hrem.
  f_equal; apply pairwise_sum_rec_depth; rewrite ?length_take, ?length_drop; lia.
Qed.

(** The order of the additions shows in the figures: nine values 0.1 have
    the standard deviation 0 and thirteen have not, and the sum of twelve
    is not the sum in row order. *)
Lemma std_of_equal_values :
  F64.eqb (pd.std (replicate 9 (F64.lit 1 10))) F64.zero = true
  /\ F64.eqb (pd.std (replicate 13 (F64.lit 1 10))) F64.zero = false
  /\ F64.eqb (pd.sum (replicate 12 (F64.lit 1 10)))
             (foldl F64.add F64.zero (replicate 12 (F64.lit 1 10))) = false.
Proof. vm_compute. done. Qed.

(** ** Method bodies that only print *)

Lemma prints_ret {A} (a : A) : prints (ret a) a [].
Proof. intros self out. unfold ret. by rewrite app_nil_r. Qed.

Lemma prints_print (line : string) : prints (print line) tt [line].
Proof. by intros self out. Qed.

Lemma prints_bind {A B} (m : Py A) (k : A -> Py B) a b msgs1 msgs2 :
  prints m a msgs1 -> prints (k a) b msgs2 ->
  prints (let* x := m in k x) b (msgs1 ++ msgs2).
Proof.
  intros Hm Hk self out. unfold bind. rewrite Hm, Hk. by rewrite app_assoc.
Qed.

Lemma prints_lift_ok {A} (a : A) : prints (lift (Ok a)) a [].
Proof. intros self out. unfold lift. by rewrite app_nil_r. Qed.

(** A loop whose body only prints only prints, and an invariant of the
    body holds of its result. *)
Lemma prints_for_each {A S} (body : A -> S -> Py S) (P : S -> Prop) (l : list A) :
  (forall x acc, x ∈ l -> P acc ->
     exists acc' msgs, prints (body x acc) acc' msgs /\ P acc') ->
  forall acc, P acc ->
    exists acc' msgs, prints (for_each l body acc) acc' msgs /\ P acc'.
Proof.
  induction l as [|x l IH]; intros Hbody acc Hacc; simpl.
  - exists acc, []. split; [apply prints_ret | done].
  - destruct (Hbody x acc) as (acc1 & msgs1 & H1 & HP1); [left | done |].
    destruct (IH (fun y a Hy => Hbody y a (list_elem_of_further _ _ _ Hy)) acc1 HP1)
      as (acc2 & msgs2 & H2 & HP2).
    exists acc2, (msgs1 ++ msgs2). split; [|done].
    by apply prints_bind with (a := acc1).
Qed.

(** ** The table selected and the record stored *)

Lemma truthy_Some (s : string) : s ≠ "" -> truthy (Some s) = true.
Proof. intros Hs. simpl. by apply bool_decide_eq_true. Qed.

Lemma select_data_with_insights self ins sheet_name :
  select_data (with_insights self ins) sheet_name = select_data self sheet_name.
Proof. done. Qed.

Lemma select_data_init fp sheet_name : select_data (init fp) sheet_name = None.
Proof.
  unfold select_data, init; simpl.
  destruct (truthy sheet_name); [|done].
  destruct sheet_name as [s|]; simpl; [|done]. by rewrite lookup_empty.
Qed.

Lemma select_data_unknown self (s : string) d :
  sheets self !! s = None -> data self = Some d ->
  select_data self (Some s) = Some d /\ select_data self None = Some d.
Proof.
  intros Hs Hd. unfold select_data; simpl. rewrite Hs, Hd.
  by destruct (bool_decide (s ≠ "")).
Qed.

Lemma store_insight_lookup kind sheet_name r ins :
  store_insight kind sheet_name r ins !! kind ≫= (.!! sheet_key sheet_name) = Some r.
Proof.
  unfold store_insight. rewrite lookup_insert_eq. simpl. by rewrite lookup_insert_eq.
Qed.

Lemma store_insight_idemp kind sheet_name r ins :
  store_insight kind sheet_name r (store_insight kind sheet_name r ins)
  = store_insight kind sheet_name r ins.
Proof.
  destruct (store_insight kind sheet_name r ins !! kind) as [m|] eqn:Hm.
  - assert (m !! sheet_key sheet_name = Some r) as Hr.
    { pose proof (store_insight_lookup kind sheet_name r ins) as H.
      by rewrite Hm in H. }
    unfold store_insight at 1. rewrite Hm. simpl.
    rewrite Hm. simpl. rewrite (insert_id m) by done. by apply insert_id.
  - pose proof (store_insight_lookup kind sheet_name r ins) as H.
    by rewrite Hm in H.
Qed.

(** ** The outlier loop *)

Lemma column_outliers_prints method threshold d col_data :
  prints (column_outliers method threshold d col_data)
         (selection method threshold d col_data) (selection_msgs method).
Proof.
  unfold column_outliers, selection, selection_msgs.
  destruct (decide (method = "iqr")) as [->|Hiqr].
  - rewrite decide_False by done. apply prints_ret.
  - destruct (decide (method = "zscore")) as [->|Hz].
    + destruct (F64.eqb _ _); apply prints_ret.
    + change [unknown_method method] with ([unknown_method method] ++ []).
      eapply prints_bind; [apply prints_print | apply prints_ret].
Qed.

Lemma filter_nonempty {A} (P : A -> Prop) `{forall x, Decision (P x)} (l : list A) :
  filter P l ≠ [] -> length l ≠ 0.
Proof. by destruct l. Qed.

Lemma selection_nonempty method threshold d col_data col_outliers :
  selection method threshold d col_data = Some col_outliers ->
  col_outliers ≠ [] -> length col_data ≠ 0.
Proof.
  unfold selection, zscore_selected, iqr_selected.
  repeat case_match; intros [= <-]; apply filter_nonempty.
Qed.

Lemma take_10 {A} (l : list A) :
  (if decide (length l <= 10) then l else take 10 l) = take 10 l.
Proof. case_decide; [|done]. by rewrite take_ge. Qed.

(** One iteration never raises: the division by [len(col_data)] is only
    reached with a non-empty selection. *)
Lemma outliers_body_prints method threshold col outliers :
  prints (outliers_body method threshold col outliers)
         (add_outliers col (selection method threshold (dt col) (pd.dropna col)) outliers)
         (selection_msgs method).
Proof.
  unfold outliers_body.
  rewrite <- (app_nil_r (selection_msgs method)).
  eapply prints_bind; [apply column_outliers_prints|].
  destruct (selection _ _ _ _) as [[|x co]|] eqn:Hsel; simpl; try apply prints_ret.
  pose proof (selection_nonempty _ _ _ _ _ Hsel) as Hlen.
  intros self out. unfold bind, lift, py_truediv.
  rewrite decide_False by (apply Hlen; done).
  unfold ret, np_truediv. rewrite app_nil_r.
  pose proof (take_10 (x :: co)) as Ht. simpl in Ht |- *. by rewrite Ht.
Qed.

Lemma outliers_loop_prints method threshold cols outliers :
  prints (for_each cols (outliers_body method threshold) outliers)
         (outliers_of method threshold cols outliers)
         (cols ≫= fun _ => selection_msgs method).
Proof.
  revert outliers. induction cols as [|col cols IH]; intros outliers; simpl.
  - apply prints_ret.
  - eapply prints_bind; [apply outliers_body_prints | apply IH].
Qed.

Lemma identify_outliers_run sheet_name method threshold self out :
  identify_outliers sheet_name method threshold self out =
  match select_data self sheet_name with
  | None => (Ok ∅, self, out ++ [no_data_loaded])
  | Some data =>
    match pd.select_dtypes_number data with
    | [] => (Ok ∅, self, out ++ ["No numerical columns found in the data."])
    | cols =>
      let r := outliers_of method threshold cols ∅ in
      (Ok r,
       with_insights self (store_insight "outliers" sheet_name (ROutliers r) (insights self)),
       out ++ (cols ≫= fun _ => selection_msgs method))
    end
  end.
Proof.
  unfold identify_outliers, bind at 1, get_self.
  destruct (select_data self sheet_name) as [d|]; [|done].
  destruct (pd.select_dtypes_number d) as [|c cols] eqn:Hcols; [done|].
  unfold bind at 1. by rewrite outliers_loop_prints.
Qed.

(** ** The categorical loop *)

Lemma percentages_prints top_categories total_count :
  top_categories = [] \/ total_count ≠ 0 ->
  prints (percentages top_categories total_count) (pct_of top_categories total_count) [].
Proof.
  intros Hok. induction top_categories as [|[k v] rest IH]; simpl.
  - apply prints_ret.
  - destruct Hok as [|Hne]; [done|].
    intros self out. unfold bind at 1, lift, py_truediv.
    rewrite decide_False by done.
    unfold bind. rewrite IH by (by right). unfold ret.
    by rewrite !app_nil_r.
Qed.

Lemma head_nil {A} (n : Z) : pd.head n (@nil A) = [].
Proof. unfold pd.head. case_decide; apply take_nil. Qed.

(** One iteration never raises: a top category exists only when some value
    is not null. *)
Lemma categorical_body_prints data top_n col acc :
  prints (categorical_body data top_n col acc)
         (<[name col := categorical_entry data top_n col]> acc) [].
Proof.
  unfold categorical_body.
  change (@nil string) with (@nil string ++ []).
  eapply prints_bind; [|apply prints_ret].
  apply percentages_prints.
  destruct (pd.nonnull (values col)) as [|c l]; [left|by right].
  apply head_nil.
Qed.

Lemma categorical_loop_prints data top_n cols acc :
  prints (for_each cols (categorical_body data top_n) acc)
         (categorical_of data top_n cols acc) [].
Proof.
  revert acc. induction cols as [|col cols IH]; intros acc; simpl.
  - apply prints_ret.
  - change (@nil string) with (@nil string ++ []).
    eapply prints_bind; [apply categorical_body_prints | apply IH].
Qed.

Lemma analyze_categorical_data_run sheet_name top_n self out :
  analyze_categorical_data sheet_name top_n self out =
  match select_data self sheet_name with
  | None => (Ok ∅, self, out ++ [no_data_loaded])
  | Some data =>
    match pd.select_dtypes_categorical data with
    | [] => (Ok ∅, self, out ++ ["No categorical columns found in the data."])
    | cols =>
      let r := categorical_of data top_n cols ∅ in
      (Ok r,
       with_insights self
         (store_insight "categorical_analysis" sheet_name (RCategorical r) (insights self)),
       out)
    end
  end.
Proof.
  unfold analyze_categorical_data, bind at 1, get_self.
  destruct (select_data self sheet_name) as [d|]; [|done].
  destruct (pd.select_dtypes_categorical d) as [|c cols] eqn:Hcols; [done|].
  unfold bind at 1. rewrite categorical_loop_prints. by rewrite app_nil_r.
Qed.

(** ** The five passes as functions of the selected table *)

Lemma empty_record_is_empty p : is_empty_record (empty_record p).
Proof. by destruct p. Qed.

Lemma generate_summary_statistics_run sheet_name self out :
  generate_summary_statistics sheet_name self out =
  match select_data self sheet_name with
  | None => (Ok None, self, out ++ [no_data_loaded])
  | Some data =>
    match pd.select_dtypes_number data with
    | [] => (Ok None, self, out ++ ["No numerical columns found in the data."])
    | cols =>
      (Ok (Some (summary_of cols)),
       with_insights self
         (store_insight "summary_statistics" sheet_name (RSummary (Some (summary_of cols)))
                        (insights self)),
       out)
    end
  end.
Proof.
  unfold generate_summary_statistics, bind at 1, get_self.
  destruct (select_data self sheet_name) as [d|]; [|done].
  by destruct (pd.select_dtypes_number d) as [|c cols] eqn:Hcols.
Qed.

Lemma find_correlations_run sheet_name threshold self out :
  find_correlations sheet_name threshold self out =
  match select_data self sheet_name with
  | None => (Ok ∅, self, out ++ [no_data_loaded])
  | Some data =>
    let cols := pd.select_dtypes_number data in
    if decide (length cols < 2) then
      (Ok ∅, self,
       out ++ ["Need at least 2 numerical columns to calculate correlations."])
    else
      let r := correlations_loop threshold cols ∅ in
      (Ok r,
       with_insights self
         (store_insight "correlations" sheet_name (RCorrelations r) (insights self)),
       out)
  end.
Proof.
  unfold find_correlations, bind at 1, get_self.
  destruct (select_data self sheet_name) as [d|]; [|done].
  simpl. by case_decide.
Qed.

Section Passes.

Context `{Calendar}.

(** The loop of the temporal pass touches nothing and prints nothing. *)
Lemma dates_loop_run (data : list Series) (acc : gmap string date_info) self out :
  for_each data dates_body acc self out = (date_records data acc, self, out).
Proof.
  revert acc. induction data as [|col rest IH]; intros acc; simpl; [done|].
  unfold bind at 1, dates_body.
  destruct (date_column col) as [date_col|]; [|apply IH].
  unfold bind at 1, lift.
  destruct (date_record date_col) as [info|e]; simpl; [apply IH|done].
Qed.

(** When the calendar raises on none of the date columns, the loop returns
    the dictionary of their records. *)
Lemma date_records_ok (data : list Series) (acc : gmap string date_info) :
  calendar_succeeds data ->
  date_records data acc = Ok (foldl (keyed_step date_entry) acc data).
Proof.
  revert acc. induction data as [|col rest IH]; intros acc Hok; simpl; [done|].
  assert (calendar_succeeds rest) as Hrest.
  { intros c dc Hc. apply Hok. by right. }
  unfold keyed_step at 2, date_entry.
  destruct (date_column col) as [date_col|] eqn:Hcol; [|by apply IH].
  destruct (Hok col date_col ltac:(left) Hcol) as [info ->]. simpl. by apply IH.
Qed.

(** The loop returns only when the calendar raises on none of the date
    columns. *)
Lemma date_records_returns (data : list Series) (acc m : gmap string date_info) :
  date_records data acc = Ok m -> calendar_succeeds data.
Proof.
  revert acc. induction data as [|col rest IH]; intros acc Hrun c dc Hc Hdc.
  { by apply elem_of_nil in Hc. }
  simpl in Hrun. destruct (date_column col) as [date_col|] eqn:Hcol.
  - destruct (date_record date_col) as [info|e] eqn:Hrec; [|done]. simpl in Hrun.
    apply elem_of_cons in Hc as [->|Hc]; [|by eapply IH]. simplify_eq. by exists info.
  - apply elem_of_cons in Hc as [->|Hc]; [congruence|by eapply IH].
Qed.

(** An exception of the loop is the exception of the record of one of the
    date columns. *)
Lemma date_records_raises (data : list Series) (acc : gmap string date_info) (e : exn) :
  date_records data acc = Raise e ->
  exists col date_col,
    col ∈ data /\ date_column col = Some date_col /\ date_record date_col = Raise e.
Proof.
  revert acc. induction data as [|col rest IH]; intros acc Hrun; [done|].
  simpl in Hrun. destruct (date_column col) as [date_col|] eqn:Hcol.
  - destruct (date_record date_col) as [info|e'] eqn:Hrec; simpl in Hrun.
    + destruct (IH _ Hrun) as (c & dc & Hc & Hdc & Hraise).
      exists c, dc. split; [by right|done].
    + simplify_eq. exists col, date_col. split; [left|done].
  - destruct (IH _ Hrun) as (c & dc & Hc & Hdc & Hraise).
    exists c, dc. split; [by right|done].
Qed.

Lemma analyze_date_columns_run sheet_name self out :
  analyze_date_columns sheet_name self out =
  match select_data self sheet_name with
  | None => (Ok ∅, self, out ++ [no_data_loaded])
  | Some data =>
    match date_records data ∅ with
    | Ok r =>
      (Ok r,
       with_insights self
         (store_insight "date_analysis" sheet_name (RDates r) (insights self)),
       out)
    | Raise e => (Raise e, self, out)
    end
  end.
Proof.
  unfold analyze_date_columns, bind at 1, get_self.
  destruct (select_data self sheet_name) as [d|]; [|done].
  unfold bind at 1. rewrite dates_loop_run.
  by destruct (date_records d ∅).
Qed.

(** Every pass, on every state: without a table it prints the diagnostic
    and returns the empty dictionary; with one it returns [pass_result],
    and stores it under the sheet key when the table has the columns it
    works on; when the pass raises, the engine and the output are as
    before. *)
Lemma run_pass_run (p : pass) sheet_name self out :
  run_pass p sheet_name self out =
  match select_data self sheet_name with
  | None => (Ok (empty_record p), self, out ++ [no_data_loaded])
  | Some data =>
    match pass_result p data with
    | Ok r =>
      (Ok r,
       if has_required_columns p data
       then with_insights self
              (store_insight (pass_kind p) sheet_name r (insights self))
       else self,
       out ++ pass_msgs p data)
    | Raise e => (Raise e, self, out)
    end
  end.
Proof.
  unfold pass_result, pass_msgs.
  destruct p as [|threshold|method threshold|top_n|]; unfold run_pass, fmap_py, bind; simpl.
  - rewrite generate_summary_statistics_run.
    destruct (select_data self sheet_name) as [d|]; [|done].
    destruct (pd.select_dtypes_number d) as [|c cols]; [done|].
    rewrite bool_decide_eq_true_2 by done. unfold ret. by rewrite app_nil_r.
  - rewrite find_correlations_run.
    destruct (select_data self sheet_name) as [d|]; [|done]. simpl.
    case_decide.
    + rewrite bool_decide_eq_false_2 by lia. done.
    + rewrite bool_decide_eq_true_2 by lia. unfold ret. by rewrite app_nil_r.
  - rewrite identify_outliers_run.
    destruct (select_data self sheet_name) as [d|]; [|done].
    destruct (pd.select_dtypes_number d) as [|c cols]; [done|].
    rewrite bool_decide_eq_true_2 by done. done.
  - rewrite analyze_categorical_data_run.
    destruct (select_data self sheet_name) as [d|]; [|done].
    destruct (pd.select_dtypes_categorical d) as [|c cols]; [done|].
    rewrite bool_decide_eq_true_2 by done. unfold ret. by rewrite app_nil_r.
  - rewrite analyze_date_columns_run.
    destruct (select_data self sheet_name) as [d|]; [|done].
    destruct (date_records d ∅) as [r|e]; simpl; [|done].
    unfold ret. by rewrite app_nil_r.
Qed.

Lemma pass_result_empty p data :
  has_required_columns p data = false -> pass_result p data = Ok (empty_record p).
Proof. unfold pass_result. by intros ->. Qed.

(** Only the temporal pass can raise. *)
Lemma pass_result_raises p data e : pass_result p data = Raise e -> p = Dates.
Proof.
  unfold pass_result. destruct (has_required_columns p data); [|done].
  by destruct p.
Qed.

(** The temporal pass returns exactly when the calendar raises on none of
    the date columns of the table. *)
Lemma dates_result_ok data :
  calendar_succeeds data <-> exists r, pass_result Dates data = Ok r.
Proof.
  unfold pass_result. simpl. split.
  - intros Hok. rewrite date_records_ok by done. by eexists.
  - intros [r Hr]. destruct (date_records data ∅) as [m|e] eqn:Hm; [|done].
    by eapply date_records_returns.
Qed.

End Passes.

(** ** Loops that fill a dictionary keyed by the column label *)

Section KeyedLoop.

Context {V : Type} (entry : Series -> option V).

Lemma keyed_loop_other (cols : list Series) (acc : gmap string V) (k : string) :
  k ∉ name <$> cols -> foldl (keyed_step entry) acc cols !! k = acc !! k.
Proof.
  revert acc. induction cols as [|c cols IH]; intros acc Hk; simpl; [done|].
  rewrite fmap_cons, not_elem_of_cons in Hk. destruct Hk as [Hkc Hk].
  rewrite IH by done. unfold keyed_step.
  destruct (entry c); [|done]. by rewrite lookup_insert_ne.
Qed.

(** With pairwise distinct labels, the entry of a column is decided by its
    own iteration. *)
Lemma keyed_loop_lookup (cols : list Series) (acc : gmap string V) (col : Series) :
  NoDup (name <$> cols) -> col ∈ cols ->
  foldl (keyed_step entry) acc cols !! name col =
  match entry col with
  | Some v => Some v
  | None => acc !! name col
  end.
Proof.
  revert acc. induction cols as [|c cols IH]; intros acc Hnd Hin; simpl.
  - by apply elem_of_nil in Hin.
  - rewrite fmap_cons, NoDup_cons in Hnd. destruct Hnd as [Hc Hnd].
    apply elem_of_cons in Hin as [->|Hin].
    + rewrite keyed_loop_other by done. unfold keyed_step.
      destruct (entry c); [|done]. by rewrite lookup_insert_eq.
    + rewrite IH by done.
      destruct (entry col) eqn:Hcol; [done|].
      unfold keyed_step. destruct (entry c); [|done].
      rewrite lookup_insert_ne; [done|].
      intros Heq. apply Hc. rewrite Heq. by apply list_elem_of_fmap_2.
Qed.

End KeyedLoop.

Lemma foldl_ext_in {A B} (f g : A -> B -> A) (l : list B) (a : A) :
  (forall a x, x ∈ l -> f a x = g a x) -> foldl f a l = foldl g a l.
Proof.
  revert a. induction l as [|x l IH]; intros a Hfg; simpl; [done|].
  rewrite Hfg by left. apply IH. intros a' y Hy. apply Hfg. by right.
Qed.

Lemma NoDup_fmap_filter {A B} (f : A -> B) (P : A -> Prop)
    `{forall x, Decision (P x)} (l : list A) :
  NoDup (f <$> l) -> NoDup (f <$> filter P l).
Proof.
  induction l as [|x l IH]; [done|].
  rewrite fmap_cons, NoDup_cons. intros [Hx Hnd].
  rewrite filter_cons. case_decide; [|by apply IH].
  rewrite fmap_cons, NoDup_cons. split; [|by apply IH].
  intros Hin. apply Hx.
  apply list_elem_of_fmap in Hin as (y & -> & Hy).
  apply list_elem_of_filter in Hy as [_ Hy]. by apply list_elem_of_fmap_2.
Qed.

(** ** Claims about the engine state *)

Section EngineClaims.

Context `{Calendar}.

(** C9. Every one of the five passes, invoked on a freshly constructed engine
    (no table loaded), returns the empty dictionary, prints the
    "No data loaded" diagnostic, leaves the engine unchanged and does not
    raise. *)
Theorem C9_pass_without_table (fp : option string) (p : pass)
    (sheet_name : option string) (out : list string) :
  run_pass p sheet_name (init fp) out
    = (Ok (empty_record p), init fp, out ++ [no_data_loaded])
  /\ is_empty_record (empty_record p).
Proof.
  split; [|apply empty_record_is_empty].
  by rewrite run_pass_run, select_data_init.
Qed.

(** C6 (amended). Running a pass and running it again with the same
    arguments gives the same outcome both times (the same record, or the
    same exception of the temporal pass) and leaves the engine, after the
    second run, exactly as after the first.  When the selected table has the
    columns the pass works on and the pass returns, the record is stored
    under its (kind, sheet) key in place of whatever was there, and the
    record found there afterwards is the one returned.  Otherwise nothing
    is stored: on an early return (no table, or no column to work on) the
    pass returns the empty dictionary and a record stored earlier under
    the key stays; so does it when the temporal pass raises. *)
Theorem C6_rerun_is_idempotent (p : pass) (sheet_name : option string)
    (self : ExcelInsights) (out : list string) :
  exists (res : result record) (self1 : ExcelInsights) (out1 out2 : list string),
    run_pass p sheet_name self out = (res, self1, out1)
    /\ run_pass p sheet_name self1 out1 = (res, self1, out2)
    /\ match select_data self sheet_name with
       | Some d =>
         if has_required_columns p d then
           match res with
           | Ok r =>
             self1 = with_insights self
                       (store_insight (pass_kind p) sheet_name r (insights self))
             /\ insights self1 !! pass_kind p ≫= (.!! sheet_key sheet_name) = Some r
           | Raise _ => p = Dates /\ self1 = self
           end
         else res = Ok (empty_record p) /\ self1 = self
       | None => res = Ok (empty_record p) /\ self1 = self
       end.
Proof.
  destruct (select_data self sheet_name) as [d|] eqn:Hsel.
  - destruct (pass_result p d) as [r|e] eqn:Hres.
    + destruct (has_required_columns p d) eqn:Hreq.
      * exists (Ok r). eexists _, _, _.
        rewrite !run_pass_run, Hsel, Hres, Hreq.
        rewrite select_data_with_insights, Hsel, Hres, Hreq. simpl.
        rewrite store_insight_idemp. do 2 (split; [done|]). split; [done|].
        apply store_insight_lookup.
      * exists (Ok r). eexists _, _, _.
        rewrite !run_pass_run, Hsel, Hres, Hreq.
        rewrite Hsel, Hres, Hreq. do 2 (split; [done|]). split; [|done].
        by rewrite pass_result_empty in Hres.
    + exists (Raise e). eexists _, _, _.
      rewrite !run_pass_run, Hsel, Hres. rewrite Hsel, Hres.
      do 2 (split; [done|]).
      destruct (has_required_columns p d) eqn:Hreq.
      * split; [|done]. by eapply pass_result_raises.
      * by rewrite pass_result_empty in Hres.
  - exists (Ok (empty_record p)). eexists _, _, _.
    rewrite !run_pass_run, Hsel. rewrite Hsel. by do 2 (split; [done|]).
Qed.

(** C10 (amended). With a default table loaded and a non-empty sheet name
    that is not in the sheet collection, a pass does and prints exactly
    what it does when no sheet is named: it returns the same record, or the
    temporal pass raises the same exception of the calendar.  When it
    returns and the default table has the columns the pass works on, the
    record is stored under the given name instead of "default"; when the
    table has not, the pass returns the empty dictionary with a diagnostic
    and stores nothing.  No pass but the temporal one raises, and that one
    only when the calendar raises on a date column of the table. *)
Theorem C10_unknown_sheet_uses_default (p : pass) (s : string)
    (self : ExcelInsights) (d : DataFrame) (out : list string) :
  s ≠ "" -> sheets self !! s = None -> data self = Some d ->
  exists (res : result record) (msgs : list string),
    run_pass p None self out
      = (res,
         match res with
         | Ok r =>
           if has_required_columns p d
           then with_insights self (store_insight (pass_kind p) None r (insights self))
           else self
         | Raise _ => self
         end,
         out ++ msgs)
    /\ run_pass p (Some s) self out
      = (res,
         match res with
         | Ok r =>
           if has_required_columns p d
           then with_insights self
                  (store_insight (pass_kind p) (Some s) r (insights self))
           else self
         | Raise _ => self
         end,
         out ++ msgs)
    /\ sheet_key (Some s) = s /\ sheet_key None = "default"
    /\ match res with
       | Ok r =>
         if has_required_columns p d
         then store_insight (pass_kind p) (Some s) r (insights self)
                !! pass_kind p ≫= (.!! s) = Some r
         else is_empty_record r /\ msgs ≠ []
       | Raise _ => p = Dates /\ ~ calendar_succeeds d /\ msgs = []
       end
    /\ (p ≠ Dates \/ calendar_succeeds d -> exists r, res = Ok r).
Proof.
  intros Hs Hunknown Hdata.
  destruct (select_data_unknown self s d Hunknown Hdata) as [Hsome Hnone].
  assert (sheet_key (Some s) = s) as Hkey.
  { unfold sheet_key. by rewrite truthy_Some. }
  exists (pass_result p d),
         (match pass_result p d with Ok _ => pass_msgs p d | Raise _ => [] end).
  rewrite !run_pass_run, Hsome, Hnone.
  destruct (pass_result p d) as [r|e] eqn:Hres.
  - do 4 (split; [done|]). split; [|by eauto].
    destruct (has_required_columns p d) eqn:Hreq.
    + pose proof (store_insight_lookup (pass_kind p) (Some s) r (insights self)) as Hlk.
      by rewrite Hkey in Hlk.
    + rewrite pass_result_empty in Hres by done. injection Hres as <-.
      split; [apply empty_record_is_empty|].
      unfold pass_msgs. rewrite Hreq. by destruct p.
  - pose proof (pass_result_raises _ _ _ Hres) as ->.
    assert (~ calendar_succeeds d) as Hfails.
    { intros [r Hr]%dates_result_ok. congruence. }
    rewrite app_nil_r. do 4 (split; [done|]). split; [done|].
    intros [?|?]; done.
Qed.

End EngineClaims.

(** C6, counterexample: the engine holds the summary of an earlier table
    under "default"; on a table without numeric columns the summary pass
    returns the empty dictionary, and the old summary stays under the key. *)
Lemma C6_counterexample :
  ~ @C6_claim_as_stated Iso.calendar SummaryStatistics None engine_with_old_summary.
Proof.
  intros Hclaim.
  specialize (Hclaim (RSummary None) engine_with_old_summary
                     ["No numerical columns found in the data."]).
  assert (@run_pass Iso.calendar SummaryStatistics None engine_with_old_summary []
          = (Ok (RSummary None), engine_with_old_summary,
             ["No numerical columns found in the data."])) as Hrun.
  { by rewrite run_pass_run. }
  specialize (Hclaim Hrun). vm_compute in Hclaim. discriminate Hclaim.
Qed.

(** C10, counterexample: the default table has no numeric column; the summary
    pass called with the unknown sheet name "Q3" returns the empty
    dictionary and stores nothing. *)
Lemma C10_counterexample :
  ~ @unknown_sheet_claim Iso.calendar SummaryStatistics "Q3" (engine_with notes_only).
Proof.
  intros (r & self' & out' & Hrun & Hne & _).
  rewrite run_pass_run in Hrun.
  change (select_data (engine_with notes_only) (Some "Q3")) with (Some notes_only) in Hrun.
  change (pass_result SummaryStatistics notes_only) with (Ok (RSummary None)) in Hrun.
  change (has_required_columns SummaryStatistics notes_only) with false in Hrun.
  injection Hrun as <- _ _. by apply Hne.
Qed.

Lemma C10_witness :
  "Q3" ≠ "" /\ sheets (engine_with notes_only) !! "Q3" = None
  /\ data (engine_with notes_only) = Some notes_only
  /\ exists (res : result record) (msgs : list string),
      @run_pass Iso.calendar Dates None (engine_with notes_only) []
        = (res,
           match res with
           | Ok r =>
             if has_required_columns Dates notes_only
             then with_insights (engine_with notes_only)
                    (store_insight (pass_kind Dates) None r
                                   (insights (engine_with notes_only)))
             else engine_with notes_only
           | Raise _ => engine_with notes_only
           end,
           [] ++ msgs)
      /\ @run_pass Iso.calendar Dates (Some "Q3") (engine_with notes_only) []
        = (res,
           match res with
           | Ok r =>
             if has_required_columns Dates notes_only
             then with_insights (engine_with notes_only)
                    (store_insight (pass_kind Dates) (Some "Q3") r
                                   (insights (engine_with notes_only)))
             else engine_with notes_only
           | Raise _ => engine_with notes_only
           end,
           [] ++ msgs)
      /\ sheet_key (Some "Q3") = "Q3" /\ sheet_key None = "default"
      /\ match res with
         | Ok r =>
           if has_required_columns Dates notes_only
           then store_insight (pass_kind Dates) (Some "Q3") r
                  (insights (engine_with notes_only))
                  !! pass_kind Dates ≫= (.!! "Q3") = Some r
           else is_empty_record r /\ msgs ≠ []
         | Raise _ => Dates = Dates /\ ~ @calendar_succeeds Iso.calendar notes_only
                      /\ msgs = []
         end
      /\ (Dates ≠ Dates \/ @calendar_succeeds Iso.calendar notes_only ->
          exists r, res = Ok r).
Proof.
  assert ("Q3" ≠ "") as H1 by done.
  assert (sheets (engine_with notes_only) !! "Q3" = None) as H2 by reflexivity.
  assert (data (engine_with notes_only) = Some notes_only) as H3 by reflexivity.
  split_and!; [done..|].
  exact (@C10_unknown_sheet_uses_default Iso.calendar Dates "Q3"
           (engine_with notes_only) notes_only [] H1 H2 H3).
Defined.

(** ** Claims about the outlier pass *)

Lemma bind_const_nil {A B} (l : list A) : l ≫= (fun _ => @nil B) = [].
Proof. induction l; [done|]. by rewrite bind_cons, IHl. Qed.

Lemma bind_const_singleton {A B} (l : list A) (x : B) :
  l ≫= (fun _ => [x]) = replicate (length l) x.
Proof. induction l; [done|]. rewrite bind_cons, IHl. done. Qed.

Lemma selection_unknown method threshold d col_data :
  method ≠ "zscore" ->
  selection method threshold d col_data = Some (iqr_selected threshold col_data).
Proof. intros Hz. unfold selection. by rewrite decide_False. Qed.

Lemma outliers_of_unknown method threshold cols acc :
  method ≠ "zscore" ->
  outliers_of method threshold cols acc = outliers_of "iqr" threshold cols acc.
Proof.
  intros Hz. unfold outliers_of. apply foldl_ext_in. intros a col _.
  by rewrite !selection_unknown.
Qed.

(** C8 (amended). For a method string other than "iqr" and "zscore", the
    outlier pass returns the result of the IQR method for the same table and
    threshold and leaves the engine in the same state, without raising.  It
    prints what the IQR run prints, followed by one "Unknown method" line
    for each numeric column of the table: with numeric columns the IQR run
    prints nothing and the lines tell of the fallback; without a table or
    without numeric columns there is no such line, and the run prints the
    one diagnostic the IQR run prints too. *)
Theorem C8_unknown_method_falls_back_to_iqr (sheet_name : option string)
    (method : string) (threshold : float) (self : ExcelInsights) (out : list string) :
  method ≠ "iqr" -> method ≠ "zscore" ->
  exists (r : gmap string outlier_info) (self' : ExcelInsights)
         (msgs : list string) (n : nat),
    identify_outliers sheet_name "iqr" threshold self out = (Ok r, self', out ++ msgs)
    /\ identify_outliers sheet_name method threshold self out
       = (Ok r, self', out ++ msgs ++ replicate n (unknown_method method))
    /\ n = match select_data self sheet_name with
           | Some d => length (pd.select_dtypes_number d)
           | None => 0
           end
    /\ (0 < n -> msgs = [])
    /\ (n = 0 ->
          msgs = [match select_data self sheet_name with
                  | Some _ => "No numerical columns found in the data."
                  | None => no_data_loaded
                  end]).
Proof.
  intros Hiqr Hz. rewrite !identify_outliers_run.
  destruct (select_data self sheet_name) as [d|].
  - destruct (pd.select_dtypes_number d) as [|c cols].
    + eexists _, _, _, 0. split_and!; [done..|lia|done].
    + cbv zeta. rewrite (outliers_of_unknown method) by done.
      eexists _, _, [], (length (c :: cols)). split_and!.
      * unfold selection_msgs. simpl. by rewrite bind_const_nil.
      * unfold selection_msgs. rewrite !decide_False by done.
        by rewrite bind_const_singleton.
      * done.
      * done.
      * simpl. lia.
  - eexists _, _, _, 0. split_and!; [done..|lia|done].
Qed.

Lemma C8_witness :
  "mad" ≠ "iqr" /\ "mad" ≠ "zscore"
  /\ exists (r : gmap string outlier_info) (self' : ExcelInsights)
            (msgs : list string) (n : nat),
      identify_outliers None "iqr" (F64.lit 3 2)
                        (engine_with [numbers "x" [1; 2; 3; 4; 1000]%Z]) []
        = (Ok r, self', [] ++ msgs)
      /\ identify_outliers None "mad" (F64.lit 3 2)
                           (engine_with [numbers "x" [1; 2; 3; 4; 1000]%Z]) []
         = (Ok r, self', [] ++ msgs ++ replicate n (unknown_method "mad"))
      /\ n = match select_data (engine_with [numbers "x" [1; 2; 3; 4; 1000]%Z]) None with
             | Some d => length (pd.select_dtypes_number d)
             | None => 0
             end
      /\ (0 < n -> msgs = [])
      /\ (n = 0 ->
            msgs = [match select_data (engine_with [numbers "x" [1; 2; 3; 4; 1000]%Z])
                            None with
                    | Some _ => "No numerical columns found in the data."
                    | None => no_data_loaded
                    end]).
Proof.
  assert ("mad" ≠ "iqr") as H1 by done.
  assert ("mad" ≠ "zscore") as H2 by done.
  split_and!; [done..|].
  exact (C8_unknown_method_falls_back_to_iqr None "mad" (F64.lit 3 2)
           (engine_with [numbers "x" [1; 2; 3; 4; 1000]%Z]) [] H1 H2).
Defined.

(** C8, counterexample: on a table without numeric columns the run with
    the method "mad" prints the one line the IQR run prints, and nothing
    about the method. *)
Lemma C8_counterexample :
  ~ C8_claim_as_stated "mad" (F64.lit 3 2) (engine_with notes_only).
Proof.
  intros (r & self' & out_iqr & out_method & Hiqr & Hmethod & Hdiff).
  rewrite identify_outliers_run in Hiqr, Hmethod.
  change (select_data (engine_with notes_only) None) with (Some notes_only)
    in Hiqr, Hmethod.
  change (pd.select_dtypes_number notes_only) with (@nil Series) in Hiqr, Hmethod.
  apply (f_equal snd) in Hiqr, Hmethod. simpl in Hiqr, Hmethod. congruence.
Qed.

Lemma outliers_of_keyed method threshold cols acc :
  outliers_of method threshold cols acc
  = foldl (keyed_step (outlier_entry method threshold)) acc cols.
Proof.
  unfold outliers_of. apply foldl_ext_in. intros a col _.
  unfold add_outliers, keyed_step, outlier_entry.
  by destruct (selection _ _ _ _) as [[|x co]|].
Qed.



(** C2, counterexample: on [1, 2, 3, 100] the third quartile is 27.25, not
    51.5, and the pass flags 100. *)
Lemma C2_counterexample :
  pd.quantile small_column (F64.lit 3 4) ≠ F64.lit 515 10
  /\ iqr_report (numbers "x" [1; 2; 3; 100]%Z) ≠ None
  /\ ~ C2_scenario_as_stated.
Proof.
  split_and!.
  - vm_compute. discriminate.
  - vm_compute. discriminate.
  - intros (_ & _ & _ & Hnone & _). vm_compute in Hnone. discriminate Hnone.
Qed.

(** C2 (amended). For the column [1, 2, 3, 100] with the IQR method and
    threshold 1.5: Q1 = 1.75, Q3 = 27.25, IQR = 25.5, the upper bound is
    65.5, and 100 is flagged (one outlier, 25% of the values); for
    [1, 2, 3, 4, 1000], 1000 is flagged (one outlier, 20%). *)
Theorem C2_iqr_scenario :
  let Q1 := pd.quantile small_column (F64.lit 1 4) in
  let Q3 := pd.quantile small_column (F64.lit 3 4) in
  let IQR := F64.sub Q3 Q1 in
  Q1 = F64.lit 175 100
  /\ Q3 = F64.lit 2725 100
  /\ IQR = F64.lit 255 10
  /\ F64.add Q3 (F64.mul (F64.lit 3 2) IQR) = F64.lit 655 10
  /\ iqr_report (numbers "x" [1; 2; 3; 100]%Z)
     = Some {| o_count := 1; o_percentage := F64.of_Z 25;
               o_values := [F64.of_Z 100] |}
  /\ iqr_report (numbers "x" [1; 2; 3; 4; 1000]%Z)
     = Some {| o_count := 1; o_percentage := F64.of_Z 20;
               o_values := [F64.of_Z 1000] |}.
Proof. cbv zeta. split_and!; vm_compute; reflexivity. Qed.

(** ** Claims about the categorical pass *)

Lemma nonnull_all_null (l : list cell) :
  Forall (fun c => pd.isnull c = true) l -> pd.nonnull l = [].
Proof.
  unfold pd.nonnull, pd.notnull. induction 1 as [|c l Hc _ IH]; [done|].
  rewrite filter_cons, decide_False; [done|]. by rewrite Hc.
Qed.

Lemma isnull_sum_all_null (l : list cell) :
  Forall (fun c => pd.isnull c = true) l -> pd.isnull_sum l = length l.
Proof.
  unfold pd.isnull_sum. induction 1 as [|c l Hc _ IH]; [done|].
  rewrite filter_cons, decide_True by done. simpl. by rewrite IH.
Qed.

Lemma categorical_of_keyed data top_n cols acc :
  categorical_of data top_n cols acc
  = foldl (keyed_step (fun col => Some (categorical_entry data top_n col))) acc cols.
Proof. done. Qed.

(** C7, counterexample: a blank column is of a numeric type, so the
    categorical pass does not select it and reports nothing for it. *)
Lemma C7_counterexample :
  Forall (fun c => pd.isnull c = true) (values blank_column)
  /\ ~ C7_claim_as_stated 5 [blank_column] blank_column.
Proof.
  split.
  - repeat constructor.
  - intros (r & self' & out' & Hrun & info & Hinfo & _).
    rewrite analyze_categorical_data_run in Hrun.
    change (select_data (engine_with [blank_column]) None)
      with (Some [blank_column]) in Hrun.
    change (pd.select_dtypes_categorical [blank_column]) with (@nil Series) in Hrun.
    injection Hrun as <- _ _. by rewrite lookup_empty in Hinfo.
Qed.

(** C7 (amended). A column of an object or string type without any
    non-null value gets a record from the categorical pass: 0 unique values,
    every row missing, no top category and no percentage; the pass returns
    without raising (no percentage is computed, so nothing is divided by the
    empty total). *)
Theorem C7_all_null_categorical_column (sheet_name : option string) (top_n : Z)
    (self : ExcelInsights) (d : DataFrame) (col : Series) (out : list string) :
  select_data self sheet_name = Some d ->
  NoDup (name <$> d) ->
  col ∈ d ->
  pd.is_categorical (dt col) = true ->
  Forall (fun c => pd.isnull c = true) (values col) ->
  exists (r : gmap string categorical_info) (self' : ExcelInsights),
    analyze_categorical_data sheet_name top_n self out = (Ok r, self', out)
    /\ exists info, r !! name col = Some info
                    /\ unique_values info = 0
                    /\ missing_values info = length (values col)
                    /\ top_categories info = []
                    /\ top_categories_pct info = [].
Proof.
  intros Hsel Hnd Hin Hcat Hnull.
  rewrite analyze_categorical_data_run, Hsel.
  assert (col ∈ pd.select_dtypes_categorical d) as Hin'.
  { by apply list_elem_of_filter. }
  destruct (pd.select_dtypes_categorical d) as [|c cols] eqn:Hcols.
  { by apply elem_of_nil in Hin'. }
  cbv zeta. eexists _, _. split; [done|].
  exists (categorical_entry d top_n col).
  rewrite categorical_of_keyed.
  rewrite (keyed_loop_lookup _ (c :: cols) ∅ col); [| |done].
  - unfold categorical_entry, pd.nunique.
    rewrite (nonnull_all_null _ Hnull).
    change (pd.value_counts (@nil cell)) with (@nil (cell * nat)).
    rewrite head_nil. simpl.
    split_and!; try done. by apply isnull_sum_all_null.
  - rewrite <- Hcols. by apply NoDup_fmap_filter.
Qed.

Lemma C7_witness :
  select_data (engine_with unfilled_notes) None = Some unfilled_notes
  /\ NoDup (name <$> unfilled_notes)
  /\ mkSeries "notes" Object [VNone; VNone] ∈ unfilled_notes
  /\ pd.is_categorical (dt (mkSeries "notes" Object [VNone; VNone])) = true
  /\ Forall (fun c => pd.isnull c = true) (values (mkSeries "notes" Object [VNone; VNone]))
  /\ exists (r : gmap string categorical_info) (self' : ExcelInsights),
      analyze_categorical_data None 5 (engine_with unfilled_notes) [] = (Ok r, self', [])
      /\ exists info, r !! name (mkSeries "notes" Object [VNone; VNone]) = Some info
                      /\ unique_values info = 0
                      /\ missing_values info
                         = length (values (mkSeries "notes" Object [VNone; VNone]))
                      /\ top_categories info = []
                      /\ top_categories_pct info = [].
Proof.
  assert (select_data (engine_with unfilled_notes) None = Some unfilled_notes)
    as H1 by reflexivity.
  assert (NoDup (name <$> unfilled_notes)) as H2.
  { apply (bool_decide_unpack _). vm_compute. exact I. }
  assert (mkSeries "notes" Object [VNone; VNone] ∈ unfilled_notes) as H3.
  { right. left. }
  assert (pd.is_categorical (dt (mkSeries "notes" Object [VNone; VNone])) = true)
    as H4 by reflexivity.
  assert (Forall (fun c => pd.isnull c = true)
                 (values (mkSeries "notes" Object [VNone; VNone]))) as H5.
  { repeat constructor. }
  split_and!; [done..|].
  exact (C7_all_null_categorical_column None 5 (engine_with unfilled_notes)
           unfilled_notes (mkSeries "notes" Object [VNone; VNone]) [] H1 H2 H3 H4 H5).
Defined.

(** ** Claims about the temporal pass *)

Section DateClaims.

Context `{Calendar}.

(** On a table with pairwise distinct labels, the entry of a column in the
    dictionary the temporal pass returns is its own record. *)
Lemma date_records_lookup (d : DataFrame) (r : gmap string date_info) (col : Series) :
  NoDup (name <$> d) -> col ∈ d ->
  date_records d ∅ = Ok r -> r !! name col = date_entry col.
Proof.
  intros Hnd Hin Hrun.
  pose proof (date_records_returns _ _ _ Hrun) as Hok.
  rewrite date_records_ok in Hrun by done. injection Hrun as <-.
  rewrite (keyed_loop_lookup _ d ∅ col) by done.
  rewrite lookup_empty. by destruct (date_entry col).
Qed.

(** C3 (amended). The temporal pass either returns or ends with an
    exception of the calendar, raised on one of the date columns of the
    table; it returns when the calendar raises on none of them.  When it
    returns, a column that is not of a datetime type is in the result if
    and only if the conversion does not raise and the number of entries
    that parse, divided by the number of rows of the column (null rows
    included), is not below 0.7; every other such column is skipped. *)
Theorem C3_date_heuristic_over_all_rows (sheet_name : option string)
    (self : ExcelInsights) (d : DataFrame) (col : Series) (out : list string) :
  select_data self sheet_name = Some d ->
  NoDup (name <$> d) ->
  col ∈ d ->
  pd.is_datetime64_any_dtype col = false ->
  exists (res : result (gmap string date_info)) (self' : ExcelInsights),
    analyze_date_columns sheet_name self out = (res, self', out)
    /\ match res with
       | Ok r =>
         is_Some (r !! name col)
         <-> exists date_col,
               to_datetime col = Some date_col
               /\ F64.ltb (np_truediv (count_notnull date_col) (length date_col))
                          (F64.lit 7 10) = false
       | Raise e =>
         self' = self
         /\ exists c date_col,
              c ∈ d /\ date_column c = Some date_col
              /\ date_record date_col = Raise e
       end
    /\ (calendar_succeeds d <-> exists r, res = Ok r).
Proof.
  intros Hsel Hnd Hin Hdt.
  rewrite analyze_date_columns_run, Hsel.
  destruct (date_records d ∅) as [r|e] eqn:Hrun.
  - eexists _, _. split; [done|]. split.
    + rewrite (date_records_lookup d r col) by done.
      pose proof (date_records_returns _ _ _ Hrun col) as Hok.
      unfold date_entry. unfold date_column in Hok |- *. rewrite Hdt in Hok |- *.
      destruct (to_datetime col) as [date_col|]; simpl.
      * destruct (F64.ltb _ _) eqn:Hlt; simpl.
        -- split; [by intros [? ?]|]. intros (dc & [= <-] & Hdc). congruence.
        -- destruct (Hok date_col Hin eq_refl) as [info ->].
           split; [|by eauto]. intros _. by exists date_col.
      * split; [by intros [? ?]|]. by intros (dc & ? & _).
    + split; [by eauto|]. intros _. by eapply date_records_returns.
  - eexists _, _. split; [done|]. split.
    + split; [done|]. by apply date_records_raises in Hrun.
    + split; [|by intros [r ?]].
      intros Hok. by rewrite date_records_ok in Hrun.
Qed.

End DateClaims.

(** The exception is not caught: on a column of dates that begins in the
    year 0 the temporal pass ends with the [NotImplementedError] of
    [strftime], prints nothing and stores nothing. *)
Lemma temporal_pass_raises_on_year_zero :
  @analyze_date_columns Iso.calendar None (engine_with [year_zero]) []
  = (Raise NotImplementedError, engine_with [year_zero], [])
  /\ ~ @calendar_succeeds Iso.calendar [year_zero].
Proof.
  split.
  - rewrite analyze_date_columns_run.
    change (select_data (engine_with [year_zero]) None) with (Some [year_zero]).
    by vm_compute.
  - intros [r Hr]%dates_result_ok. vm_compute in Hr. discriminate Hr.
Qed.

(** C3, counterexample: four of the five non-null values parse (80%), but
    only four of the ten rows, and the column is skipped. *)
Lemma C3_counterexample :
  ~ @C3_claim_as_stated Iso.calendar [half_empty_dates] half_empty_dates.
Proof.
  intros [_ Hback].
  destruct Hback as (r & self' & out' & Hrun & Hsome).
  { vm_compute. lia. }
  apply (f_equal (fun x => x.1.1)) in Hrun. vm_compute in Hrun.
  injection Hrun as <-.
  destruct Hsome as [info Hinfo]. vm_compute in Hinfo. discriminate Hinfo.
Qed.

Lemma C3_witness :
  select_data (engine_with [mostly_dates]) None = Some [mostly_dates]
  /\ NoDup (name <$> [mostly_dates])
  /\ mostly_dates ∈ [mostly_dates]
  /\ pd.is_datetime64_any_dtype mostly_dates = false
  /\ exists (res : result (gmap string date_info)) (self' : ExcelInsights),
      @analyze_date_columns Iso.calendar None (engine_with [mostly_dates]) []
        = (res, self', [])
      /\ match res with
         | Ok r =>
           is_Some (r !! name mostly_dates)
           <-> exists date_col,
                 @to_datetime Iso.calendar mostly_dates = Some date_col
                 /\ F64.ltb (np_truediv (count_notnull date_col) (length date_col))
                            (F64.lit 7 10) = false
         | Raise e =>
           self' = engine_with [mostly_dates]
           /\ exists c date_col,
                c ∈ [mostly_dates] /\ @date_column Iso.calendar c = Some date_col
                /\ @date_record Iso.calendar date_col = Raise e
         end
      /\ (@calendar_succeeds Iso.calendar [mostly_dates] <-> exists r, res = Ok r).
Proof.
  assert (select_data (engine_with [mostly_dates]) None = Some [mostly_dates])
    as H1 by reflexivity.
  assert (NoDup (name <$> [mostly_dates])) as H2.
  { apply (bool_decide_unpack _). vm_compute. exact I. }
  assert (mostly_dates ∈ [mostly_dates]) as H3 by left.
  assert (pd.is_datetime64_any_dtype mostly_dates = false) as H4 by reflexivity.
  split_and!; [done..|].
  exact (@C3_date_heuristic_over_all_rows Iso.calendar None
           (engine_with [mostly_dates]) [mostly_dates] mostly_dates [] H1 H2 H3 H4).
Defined.

(** ** Claims about the correlation pass *)

Lemma correlations_inner_pairs threshold col1 later acc :
  correlations_inner threshold col1 later acc
  = foldl (pair_step threshold) acc ((fun col2 => (col1, col2)) <$> later).
Proof.
  unfold correlations_inner. revert acc.
  induction later as [|col2 later IH]; intros acc; simpl; [done|].
  by rewrite IH.
Qed.

Lemma correlations_loop_pairs threshold cols acc :
  correlations_loop threshold cols acc = foldl (pair_step threshold) acc (pairs cols).
Proof.
  revert acc. induction cols as [|col1 later IH]; intros acc; simpl; [done|].
  by rewrite IH, correlations_inner_pairs, foldl_app.
Qed.

Lemma pairs_indices (cols : list Series) (col1 col2 : Series) :
  (col1, col2) ∈ pairs cols
  <-> exists i j, i < j /\ cols !! i = Some col1 /\ cols !! j = Some col2.
Proof.
  induction cols as [|c later IH]; simpl.
  - split; [by intros ?%elem_of_nil | by intros (i & j & _ & ? & _)].
  - rewrite elem_of_app, list_elem_of_fmap, IH. split.
    + intros [(c2 & [= -> ->] & Hin) | (i & j & Hij & Hi & Hj)].
      * apply list_elem_of_lookup in Hin as [j Hj].
        exists 0, (S j). split_and!; [lia|done..].
      * exists (S i), (S j). split_and!; [lia|done..].
    + intros (i & j & Hij & Hi & Hj).
      destruct j as [|j]; [lia|]. simpl in Hj.
      destruct i as [|i]; simpl in Hi.
      * injection Hi as ->. left. exists col2. split; [done|].
        by apply list_elem_of_lookup_2 in Hj.
      * right. exists i, j. split_and!; [lia|done..].
Qed.

Lemma pairs_members (cols : list Series) (col1 col2 : Series) :
  (col1, col2) ∈ pairs cols -> col1 ∈ cols /\ col2 ∈ cols.
Proof.
  rewrite pairs_indices. intros (i & j & _ & Hi & Hj).
  split; by eapply list_elem_of_lookup_2.
Qed.

Lemma pairs_short (cols : list Series) : length cols < 2 -> pairs cols = [].
Proof. destruct cols as [|c [|c' cols]]; simpl; [done..|lia]. Qed.

(** Every entry of the result was written for some visited pair that passed
    the test. *)
Lemma pair_loop_sound threshold ps acc k v :
  foldl (pair_step threshold) acc ps !! k = Some v ->
  acc !! k = Some v
  \/ exists p, p ∈ ps /\ reported threshold p = true
               /\ k = pair_key p.1 p.2 /\ v = pd.corr_loc p.1 p.2.
Proof.
  revert acc. induction ps as [|p ps IH]; intros acc; simpl; [by left|].
  intros [Hacc | (q & Hq & Hrest)]%IH.
  - unfold pair_step in Hacc. destruct (reported threshold p) eqn:Hp; [|by left].
    destruct (decide (k = pair_key p.1 p.2)) as [->|Hk].
    + rewrite lookup_insert_eq in Hacc. injection Hacc as <-.
      right. exists p. split_and!; [left|done..].
    + rewrite lookup_insert_ne in Hacc by done. by left.
  - right. exists q. split; [by right|done].
Qed.

Lemma pair_loop_other threshold ps acc k :
  k ∉ (fun p => pair_key p.1 p.2) <$> ps ->
  foldl (pair_step threshold) acc ps !! k = acc !! k.
Proof.
  revert acc. induction ps as [|p ps IH]; intros acc Hk; simpl; [done|].
  rewrite fmap_cons, not_elem_of_cons in Hk. destruct Hk as [Hkp Hk].
  rewrite IH by done. unfold pair_step.
  destruct (reported threshold p); [|done]. by rewrite lookup_insert_ne.
Qed.

(** With pairwise distinct keys, every visited pair that passes the test is
    in the result under its own key. *)
Lemma pair_loop_complete threshold ps acc p :
  NoDup ((fun p => pair_key p.1 p.2) <$> ps) -> p ∈ ps ->
  reported threshold p = true ->
  foldl (pair_step threshold) acc ps !! pair_key p.1 p.2 = Some (pd.corr_loc p.1 p.2).
Proof.
  revert acc. induction ps as [|q ps IH]; intros acc Hnd Hin Hp; simpl.
  - by apply elem_of_nil in Hin.
  - rewrite fmap_cons, NoDup_cons in Hnd. destruct Hnd as [Hq Hnd].
    apply elem_of_cons in Hin as [->|Hin]; [|by apply IH].
    rewrite pair_loop_other by done. unfold pair_step.
    by rewrite Hp, lookup_insert_eq.
Qed.

Lemma ok_result_inj {A} (a b : A) (s s' : ExcelInsights) (o o' : list string) :
  (Ok a, s, o) = (Ok b, s', o') -> a = b.
Proof. by intros [= ->]. Qed.

(** C1, counterexample: the pair ("a", "b - c") has a coefficient above 0.5,
    but the key "a - b - c" holds -1.0, the coefficient of ("a - b", "c"),
    written later under the same key. *)
Lemma C1_counterexample : ~ C1_claim_as_stated (F64.lit 1 2) colliding_labels.
Proof.
  intros (r & self' & out' & Hrun & Hall).
  pose proof (Hall 0 1 (numbers "a" [1; 2; 3]%Z) (numbers "b - c" [1; 2; 4]%Z))
    as Hpair.
  assert (F64.geb (F64.abs (pd.corr_loc (numbers "a" [1; 2; 3]%Z)
                                        (numbers "b - c" [1; 2; 4]%Z)))
                  (F64.lit 1 2) = true) as Hhigh by (vm_compute; reflexivity).
  specialize (Hpair ltac:(lia) eq_refl eq_refl Hhigh).
  change (pair_key (numbers "a" [1; 2; 3]%Z) (numbers "b - c" [1; 2; 4]%Z))
    with "a - b - c" in Hpair.
  assert (correlations_loop (F64.lit 1 2) colliding_labels ∅ !! "a - b - c"
          = Some (F64.of_Z (-1))) as Hkey by (vm_compute; reflexivity).
  rewrite find_correlations_run in Hrun.
  change (select_data (engine_with colliding_labels) None)
    with (Some colliding_labels) in Hrun.
  cbv beta iota zeta in Hrun.
  change (pd.select_dtypes_number colliding_labels) with colliding_labels in Hrun.
  rewrite decide_False in Hrun by (simpl; lia).
  apply ok_result_inj in Hrun. rewrite Hrun in Hkey.
  rewrite Hkey in Hpair. vm_compute in Hpair. discriminate Hpair.
Qed.

(** C1 (amended). For every table whose pairs of numeric columns form
    pairwise distinct keys "colA - colB", and every threshold, the
    correlation pass returns without raising, and its result holds exactly
    the pairs of numeric columns [i < j] in column order whose coefficient
    has absolute value at least the threshold, each under its key with its
    coefficient; with fewer than 2 numeric columns the result is empty. *)
Theorem C1_reported_pairs (sheet_name : option string) (threshold : float)
    (self : ExcelInsights) (d : DataFrame) (out : list string) :
  select_data self sheet_name = Some d ->
  NoDup ((fun p => pair_key p.1 p.2) <$> pairs (pd.select_dtypes_number d)) ->
  exists (r : gmap string float) (self' : ExcelInsights) (out' : list string),
    find_correlations sheet_name threshold self out = (Ok r, self', out')
    /\ (forall k v,
          r !! k = Some v
          <-> exists i j col1 col2,
                i < j
                /\ pd.select_dtypes_number d !! i = Some col1
                /\ pd.select_dtypes_number d !! j = Some col2
                /\ k = pair_key col1 col2
                /\ v = pd.corr_loc col1 col2
                /\ F64.geb (F64.abs v) threshold = true)
    /\ (length (pd.select_dtypes_number d) < 2 -> r = ∅).
Proof.
  intros Hsel Hnd. rewrite find_correlations_run, Hsel. cbv zeta.
  set (cols := pd.select_dtypes_number d) in *.
  exists (correlations_loop threshold cols ∅).
  assert (length cols < 2 -> correlations_loop threshold cols ∅ = ∅) as Hshort.
  { intros Hlen. by rewrite correlations_loop_pairs, pairs_short. }
  assert (forall k v,
            correlations_loop threshold cols ∅ !! k = Some v
            <-> exists i j col1 col2,
                  i < j /\ cols !! i = Some col1 /\ cols !! j = Some col2
                  /\ k = pair_key col1 col2 /\ v = pd.corr_loc col1 col2
                  /\ F64.geb (F64.abs v) threshold = true) as Hexact.
  { intros k v. rewrite correlations_loop_pairs. split.
    - intros [Hempty | ([c1 c2] & Hin & Hrep & -> & ->)]%pair_loop_sound.
      { by rewrite lookup_empty in Hempty. }
      apply pairs_indices in Hin as (i & j & Hij & Hi & Hj).
      by exists i, j, c1, c2.
    - intros (i & j & c1 & c2 & Hij & Hi & Hj & -> & -> & Hrep).
      apply (pair_loop_complete threshold _ ∅ (c1, c2)); [done| |done].
      apply pairs_indices. by exists i, j. }
  case_decide as Hlen.
  - rewrite (Hshort Hlen) in Hexact |- *. eexists _, _. by split_and!.
  - eexists _, _. by split_and!.
Qed.

Lemma C1_witness :
  select_data (engine_with three_measures) None = Some three_measures
  /\ NoDup ((fun p => pair_key p.1 p.2) <$> pairs (pd.select_dtypes_number three_measures))
  /\ exists (r : gmap string float) (self' : ExcelInsights) (out' : list string),
      find_correlations None (F64.lit 1 2) (engine_with three_measures) []
        = (Ok r, self', out')
      /\ (forall k v,
            r !! k = Some v
            <-> exists i j col1 col2,
                  i < j
                  /\ pd.select_dtypes_number three_measures !! i = Some col1
                  /\ pd.select_dtypes_number three_measures !! j = Some col2
                  /\ k = pair_key col1 col2
                  /\ v = pd.corr_loc col1 col2
                  /\ F64.geb (F64.abs v) (F64.lit 1 2) = true)
      /\ (length (pd.select_dtypes_number three_measures) < 2 -> r = ∅).
Proof.
  assert (select_data (engine_with three_measures) None = Some three_measures)
    as H1 by reflexivity.
  assert (NoDup ((fun p => pair_key p.1 p.2)
                   <$> pairs (pd.select_dtypes_number three_measures))) as H2.
  { apply (bool_decide_unpack _). vm_compute. exact I. }
  split_and!; [done..|].
  exact (C1_reported_pairs None (F64.lit 1 2) (engine_with three_measures)
           three_measures [] H1 H2).
Defined.

(** *** Zero variance *)

Lemma geb_abs_nan (threshold : float) : F64.geb (F64.abs F64.nan) threshold = false.
Proof. by destruct threshold. Qed.

(** A zero sum of squared deviations on either side makes the divisor zero
    or NaN, and the coefficient NaN: nothing is divided by zero. *)
Lemma corr_of_welford_zero (w : pd.welford) :
  F64.is_zero (pd.ssqdm_x w) = true \/ F64.is_zero (pd.ssqdm_y w) = true ->
  pd.corr_of_welford w = F64.nan.
Proof.
  unfold pd.corr_of_welford. case_decide; [done|].
  destruct (pd.ssqdm_x w) as [sx|sx| |sx mx ex], (pd.ssqdm_y w) as [sy|sy| |sy my ey];
    intros [Hz|Hz]; try discriminate Hz; try reflexivity;
    by destruct (pd.covxy w).
Qed.

Lemma welford_step_mirrored w w' vx vy :
  mirrored w w' -> mirrored (pd.welford_step w (vx, vy)) (pd.welford_step w' (vy, vx)).
Proof.
  intros (Hn & Hmx & Hmy & Hsx & Hsy). unfold pd.welford_step.
  rewrite (andb_comm (F64.is_finite vy)).
  destruct (F64.is_finite vx && F64.is_finite vy); [|done].
  unfold mirrored; simpl. rewrite Hn, Hmx, Hmy, Hsx, Hsy. done.
Qed.

Lemma welford_run_mirrored (x y : list float) :
  mirrored (pd.welford_run x y) (pd.welford_run y x).
Proof.
  unfold pd.welford_run.
  assert (mirrored pd.welford_init pd.welford_init) as Hinit by done.
  revert Hinit. generalize pd.welford_init at 1 3. generalize pd.welford_init.
  revert y. induction x as [|vx x IH]; intros [|vy y] w w' Hw; simpl; try done.
  apply IH. by apply welford_step_mirrored.
Qed.

Lemma squared_deviations_y (col other : Series) :
  pd.ssqdm_y (pd.welford_run (pd.to_float <$> values other) (pd.to_float <$> values col))
  = squared_deviations col other.
Proof.
  unfold squared_deviations.
  by destruct (welford_run_mirrored (pd.to_float <$> values other)
                                    (pd.to_float <$> values col))
    as (_ & _ & _ & _ & ->).
Qed.

(** The coefficient of a pair with a zero-variance column is NaN, whichever
    of the two comes first. *)
Lemma corr_loc_zero_variance (col other : Series) :
  zero_variance_with col other ->
  pd.corr_loc col other = F64.nan /\ pd.corr_loc other col = F64.nan.
Proof.
  unfold zero_variance_with. intros Hz. unfold pd.corr_loc, pd.nancorr. split.
  - apply corr_of_welford_zero. right. by rewrite squared_deviations_y.
  - apply corr_of_welford_zero. by left.
Qed.

(** C4. When a numeric column has zero variance (a zero sum of squared
    deviations against every numeric column of the table), the correlation
    pass returns without raising, every coefficient of that column is NaN,
    and every entry of the result was written for a pair of columns [i < j]
    neither of which is that column. *)
Theorem C4_zero_variance_not_reported (sheet_name : option string)
    (threshold : float) (self : ExcelInsights) (d : DataFrame) (col : Series)
    (out : list string) :
  select_data self sheet_name = Some d ->
  (forall other, other ∈ pd.select_dtypes_number d -> zero_variance_with col other) ->
  exists (r : gmap string float) (self' : ExcelInsights) (out' : list string),
    find_correlations sheet_name threshold self out = (Ok r, self', out')
    /\ (forall other, other ∈ pd.select_dtypes_number d ->
          pd.corr_loc col other = F64.nan /\ pd.corr_loc other col = F64.nan)
    /\ (forall k v,
          r !! k = Some v ->
          exists i j col1 col2,
            i < j
            /\ pd.select_dtypes_number d !! i = Some col1
            /\ pd.select_dtypes_number d !! j = Some col2
            /\ k = pair_key col1 col2
            /\ v = pd.corr_loc col1 col2
            /\ col1 ≠ col /\ col2 ≠ col).
Proof.
  intros Hsel Hzero. rewrite find_correlations_run, Hsel. cbv zeta.
  set (cols := pd.select_dtypes_number d) in *.
  assert (forall other, other ∈ cols ->
            pd.corr_loc col other = F64.nan /\ pd.corr_loc other col = F64.nan) as Hnan.
  { intros other Hin. by apply corr_loc_zero_variance, Hzero. }
  case_decide as Hlen.
  - eexists _, _, _. split_and!; [done..|]. intros k v Hk.
    by rewrite lookup_empty in Hk.
  - eexists _, _, _. split_and!; [done..|]. intros k v.
    rewrite correlations_loop_pairs.
    intros [Hempty | ([c1 c2] & Hin & Hrep & -> & ->)]%pair_loop_sound.
    { by rewrite lookup_empty in Hempty. }
    destruct (pairs_members _ _ _ Hin) as [Hc1 Hc2].
    apply pairs_indices in Hin as (i & j & Hij & Hi & Hj).
    exists i, j, c1, c2. split_and!; try done.
    + intros ->. unfold reported in Hrep. simpl in Hrep.
      destruct (Hnan c2 Hc2) as [Hcorr _].
      by rewrite Hcorr, geb_abs_nan in Hrep.
    + intros ->. unfold reported in Hrep. simpl in Hrep.
      destruct (Hnan c1 Hc1) as [_ Hcorr].
      by rewrite Hcorr, geb_abs_nan in Hrep.
Qed.

Lemma C4_witness :
  select_data (engine_with flat_and_spread) None = Some flat_and_spread
  /\ (forall other, other ∈ pd.select_dtypes_number flat_and_spread ->
        zero_variance_with (numbers "flat" [5; 5; 5; 5; 5]%Z) other)
  /\ exists (r : gmap string float) (self' : ExcelInsights) (out' : list string),
      find_correlations None (F64.lit 1 2) (engine_with flat_and_spread) []
        = (Ok r, self', out')
      /\ (forall other, other ∈ pd.select_dtypes_number flat_and_spread ->
            pd.corr_loc (numbers "flat" [5; 5; 5; 5; 5]%Z) other = F64.nan
            /\ pd.corr_loc other (numbers "flat" [5; 5; 5; 5; 5]%Z) = F64.nan)
      /\ (forall k v,
            r !! k = Some v ->
            exists i j col1 col2,
              i < j
              /\ pd.select_dtypes_number flat_and_spread !! i = Some col1
              /\ pd.select_dtypes_number flat_and_spread !! j = Some col2
              /\ k = pair_key col1 col2
              /\ v = pd.corr_loc col1 col2
              /\ col1 ≠ numbers "flat" [5; 5; 5; 5; 5]%Z
              /\ col2 ≠ numbers "flat" [5; 5; 5; 5; 5]%Z).
Proof.
  assert (select_data (engine_with flat_and_spread) None = Some flat_and_spread)
    as H1 by reflexivity.
  assert (forall other, other ∈ pd.select_dtypes_number flat_and_spread ->
            zero_variance_with (numbers "flat" [5; 5; 5; 5; 5]%Z) other) as H2.
  { change (pd.select_dtypes_number flat_and_spread) with flat_and_spread.
    intros other Hin. unfold flat_and_spread in Hin.
    apply elem_of_cons in Hin as [->|Hin]; [vm_compute; reflexivity|].
    apply elem_of_cons in Hin as [->|Hin]; [vm_compute; reflexivity|].
    by apply elem_of_nil in Hin. }
  split_and!; [done..|].
  exact (C4_zero_variance_not_reported None (F64.lit 1 2) (engine_with flat_and_spread)
           flat_and_spread (numbers "flat" [5; 5; 5; 5; 5]%Z) [] H1 H2).
Defined.

(** *** When the keys are pairwise distinct *)

(** Without a dash in the first label, the key splits at its first dash in
    one way only. *)
Lemma pair_key_split (a c b d : string) :
  has_dash a = false -> has_dash c = false ->
  a +:+ " - " +:+ b = c +:+ " - " +:+ d -> a = c /\ b = d.
Proof.
  revert c. induction a as [|x a IH]; intros [|y c] Ha Hc Heq; simpl in *.
  - by simplify_eq.
  - exfalso. destruct c as [|z c]; simplify_eq/=.
  - exfalso. destruct a as [|z a]; simplify_eq/=.
  - injection Heq as -> Heq.
    apply orb_false_iff in Ha as [_ Ha]. apply orb_false_iff in Hc as [_ Hc].
    by destruct (IH c Ha Hc Heq) as [-> ->].
Qed.

Lemma same_label_same_column (cols : list Series) (c1 c2 : Series) :
  NoDup (name <$> cols) -> c1 ∈ cols -> c2 ∈ cols -> name c1 = name c2 -> c1 = c2.
Proof.
  intros Hnd [i Hi]%list_elem_of_lookup [j Hj]%list_elem_of_lookup Heq.
  assert (i = j) as ->; [|congruence].
  apply (NoDup_lookup (name <$> cols) i j (name c1)); [done|..].
  - by rewrite list_lookup_fmap, Hi.
  - by rewrite list_lookup_fmap, Hj, Heq.
Qed.

Lemma pairs_NoDup (cols : list Series) : NoDup cols -> NoDup (pairs cols).
Proof.
  induction cols as [|c later IH]; simpl; [constructor|].
  rewrite NoDup_cons. intros [Hc Hnd]. apply NoDup_app. split_and!.
  - apply NoDup_fmap_2_strong; [|done]. by intros ?? _ _ [= ->].
  - intros [c1 c2] [c' [[= -> ->] _]]%list_elem_of_fmap Hin.
    by apply pairs_members in Hin as [? _].
  - by apply IH.
Qed.

(** Pairwise distinct labels without a dash give pairwise distinct keys. *)
Lemma dash_free_labels_distinct_keys (cols : list Series) :
  NoDup (name <$> cols) ->
  Forall (fun c => has_dash (name c) = false) cols ->
  NoDup ((fun p => pair_key p.1 p.2) <$> pairs cols).
Proof.
  intros Hnd Hdash. apply NoDup_fmap_2_strong.
  - intros [a b] [c d] [Ha Hb]%pairs_members [Hc Hd]%pairs_members Hkey.
    rewrite Forall_forall in Hdash. simpl in Hkey.
    apply pair_key_split in Hkey as [Hac Hbd]; [|by apply Hdash..].
    f_equal; by eapply same_label_same_column.
  - apply pairs_NoDup. by apply NoDup_fmap_1 in Hnd.
Qed.

(** * Further properties of the passes *)

(** ** The insight store *)

Lemma store_insight_lookup_kind kind sheet_name r ins kind' :
  store_insight kind sheet_name r ins !! kind'
  = if decide (kind' = kind)
    then Some (<[sheet_key sheet_name := r]> (default ∅ (ins !! kind)))
    else ins !! kind'.
Proof.
  unfold store_insight. case_decide as Hk.
  - subst. rewrite lookup_insert_eq.
    destruct (ins !! kind) eqn:Hkind; simpl; by rewrite ?Hkind, ?lookup_insert_eq.
  - rewrite lookup_insert_ne by done.
    destruct (ins !! kind); [done|]. by rewrite lookup_insert_ne.
Qed.

Lemma store_insight_other_sheet kind sheet_name r ins sheet :
  sheet ≠ sheet_key sheet_name ->
  store_insight kind sheet_name r ins !! kind ≫= (.!! sheet)
  = ins !! kind ≫= (.!! sheet).
Proof.
  intros Hs. rewrite store_insight_lookup_kind, decide_True by done. simpl.
  rewrite lookup_insert_ne by done. by destruct (ins !! kind).
Qed.

Lemma store_insight_commute kind1 sheet1 r1 kind2 sheet2 r2 ins :
  kind1 ≠ kind2 ->
  store_insight kind1 sheet1 r1 (store_insight kind2 sheet2 r2 ins)
  = store_insight kind2 sheet2 r2 (store_insight kind1 sheet1 r1 ins).
Proof.
  intros Hne. apply map_eq. intros k.
  rewrite !store_insight_lookup_kind.
  repeat case_decide; by simplify_eq.
Qed.

Section PassFrame.

Context `{Calendar}.

(** X1. A pass only writes its own record: whatever its outcome, the file
    path, the default table and the sheets are as before, the records of
    the other kinds are untouched, and so are the records of its own kind
    stored for other sheets.  No pass but the temporal one raises; the
    temporal pass raises only when the calendar raises on a date column of
    the selected table, and then it changes nothing and prints nothing. *)
Theorem X1_pass_only_writes_its_record (p : pass) (sheet_name : option string)
    (self : ExcelInsights) (out : list string) :
  exists (res : result record) (self' : ExcelInsights) (out' : list string),
    run_pass p sheet_name self out = (res, self', out')
    /\ file_path self' = file_path self
    /\ data self' = data self
    /\ sheets self' = sheets self
    /\ (forall kind, kind ≠ pass_kind p ->
          insights self' !! kind = insights self !! kind)
    /\ (forall sheet, sheet ≠ sheet_key sheet_name ->
          insights self' !! pass_kind p ≫= (.!! sheet)
          = insights self !! pass_kind p ≫= (.!! sheet))
    /\ (forall e, res = Raise e ->
          p = Dates /\ self' = self /\ out' = out
          /\ exists d, select_data self sheet_name = Some d /\ ~ calendar_succeeds d).
Proof.
  rewrite run_pass_run.
  destruct (select_data self sheet_name) as [d|].
  - destruct (pass_result p d) as [r|e] eqn:Hres.
    + destruct (has_required_columns p d).
      * eexists _, _, _. split_and!; try done; simpl.
        -- intros kind Hk. by rewrite store_insight_lookup_kind, decide_False.
        -- intros sheet Hs. by apply store_insight_other_sheet.
      * eexists _, _, _. by split_and!.
    + eexists _, _, _. split_and!; try done.
      intros e' _. pose proof (pass_result_raises _ _ _ Hres) as ->.
      split_and!; try done. exists d. split; [done|].
      intros [r Hr]%dates_result_ok. congruence.
  - eexists _, _, _. by split_and!.
Qed.

(** The outcome of a pass, whether it stores and what it prints depend on
    the tables only, not on the insights gathered so far. *)
Lemma run_pass_shape (p : pass) (sheet_name : option string) (self : ExcelInsights) :
  exists (res : result record) (stored : option record) (msgs : list string),
    forall self' out,
      data self' = data self -> sheets self' = sheets self ->
      run_pass p sheet_name self' out
      = (res,
         match stored with
         | Some r =>
           with_insights self'
             (store_insight (pass_kind p) sheet_name r (insights self'))
         | None => self'
         end,
         out ++ msgs).
Proof.
  assert (forall self', data self' = data self -> sheets self' = sheets self ->
            select_data self' sheet_name = select_data self sheet_name) as Hsame.
  { intros self' Hd Hs. unfold select_data. by rewrite Hd, Hs. }
  destruct (select_data self sheet_name) as [d|] eqn:Hsel.
  - destruct (pass_result p d) as [r|e] eqn:Hres.
    + exists (Ok r), (if has_required_columns p d then Some r else None),
             (pass_msgs p d).
      intros self' out Hd Hs. rewrite run_pass_run, Hsame, Hres by done.
      by destruct (has_required_columns p d).
    + exists (Raise e), None, [].
      intros self' out Hd Hs. rewrite run_pass_run, Hsame, Hres by done.
      by rewrite app_nil_r.
  - exists (Ok (empty_record p)), None, [no_data_loaded].
    intros self' out Hd Hs. by rewrite run_pass_run, Hsame.
Qed.

(** X2. Two passes of different kinds can run in either order: each has the
    same outcome in both orders (the same record, or the same exception of
    the temporal pass), and the engine ends in the same state. *)
Theorem X2_passes_of_different_kinds_commute (p q : pass)
    (sheet_p sheet_q : option string) (self : ExcelInsights) (out : list string) :
  pass_kind p ≠ pass_kind q ->
  exists (rp rq : result record) (self_p self_q self_pq : ExcelInsights)
         (out1 out2 out3 out4 : list string),
    run_pass p sheet_p self out = (rp, self_p, out1)
    /\ run_pass q sheet_q self_p out1 = (rq, self_pq, out2)
    /\ run_pass q sheet_q self out = (rq, self_q, out3)
    /\ run_pass p sheet_p self_q out3 = (rp, self_pq, out4).
Proof.
  intros Hkinds.
  destruct (run_pass_shape p sheet_p self) as (rp & bp & mp & Hp).
  destruct (run_pass_shape q sheet_q self) as (rq & bq & mq & Hq).
  exists rp, rq. eexists _, _, _, _, _, _, _.
  split; [by apply Hp|]. split; [|split; [by apply Hq|]].
  - apply Hq; by destruct bp.
  - rewrite Hp by (by destruct bq). f_equal. f_equal.
    destruct bp, bq; try reflexivity; simpl.
    by rewrite store_insight_commute.
Qed.

(** X3. The empty string as a sheet name behaves as no sheet name: the pass
    works on the default table and stores under "default", even when a
    sheet is keyed by the empty string. *)
Theorem X3_empty_sheet_name_is_default (p : pass) (self : ExcelInsights)
    (out : list string) :
  run_pass p (Some "") self out = run_pass p None self out.
Proof. by rewrite !run_pass_run. Qed.

End PassFrame.

Lemma X2_witness :
  pass_kind SummaryStatistics ≠ pass_kind Dates
  /\ exists (rp rq : result record) (self_p self_q self_pq : ExcelInsights)
            (out1 out2 out3 out4 : list string),
      @run_pass Iso.calendar SummaryStatistics None (engine_with three_measures) []
        = (rp, self_p, out1)
      /\ @run_pass Iso.calendar Dates (Some "Sheet1") self_p out1 = (rq, self_pq, out2)
      /\ @run_pass Iso.calendar Dates (Some "Sheet1") (engine_with three_measures) []
         = (rq, self_q, out3)
      /\ @run_pass Iso.calendar SummaryStatistics None self_q out3
         = (rp, self_pq, out4).
Proof.
  assert (pass_kind SummaryStatistics ≠ pass_kind Dates) as H1 by done.
  split; [done|].
  exact (@X2_passes_of_different_kinds_commute Iso.calendar SummaryStatistics Dates
           None (Some "Sheet1") (engine_with three_measures) [] H1).
Defined.

(** ** The entries of the outlier pass *)

Lemma keyed_loop_sound {V} (entry : Series -> option V) (cols : list Series)
    (acc : gmap string V) (k : string) (v : V) :
  foldl (keyed_step entry) acc cols !! k = Some v ->
  acc !! k = Some v \/ exists col, col ∈ cols /\ name col = k /\ entry col = Some v.
Proof.
  revert acc. induction cols as [|c cols IH]; intros acc; simpl; [by left|].
  intros [Hacc | (col & Hin & Hk & Hv)]%IH.
  - unfold keyed_step in Hacc. destruct (entry c) as [w|] eqn:Hc; [|by left].
    destruct (decide (k = name c)) as [->|Hne].
    + rewrite lookup_insert_eq in Hacc. injection Hacc as ->.
      right. exists c. split_and!; [left|done..].
    + rewrite lookup_insert_ne in Hacc by done. by left.
  - right. exists col. split_and!; [by right|done..].
Qed.

Lemma outlier_entry_Some method threshold col info :
  outlier_entry method threshold col = Some info ->
  exists flagged,
    selection method threshold (dt col) (pd.dropna col) = Some flagged
    /\ flagged ≠ []
    /\ info = {| o_count := length flagged;
                 o_percentage :=
                   F64.mul (np_truediv (length flagged) (length (pd.dropna col)))
                           (F64.of_Z 100);
                 o_values := take 10 flagged |}.
Proof.
  unfold outlier_entry.
  destruct (selection _ _ _ _) as [[|x flagged]|]; intros [= <-].
  by exists (x :: flagged).
Qed.

Lemma selection_sublist method threshold d col_data flagged :
  selection method threshold d col_data = Some flagged ->
  flagged `sublist_of` col_data.
Proof.
  unfold selection, zscore_selected, iqr_selected.
  repeat case_match; intros [= <-]; apply sublist_filter.
Qed.

(** X4. Every entry of the outlier result, for any method, belongs to a
    numeric column of the table and describes a non-empty selection of its
    non-null values, in row order: the count is the size of the selection
    (at least 1, at most the number of non-null values), the percentage is
    the count over the number of non-null values, and the sample holds the
    first 10 selected values. *)
Theorem X4_outlier_entries (sheet_name : option string) (method : string)
    (threshold : float) (self : ExcelInsights) (out : list string) :
  exists (r : gmap string outlier_info) (self' : ExcelInsights) (out' : list string),
    identify_outliers sheet_name method threshold self out = (Ok r, self', out')
    /\ forall k info,
         r !! k = Some info ->
         exists d col flagged,
           select_data self sheet_name = Some d
           /\ col ∈ pd.select_dtypes_number d
           /\ name col = k
           /\ flagged `sublist_of` pd.dropna col
           /\ 1 <= o_count info <= length (pd.dropna col)
           /\ o_count info = length flagged
           /\ o_values info = take 10 flagged
           /\ length (o_values info) = min 10 (o_count info)
           /\ o_percentage info
              = F64.mul (F64.div (F64.of_nat (o_count info))
                                 (F64.of_nat (length (pd.dropna col))))
                        (F64.of_Z 100).
Proof.
  rewrite identify_outliers_run.
  destruct (select_data self sheet_name) as [d|];
    [|eexists _, _, _; split; [done|]; intros k info Hk; by rewrite lookup_empty in Hk].
  destruct (pd.select_dtypes_number d) as [|c cols] eqn:Hcols;
    [eexists _, _, _; split; [done|]; intros k info Hk; by rewrite lookup_empty in Hk|].
  cbv zeta. eexists _, _, _. split; [done|]. intros k info.
  rewrite outliers_of_keyed.
  intros [Hempty | (col & Hin & Hname & Hentry)]%keyed_loop_sound.
  { by rewrite lookup_empty in Hempty. }
  apply outlier_entry_Some in Hentry as (flagged & Hsel & Hne & ->).
  pose proof (selection_sublist _ _ _ _ _ Hsel) as Hsub.
  pose proof (sublist_length _ _ Hsub) as Hlen.
  exists d, col, flagged. simpl. rewrite length_take.
  split_and!; try done.
  - by rewrite Hcols.
  - destruct flagged; [done|simpl; lia].
Qed.

Lemma selection_iqr method threshold d col_data :
  method ≠ "zscore" ->
  selection method threshold d col_data
  = Some (filter (fun x => outside_iqr_bounds threshold col_data x = true) col_data).
Proof. intros Hz. unfold selection. by rewrite decide_False. Qed.

Lemma filter_nonempty_iff {A} (P : A -> Prop) `{forall x, Decision (P x)} (l : list A) :
  filter P l ≠ [] <-> exists x, x ∈ l /\ P x.
Proof.
  split.
  - destruct (filter P l) as [|x l'] eqn:Hf; [done|]. intros _.
    assert (x ∈ filter P l) as Hx by (rewrite Hf; left).
    apply list_elem_of_filter in Hx as [HP Hx]. by exists x.
  - intros (x & Hin & HP) Hnil.
    assert (x ∈ filter P l) as Hx by (by apply list_elem_of_filter).
    rewrite Hnil in Hx. by apply elem_of_nil in Hx.
Qed.

(** X5. With the IQR method (and with any method string other than
    "zscore"), on a table with pairwise distinct labels, a numeric column is
    in the result exactly when one of its non-null values lies outside
    [Q1 - threshold * IQR, Q3 + threshold * IQR]; its count is the number of
    such values and every value of its sample lies outside the bounds. *)
Theorem X5_iqr_reports_values_outside_bounds (sheet_name : option string)
    (method : string) (threshold : float) (self : ExcelInsights) (d : DataFrame)
    (col : Series) (out : list string) :
  method ≠ "zscore" ->
  select_data self sheet_name = Some d ->
  NoDup (name <$> d) ->
  col ∈ pd.select_dtypes_number d ->
  exists (r : gmap string outlier_info) (self' : ExcelInsights) (out' : list string),
    identify_outliers sheet_name method threshold self out = (Ok r, self', out')
    /\ (is_Some (r !! name col)
        <-> exists x, x ∈ pd.dropna col
                      /\ outside_iqr_bounds threshold (pd.dropna col) x = true)
    /\ (forall info,
          r !! name col = Some info ->
          o_count info
          = length (filter (fun x => outside_iqr_bounds threshold (pd.dropna col) x = true)
                           (pd.dropna col))
          /\ Forall (fun x => outside_iqr_bounds threshold (pd.dropna col) x = true)
                    (o_values info)).
Proof.
  intros Hz Hsel Hnd Hin. rewrite identify_outliers_run, Hsel.
  destruct (pd.select_dtypes_number d) as [|c cols] eqn:Hcols.
  { by apply elem_of_nil in Hin. }
  cbv zeta. eexists _, _, _. split; [done|].
  rewrite outliers_of_keyed.
  rewrite (keyed_loop_lookup _ (c :: cols) ∅ col);
    [| by rewrite <- Hcols; apply NoDup_fmap_filter | done].
  rewrite lookup_empty. unfold outlier_entry. rewrite selection_iqr by done.
  set (P := fun x => outside_iqr_bounds threshold (pd.dropna col) x = true).
  pose proof (filter_nonempty_iff P (pd.dropna col)) as Hiff.
  destruct (filter P (pd.dropna col)) as [|x flagged] eqn:Hf.
  - split.
    + split; [by intros [? ?]|]. intros Hex. apply Hiff in Hex. done.
    + by intros info.
  - split.
    + split; [|by eauto]. intros _. by apply Hiff.
    + intros info [= <-]. simpl. split; [done|].
      change (x :: take 9 flagged) with (take 10 (x :: flagged)).
      apply Forall_take. rewrite <- Hf. apply Forall_forall.
      intros y Hy. by apply list_elem_of_filter in Hy as [? _].
Qed.

Lemma X5_witness :
  "iqr" ≠ "zscore"
  /\ select_data (engine_with flat_and_spread) None = Some flat_and_spread
  /\ NoDup (name <$> flat_and_spread)
  /\ numbers "spread" [1; 2; 3; 4; 1000]%Z ∈ pd.select_dtypes_number flat_and_spread
  /\ exists (r : gmap string outlier_info) (self' : ExcelInsights) (out' : list string),
      identify_outliers None "iqr" (F64.lit 3 2) (engine_with flat_and_spread) []
        = (Ok r, self', out')
      /\ (is_Some (r !! name (numbers "spread" [1; 2; 3; 4; 1000]%Z))
          <-> exists x, x ∈ pd.dropna (numbers "spread" [1; 2; 3; 4; 1000]%Z)
                /\ outside_iqr_bounds (F64.lit 3 2)
                     (pd.dropna (numbers "spread" [1; 2; 3; 4; 1000]%Z)) x = true)
      /\ (forall info,
            r !! name (numbers "spread" [1; 2; 3; 4; 1000]%Z) = Some info ->
            o_count info
            = length (filter (fun x => outside_iqr_bounds (F64.lit 3 2)
                                (pd.dropna (numbers "spread" [1; 2; 3; 4; 1000]%Z)) x = true)
                             (pd.dropna (numbers "spread" [1; 2; 3; 4; 1000]%Z)))
            /\ Forall (fun x => outside_iqr_bounds (F64.lit 3 2)
                         (pd.dropna (numbers "spread" [1; 2; 3; 4; 1000]%Z)) x = true)
                      (o_values info)).
Proof.
  assert ("iqr" ≠ "zscore") as H0 by done.
  assert (select_data (engine_with flat_and_spread) None = Some flat_and_spread)
    as H1 by reflexivity.
  assert (NoDup (name <$> flat_and_spread)) as H2.
  { apply (bool_decide_unpack _). vm_compute. exact I. }
  assert (numbers "spread" [1; 2; 3; 4; 1000]%Z ∈ pd.select_dtypes_number flat_and_spread)
    as H3.
  { change (pd.select_dtypes_number flat_and_spread) with flat_and_spread.
    right. left. }
  split_and!; [done..|].
  exact (X5_iqr_reports_values_outside_bounds None "iqr" (F64.lit 3 2)
           (engine_with flat_and_spread) flat_and_spread
           (numbers "spread" [1; 2; 3; 4; 1000]%Z) [] H0 H1 H2 H3).
Defined.

Lemma div_by_nan (x : float) : F64.div x F64.nan = F64.nan.
Proof. by destruct x. Qed.

Lemma gtb_abs_nan (threshold : float) : F64.gtb (F64.abs F64.nan) threshold = false.
Proof. by destruct threshold. Qed.

(** The values that are left after [dropna] all count. *)
Lemma count_dropna (col : Series) : pd.count (pd.dropna col) = length (pd.dropna col).
Proof.
  unfold pd.count, pd.dropna.
  induction (pd.to_float <$> values col) as [|x l IH]; [done|].
  rewrite filter_cons. case_decide as Hx; [|done].
  rewrite filter_cons, decide_True by done. simpl. by rewrite IH.
Qed.

Lemma std_few_values (col_data : list float) :
  pd.count col_data <= 1 -> pd.std col_data = F64.nan.
Proof. intros Hlen. unfold pd.std. by rewrite decide_True. Qed.

Lemma zscore_above_std (threshold : float) (d : dtype) (col_data : list float)
    (x : float) :
  zscore_above threshold d col_data x = true ->
  F64.is_nan (pd.std col_data) = false /\ 2 <= pd.count col_data.
Proof.
  unfold zscore_above. intros Hz.
  assert (F64.is_nan (pd.std col_data) = false) as Hnan.
  { destruct (pd.std col_data) eqn:Hstd; try done.
    by rewrite div_by_nan, gtb_abs_nan in Hz. }
  split; [done|].
  destruct (decide (pd.count col_data <= 1)) as [Hlen|Hlen]; [|lia].
  by rewrite std_few_values in Hnan.
Qed.

(** X6. With the z-score method, every column in the result has at least two
    non-null values and a standard deviation that is neither NaN nor equal to
    zero, and the z-score of every value of its sample exceeds the threshold:
    a column with fewer than two values is never reported. *)
Theorem X6_zscore_entries (sheet_name : option string) (threshold : float)
    (self : ExcelInsights) (out : list string) :
  exists (r : gmap string outlier_info) (self' : ExcelInsights) (out' : list string),
    identify_outliers sheet_name "zscore" threshold self out = (Ok r, self', out')
    /\ forall k info,
         r !! k = Some info ->
         exists d col,
           select_data self sheet_name = Some d
           /\ col ∈ pd.select_dtypes_number d
           /\ name col = k
           /\ 2 <= length (pd.dropna col)
           /\ F64.is_nan (pd.std (pd.dropna col)) = false
           /\ F64.eqb (pd.std (pd.dropna col)) F64.zero = false
           /\ Forall (fun x => zscore_above threshold (dt col) (pd.dropna col) x = true)
                     (o_values info).
Proof.
  rewrite identify_outliers_run.
  destruct (select_data self sheet_name) as [d|];
    [|eexists _, _, _; split; [done|]; intros k info Hk; by rewrite lookup_empty in Hk].
  destruct (pd.select_dtypes_number d) as [|c cols] eqn:Hcols;
    [eexists _, _, _; split; [done|]; intros k info Hk; by rewrite lookup_empty in Hk|].
  cbv zeta. eexists _, _, _. split; [done|]. intros k info.
  rewrite outliers_of_keyed.
  intros [Hempty | (col & Hin & Hname & Hentry)]%keyed_loop_sound.
  { by rewrite lookup_empty in Hempty. }
  apply outlier_entry_Some in Hentry as (flagged & Hsel & Hne & ->).
  unfold selection in Hsel. rewrite decide_True in Hsel by done.
  destruct (F64.eqb (pd.std (pd.dropna col)) F64.zero) eqn:Hzero; [done|].
  injection Hsel as <-.
  assert (Forall (fun x => zscore_above threshold (dt col) (pd.dropna col) x = true)
                 (zscore_selected threshold (dt col) (pd.dropna col))) as Hall.
  { apply Forall_forall. intros y Hy.
    by apply list_elem_of_filter in Hy as [? _]. }
  destruct (zscore_selected threshold (dt col) (pd.dropna col)) as [|x flagged] eqn:Hf;
    [done|].
  apply Forall_cons in Hall as Hx. destruct Hx as [Hx _].
  apply zscore_above_std in Hx as [Hnan Hlen]. rewrite count_dropna in Hlen.
  exists d, col. rewrite Hcols. split_and!; try done.
  change (o_values _) with (take 10 (x :: flagged)). by apply Forall_take.
Qed.

(** ** The coefficients of the correlation pass *)

Lemma SFcompare_antisym (x y : float) (c : comparison) :
  SFcompare x y = Some c -> SFcompare y x = Some (CompOpp c).
Proof.
  destruct x as [[]|[]| |[] mx ex], y as [[]|[]| |[] my ey]; simpl;
    try (intros [= <-]; reflexivity).
  - rewrite (Z.compare_antisym ex ey).
    destruct (ex ?= ey)%Z; simpl; intros [= <-]; try reflexivity.
    f_equal. rewrite (Pos.compare_cont_antisym _ _ Eq). simpl.
    by rewrite CompOpp_involutive.
  - rewrite (Z.compare_antisym ex ey).
    destruct (ex ?= ey)%Z; simpl; intros [= <-]; try reflexivity.
    f_equal. by rewrite (Pos.compare_cont_antisym _ _ Eq).
Qed.

(** For two numbers, [not (y < x)] is [x <= y]. *)
Lemma not_ltb_leb (x y : float) :
  F64.is_nan x = false -> F64.is_nan y = false ->
  F64.ltb y x = false -> F64.leb x y = true.
Proof.
  unfold F64.ltb, F64.leb, SFltb, SFleb. intros Hx Hy.
  destruct (SFcompare y x) as [c|] eqn:Hc.
  - rewrite (SFcompare_antisym _ _ _ Hc). by destruct c.
  - by destruct x, y.
Qed.

(** The coefficient [nancorr] returns is NaN or lies in [-1, 1]. *)
Lemma corr_of_welford_range (w : pd.welford) :
  F64.is_nan (pd.corr_of_welford w) = false ->
  F64.leb (F64.of_Z (-1)) (pd.corr_of_welford w) = true
  /\ F64.leb (pd.corr_of_welford w) (F64.of_Z 1) = true.
Proof.
  unfold pd.corr_of_welford. case_decide; [done|].
  destruct (F64.neqb _ _); [|done].
  set (val := F64.div _ _).
  destruct (F64.gtb val (F64.of_Z 1)) eqn:Hhi; [by intros _; vm_compute|].
  destruct (F64.ltb val (F64.of_Z (-1))) eqn:Hlo; [by intros _; vm_compute|].
  intros Hnan. split; by apply not_ltb_leb.
Qed.

Lemma geb_abs_not_nan (v threshold : float) :
  F64.geb (F64.abs v) threshold = true -> F64.is_nan v = false.
Proof. destruct v; try done. by rewrite geb_abs_nan. Qed.

(** X7. Every coefficient in the result of the correlation pass is a number
    (never NaN) between -1 and 1 whose absolute value is at least the
    threshold, and its key is "colA - colB" for two numeric columns with
    colA before colB. *)
Theorem X7_reported_coefficients (sheet_name : option string) (threshold : float)
    (self : ExcelInsights) (out : list string) :
  exists (r : gmap string float) (self' : ExcelInsights) (out' : list string),
    find_correlations sheet_name threshold self out = (Ok r, self', out')
    /\ forall k v,
         r !! k = Some v ->
         F64.is_nan v = false
         /\ F64.geb (F64.abs v) threshold = true
         /\ F64.leb (F64.of_Z (-1)) v = true
         /\ F64.leb v (F64.of_Z 1) = true
         /\ exists d i j col1 col2,
              select_data self sheet_name = Some d
              /\ i < j
              /\ pd.select_dtypes_number d !! i = Some col1
              /\ pd.select_dtypes_number d !! j = Some col2
              /\ k = name col1 +:+ " - " +:+ name col2.
Proof.
  rewrite find_correlations_run.
  destruct (select_data self sheet_name) as [d|];
    [|eexists _, _, _; split; [done|]; intros k v Hk; by rewrite lookup_empty in Hk].
  cbv zeta. case_decide as Hlen;
    [eexists _, _, _; split; [done|]; intros k v Hk; by rewrite lookup_empty in Hk|].
  eexists _, _, _. split; [done|]. intros k v.
  rewrite correlations_loop_pairs.
  intros [Hempty | ([c1 c2] & Hin & Hrep & -> & ->)]%pair_loop_sound.
  { by rewrite lookup_empty in Hempty. }
  unfold reported in Hrep. simpl in *.
  pose proof (geb_abs_not_nan _ _ Hrep) as Hnan.
  destruct (corr_of_welford_range _ Hnan) as [Hlo Hhi].
  apply pairs_indices in Hin as (i & j & Hij & Hi & Hj).
  split_and!; try done. by exists d, i, j, c1, c2.
Qed.

(** ** Frequency tables *)

Lemma eqb_float_key (x y : float) :
  F64.is_nan x = false -> F64.is_nan y = false ->
  F64.eqb x y = true <-> float_key x = float_key y.
Proof.
  unfold F64.eqb, SFeqb.
  destruct x as [sx|sx| |sx mx ex], y as [sy|sy| |sy my ey]; simpl; try done;
    intros _ _.
  all: try (destruct sx; done).
  all: try (destruct sy; done).
  all: try (destruct sx, sy; simpl; split; try done; by intros [= ?]).
  change (PosDef.Pos.compare_cont Eq mx my) with (mx ?= my)%positive.
  destruct sx, sy; simpl; try (split; [done|by intros [= ?]]);
    destruct (Z.compare_spec ex ey) as [->|Hlt|Hgt]; simpl;
    try (split; [done|intros [= ? ?]; lia]);
    destruct (Pos.compare_spec mx my) as [->|Hm|Hm]; simpl;
    split; try done; intros [= ?]; lia.
Qed.

(** Two entries that are not null are equal for Python exactly when they
    have the same key. *)
Lemma cell_eq_key (a b : cell) :
  pd.notnull a = true -> pd.notnull b = true ->
  pd.py_eq a b = true <-> category_key a = category_key b.
Proof.
  unfold pd.py_eq, pd.cell_py_eq, pd.notnull.
  destruct a as [x|s|c|ns|], b as [y|t|c'|ns'|]; simpl; try done; intros Ha Hb.
  - apply negb_true_iff in Ha, Hb. rewrite eqb_float_key by done.
    split; [by intros ->|by intros [= ?]].
  - apply negb_true_iff in Ha.
    rewrite eqb_float_key by (by destruct c'). split.
    + intros ->. by destruct c'.
    + intros [= ->]. by destruct c'.
  - rewrite bool_decide_eq_true. split; [by intros ->|by intros [= ?]].
  - apply negb_true_iff in Hb.
    rewrite eqb_float_key by (by destruct c). split.
    + intros ->. by destruct c.
    + intros [= <-]. by destruct c.
  - rewrite bool_decide_eq_true. split; [by intros ->|].
    by destruct c, c'.
  - rewrite bool_decide_eq_true. split; [by intros ->|by intros [= ?]].
Qed.

Lemma unique_acc_length {A} `{pd.PyEq A} (l acc : list A) :
  length (foldl (fun acc x => if existsb (fun y => pd.py_eq y x) acc then acc
                              else acc ++ [x]) acc l)
  <= length acc + length l.
Proof.
  revert acc. induction l as [|x l IH]; intros acc; simpl; [lia|].
  destruct (existsb _ acc).
  - specialize (IH acc). lia.
  - specialize (IH (acc ++ [x])). rewrite length_app in IH. simpl in IH. lia.
Qed.

Lemma unique_length {A} `{pd.PyEq A} (l : list A) :
  length (pd.unique l) <= length l.
Proof. apply (unique_acc_length l []). Qed.

Lemma unique_acc_elem_of {A} `{pd.PyEq A} (l acc : list A) (x : A) :
  x ∈ foldl (fun acc x => if existsb (fun y => pd.py_eq y x) acc then acc
                          else acc ++ [x]) acc l ->
  x ∈ acc \/ x ∈ l.
Proof.
  revert acc. induction l as [|y l IH]; intros acc; simpl; [by left|].
  destruct (existsb _ acc).
  - intros [?|?]%IH; [by left|by do 2 right].
  - intros [Hx|Hx]%IH; [|by do 2 right].
    apply elem_of_app in Hx as [Hx|Hx]; [by left|].
    apply list_elem_of_singleton in Hx as ->. right. left.
Qed.

Lemma unique_elem_of {A} `{pd.PyEq A} (l : list A) (x : A) :
  x ∈ pd.unique l -> x ∈ l.
Proof.
  intros [Hx|Hx]%unique_acc_elem_of; [by apply elem_of_nil in Hx|done].
Qed.

(** The categories [unique] keeps have pairwise different keys. *)
Lemma unique_acc_keys (l acc : list cell) :
  Forall (fun c => pd.notnull c = true) l ->
  Forall (fun c => pd.notnull c = true) acc ->
  NoDup (category_key <$> acc) ->
  NoDup (category_key <$>
           foldl (fun acc x => if existsb (fun y => pd.py_eq y x) acc then acc
                               else acc ++ [x]) acc l).
Proof.
  revert acc. induction l as [|x l IH]; intros acc Hl Hacc Hnd; simpl; [done|].
  apply Forall_cons in Hl as [Hx Hl].
  destruct (existsb _ acc) eqn:Hex; [by apply IH|].
  apply IH; [done|by apply Forall_app; split; [|repeat constructor]|].
  rewrite fmap_app. apply NoDup_app. split_and!; [done| |apply NoDup_singleton].
  intros k (y & -> & Hy)%list_elem_of_fmap Hk.
  apply list_elem_of_singleton in Hk.
  assert (pd.py_eq y x = true) as Heq.
  { apply cell_eq_key; [|done..]. by eapply Forall_forall in Hacc. }
  assert (existsb (fun y => pd.py_eq y x) acc = true) as Hex'.
  { apply existsb_exists. exists y. split; [by apply list_elem_of_In|done]. }
  congruence.
Qed.

Lemma unique_keys_NoDup (l : list cell) :
  Forall (fun c => pd.notnull c = true) l -> NoDup (category_key <$> pd.unique l).
Proof. intros Hl. apply unique_acc_keys; [done|constructor|constructor]. Qed.

Lemma nonnull_notnull (l : list cell) :
  Forall (fun c => pd.notnull c = true) (pd.nonnull l).
Proof. apply Forall_forall. intros c Hc. by apply list_elem_of_filter in Hc as [? _]. Qed.

Lemma insert_desc_perm {A} (x : A * nat) (l : list (A * nat)) :
  pd.insert_desc x l ≡ₚ x :: l.
Proof.
  induction l as [|y l IH]; simpl; [done|].
  case_decide; [done|]. by rewrite IH, Permutation_swap.
Qed.

Lemma insert_desc_sorted {A} (x : A * nat) (l : list (A * nat)) :
  StronglySorted by_count_desc l -> StronglySorted by_count_desc (pd.insert_desc x l).
Proof.
  induction l as [|y l IH]; simpl; intros Hl.
  - repeat constructor.
  - apply StronglySorted_cons in Hl as [Hy Hl]. case_decide as Hxy.
    + apply StronglySorted_cons. split; [|by apply StronglySorted_cons].
      constructor; [done|].
      eapply Forall_impl; [exact Hy|]. unfold by_count_desc. intros z Hz. lia.
    + apply StronglySorted_cons. split; [|by apply IH].
      rewrite insert_desc_perm. constructor; [|done].
      unfold by_count_desc. lia.
Qed.

Lemma value_counts_perm {A} `{pd.PyEq A} (l : list A) :
  pd.value_counts l ≡ₚ (fun k => (k, pd.count_of k l)) <$> pd.unique l.
Proof.
  unfold pd.value_counts.
  induction ((fun k => (k, pd.count_of k l)) <$> pd.unique l) as [|x L IH]; simpl;
    [done|].
  by rewrite insert_desc_perm, IH.
Qed.

Lemma value_counts_sorted {A} `{pd.PyEq A} (l : list A) :
  StronglySorted by_count_desc (pd.value_counts l).
Proof.
  unfold pd.value_counts.
  induction ((fun k => (k, pd.count_of k l)) <$> pd.unique l) as [|x L IH]; simpl.
  - constructor.
  - by apply insert_desc_sorted.
Qed.

Lemma value_counts_keys {A} `{pd.PyEq A} (l : list A) :
  (pd.value_counts l).*1 ≡ₚ pd.unique l.
Proof.
  rewrite value_counts_perm, <- list_fmap_compose.
  induction (pd.unique l) as [|x L IH]; [done|]. simpl. by rewrite IH.
Qed.

Lemma value_counts_length {A} `{pd.PyEq A} (l : list A) :
  length (pd.value_counts l) = length (pd.unique l).
Proof. by rewrite value_counts_perm, length_fmap. Qed.

(** An entry that is not null is equal to itself, and is counted. *)
Lemma count_of_elem (x : cell) (l : list cell) :
  pd.notnull x = true -> x ∈ l -> 1 <= pd.count_of x l.
Proof.
  intros Hx Hin. unfold pd.count_of.
  assert (x ∈ filter (fun y => pd.py_eq y x = true) l) as Hf.
  { apply list_elem_of_filter. split; [|done]. by apply cell_eq_key. }
  destruct (filter _ l); [by apply elem_of_nil in Hf | simpl; lia].
Qed.

Lemma value_counts_entries (l : list cell) :
  Forall (fun c => pd.notnull c = true) l ->
  Forall (fun kn => kn.1 ∈ l
                    /\ kn.2 = length (filter (fun c => pd.py_eq c kn.1 = true) l)
                    /\ 1 <= kn.2)
         (pd.value_counts l).
Proof.
  intros Hl. rewrite value_counts_perm. apply Forall_fmap, Forall_forall.
  intros k Hk%unique_elem_of. simpl.
  split_and!; [done | reflexivity |].
  apply count_of_elem; [|done]. by eapply Forall_forall in Hl.
Qed.

(** Entries with pairwise different keys are pairwise different for
    Python. *)
Lemma keys_NoDup_distinct (l keys : list cell) :
  Forall (fun c => pd.notnull c = true) l ->
  (forall c, c ∈ keys -> c ∈ l) ->
  NoDup (category_key <$> keys) ->
  forall i j a b,
    i ≠ j -> keys !! i = Some a -> keys !! j = Some b -> pd.py_eq a b = false.
Proof.
  intros Hl Hsub Hnd i j a b Hij Ha Hb.
  destruct (pd.py_eq a b) eqn:Heq; [|done]. exfalso. apply Hij.
  apply cell_eq_key in Heq.
  - eapply NoDup_lookup; [exact Hnd| |].
    + by rewrite list_lookup_fmap, Ha.
    + by rewrite list_lookup_fmap, Hb, Heq.
  - eapply Forall_forall in Hl; [done|]. apply Hsub. by eapply list_elem_of_lookup_2.
  - eapply Forall_forall in Hl; [done|]. apply Hsub. by eapply list_elem_of_lookup_2.
Qed.

(** 1 and True are one category, counted twice; the null entry is not
    counted. *)
Lemma value_counts_of_one_and_true :
  pd.value_counts (pd.nonnull [VNum (F64.of_Z 1); VBool true; VStr "a"; VNone])
  = [(VNum (F64.of_Z 1), 2); (VStr "a", 1)]
  /\ pd.nunique [VNum (F64.of_Z 1); VBool true; VStr "a"; VNone] = 2.
Proof. by vm_compute. Qed.

Lemma head_sublist {A} (n : Z) (l : list A) : pd.head n l `sublist_of` l.
Proof. unfold pd.head. case_decide; apply sublist_take. Qed.

Lemma head_take {A} (n : Z) (l : list A) : exists m, pd.head n l = take m l.
Proof. unfold pd.head. case_decide; eauto. Qed.

Lemma null_split (l : list cell) :
  pd.isnull_sum l + length (pd.nonnull l) = length l.
Proof.
  unfold pd.isnull_sum, pd.nonnull, pd.notnull.
  induction l as [|c l IH]; [done|].
  rewrite !filter_cons. destruct (pd.isnull c); simpl; lia.
Qed.

(** ** The records of the categorical pass *)

(** X8. On a table with pairwise distinct labels, every column of an object or
    string type gets a record, and the record is consistent: missing and
    non-null values add up to the rows of the column; the top categories are
    non-null values of the column, no two of them equal as Python compares
    them (1, 1.0 and True are one category), each with the number of
    entries that are equal to it (at least 1), in non-increasing order of
    count; there are at most [top_n] of them (for a non-negative [top_n])
    and at most as many as unique values; the percentages are listed for
    the same categories in the same order. *)
Theorem X8_categorical_record (sheet_name : option string) (top_n : Z)
    (self : ExcelInsights) (d : DataFrame) (col : Series) (out : list string) :
  select_data self sheet_name = Some d ->
  NoDup (name <$> d) ->
  col ∈ d ->
  pd.is_categorical (dt col) = true ->
  exists (r : gmap string categorical_info) (self' : ExcelInsights) (info : categorical_info),
    analyze_categorical_data sheet_name top_n self out = (Ok r, self', out)
    /\ r !! name col = Some info
    /\ missing_values info + length (pd.nonnull (values col)) = length (values col)
    /\ unique_values info <= length (pd.nonnull (values col))
    /\ length (top_categories info) <= unique_values info
    /\ ((0 <= top_n)%Z -> length (top_categories info) <= Z.to_nat top_n)
    /\ StronglySorted by_count_desc (top_categories info)
    /\ (forall i j a b,
          i ≠ j ->
          (top_categories info).*1 !! i = Some a ->
          (top_categories info).*1 !! j = Some b ->
          pd.py_eq a b = false)
    /\ Forall (fun kn =>
                 kn.1 ∈ pd.nonnull (values col)
                 /\ kn.2 = length (filter (fun c => pd.py_eq c kn.1 = true)
                                     (pd.nonnull (values col)))
                 /\ 1 <= kn.2)
              (top_categories info)
    /\ (top_categories_pct info).*1 = (top_categories info).*1.
Proof.
  intros Hsel Hnd Hin Hcat.
  rewrite analyze_categorical_data_run, Hsel.
  assert (col ∈ pd.select_dtypes_categorical d) as Hin'.
  { by apply list_elem_of_filter. }
  destruct (pd.select_dtypes_categorical d) as [|c cols] eqn:Hcols.
  { by apply elem_of_nil in Hin'. }
  cbv zeta. eexists _, _, (categorical_entry d top_n col).
  split; [done|]. split.
  { rewrite categorical_of_keyed.
    rewrite (keyed_loop_lookup _ (c :: cols) ∅ col); [done| |done].
    rewrite <- Hcols. by apply NoDup_fmap_filter. }
  unfold categorical_entry, pd.nunique. simpl.
  set (nn := pd.nonnull (values col)).
  pose proof (nonnull_notnull (values col)) as Hnn. fold nn in Hnn.
  destruct (head_take top_n (pd.value_counts nn)) as [m Hm].
  split_and!.
  - apply null_split.
  - apply unique_length.
  - rewrite <- value_counts_length. apply sublist_length, head_sublist.
  - intros Hn. unfold pd.head. rewrite decide_True by done.
    rewrite length_take. lia.
  - rewrite Hm. eapply StronglySorted_app_1_l.
    rewrite take_drop. apply value_counts_sorted.
  - rewrite Hm, fmap_take. apply (keys_NoDup_distinct nn); [done| |].
    + intros k Hk. apply unique_elem_of. rewrite <- value_counts_keys.
      eapply elem_of_sublist; [exact Hk|apply sublist_take].
    + rewrite fmap_take. eapply sublist_NoDup; [|apply sublist_take].
      rewrite value_counts_keys. by apply unique_keys_NoDup.
  - rewrite Hm. by apply Forall_take, value_counts_entries.
  - unfold pct_of. rewrite <- list_fmap_compose. done.
Qed.

Lemma X8_witness :
  select_data (engine_with mixed_labels) None = Some mixed_labels
  /\ NoDup (name <$> mixed_labels)
  /\ regions ∈ mixed_labels
  /\ pd.is_categorical (dt regions) = true
  /\ exists (r : gmap string categorical_info) (self' : ExcelInsights)
            (info : categorical_info),
      analyze_categorical_data None 2 (engine_with mixed_labels) []
        = (Ok r, self', [])
      /\ r !! name regions = Some info
      /\ missing_values info + length (pd.nonnull (values regions))
         = length (values regions)
      /\ unique_values info <= length (pd.nonnull (values regions))
      /\ length (top_categories info) <= unique_values info
      /\ ((0 <= 2)%Z -> length (top_categories info) <= Z.to_nat 2)
      /\ StronglySorted by_count_desc (top_categories info)
      /\ (forall i j a b,
            i ≠ j ->
            (top_categories info).*1 !! i = Some a ->
            (top_categories info).*1 !! j = Some b ->
            pd.py_eq a b = false)
      /\ Forall (fun kn =>
                   kn.1 ∈ pd.nonnull (values regions)
                   /\ kn.2 = length (filter (fun c => pd.py_eq c kn.1 = true)
                                       (pd.nonnull (values regions)))
                   /\ 1 <= kn.2)
                (top_categories info)
      /\ (top_categories_pct info).*1 = (top_categories info).*1.
Proof.
  assert (select_data (engine_with mixed_labels) None = Some mixed_labels)
    as H1 by reflexivity.
  assert (NoDup (name <$> mixed_labels)) as H2.
  { apply (bool_decide_unpack _). vm_compute. exact I. }
  assert (regions ∈ mixed_labels) as H3.
  { unfold mixed_labels. right. left. }
  assert (pd.is_categorical (dt regions) = true) as H4 by reflexivity.
  split_and!; [done..|].
  exact (X8_categorical_record None 2 (engine_with mixed_labels) mixed_labels
           regions [] H1 H2 H3 H4).
Defined.

(** ** The records of the temporal pass *)

Lemma foldl_min_spec (x : Z) (r : list Z) :
  foldl Z.min x r ∈ x :: r /\ forall y, y ∈ x :: r -> (foldl Z.min x r <= y)%Z.
Proof.
  revert x. induction r as [|z r IH]; intros x; simpl.
  - split; [left|]. intros y ->%list_elem_of_singleton. lia.
  - destruct (IH (x `min` z)%Z) as [Hin Hle]. split.
    + apply elem_of_cons in Hin as [Heq|Hin]; [|by do 2 right].
      rewrite Heq. destruct (Z.min_spec x z) as [[_ ->]|[_ ->]]; [left|right; left].
    + intros y Hy. rewrite !elem_of_cons in Hy.
      pose proof (Hle (x `min` z)%Z ltac:(left)) as Hm.
      destruct Hy as [->|[->|Hy]]; [lia..|]. apply Hle. by right.
Qed.

Lemma foldl_max_spec (x : Z) (r : list Z) :
  foldl Z.max x r ∈ x :: r /\ forall y, y ∈ x :: r -> (y <= foldl Z.max x r)%Z.
Proof.
  revert x. induction r as [|z r IH]; intros x; simpl.
  - split; [left|]. intros y ->%list_elem_of_singleton. lia.
  - destruct (IH (x `max` z)%Z) as [Hin Hle]. split.
    + apply elem_of_cons in Hin as [Heq|Hin]; [|by do 2 right].
      rewrite Heq. destruct (Z.max_spec x z) as [[_ ->]|[_ ->]]; [right; left|left].
    + intros y Hy. rewrite !elem_of_cons in Hy.
      pose proof (Hle (x `max` z)%Z ltac:(left)) as Hm.
      destruct Hy as [->|[->|Hy]]; [lia..|]. apply Hle. by right.
Qed.

Lemma elem_of_omap_id {A} (l : list (option A)) (x : A) :
  x ∈ omap id l <-> Some x ∈ l.
Proof. rewrite list_elem_of_omap. naive_solver. Qed.

Lemma length_omap_id {A} (l : list (option A)) : length (omap id l) <= length l.
Proof. induction l as [|[x|] l IH]; csimpl; lia. Qed.

Section DateRecords.

Context `{Calendar}.

Lemma count_split (date_col : list (option Z)) :
  count_isnull date_col + count_notnull date_col = length date_col.
Proof.
  unfold count_isnull, count_notnull.
  pose proof (length_omap_id date_col). lia.
Qed.

(** The entries of a record, when the calendar lets it be built. *)
Lemma date_record_Ok (date_col : list (option Z)) (info : date_info) :
  date_record date_col = Ok info ->
  dt_missing_values info = count_isnull date_col
  /\ (is_Some (distributions info) <-> 10 < count_notnull date_col)
  /\ unless_nat strftime_ymd (pd.date_min date_col) = Ok (min_date info)
  /\ unless_nat strftime_ymd (pd.date_max date_col) = Ok (max_date info)
  /\ match pd.date_min date_col, pd.date_max date_col with
     | Some lo, Some hi => Some <$> days_between lo hi
     | _, _ => Ok None
     end = Ok (range_days info).
Proof.
  unfold date_record.
  destruct (unless_nat strftime_ymd (pd.date_min date_col)) as [smin|e1]; [|done].
  destruct (unless_nat strftime_ymd (pd.date_max date_col)) as [smax|e2]; [|done].
  simpl.
  destruct (match pd.date_min date_col with Some _ => _ | None => _ end)
    as [range|e3]; [|done].
  simpl. case_decide as Hmany; simpl.
  - destruct (map_result day_name _) as [days|e4]; [|done]. simpl.
    destruct (map_result month_name _) as [months|e5]; [|done]. simpl.
    destruct (map_result year _) as [years|e6]; [|done]. simpl.
    intros [= <-]. simpl. split_and!; try done; try (split; [done|by eexists]).
  - intros [= <-]. simpl.
    split_and!; try done; try (split; [by intros [? ?]|done]).
Qed.

(** X9. The temporal pass either returns a dictionary or ends with an
    exception of the calendar; on a loaded table it returns exactly when
    the calendar raises on none of the date columns.  Every entry of the
    dictionary it returns belongs to a column of the table that passed the
    date test, and is consistent with its dates: missing and non-missing
    entries add up to the rows; without any date the minimum, the maximum
    and the range are absent; otherwise the minimum and the maximum are the
    formatted dates of the column that bound all its dates, and the range
    is the whole days the calendar counts between them; the three
    distributions are present exactly when the column has more than 10
    dates. *)
Theorem X9_date_record (sheet_name : option string) (self : ExcelInsights)
    (out : list string) :
  exists (res : result (gmap string date_info)) (self' : ExcelInsights)
         (out' : list string),
    analyze_date_columns sheet_name self out = (res, self', out')
    /\ match select_data self sheet_name with
       | Some d => calendar_succeeds d <-> exists r, res = Ok r
       | None => res = Ok ∅
       end
    /\ forall r k info,
         res = Ok r ->
         r !! k = Some info ->
         exists d col date_col,
           select_data self sheet_name = Some d
           /\ col ∈ d /\ name col = k
           /\ date_column col = Some date_col
           /\ date_record date_col = Ok info
           /\ dt_missing_values info + count_notnull date_col = length date_col
           /\ (is_Some (distributions info) <-> 10 < count_notnull date_col)
           /\ (count_notnull date_col = 0 ->
                 min_date info = None /\ max_date info = None
                 /\ range_days info = None)
           /\ (0 < count_notnull date_col ->
                 exists (lo hi : Z) (first last : string) (days : Z),
                   Some lo ∈ date_col /\ Some hi ∈ date_col
                   /\ (forall x, Some x ∈ date_col -> (lo <= x <= hi)%Z)
                   /\ strftime_ymd lo = Ok first
                   /\ strftime_ymd hi = Ok last
                   /\ days_between lo hi = Ok days
                   /\ min_date info = Some first
                   /\ max_date info = Some last
                   /\ range_days info = Some days).
Proof.
  rewrite analyze_date_columns_run.
  destruct (select_data self sheet_name) as [d|];
    [|eexists _, _, _; split; [done|]; split; [done|];
      intros r k info [= <-] Hk; by rewrite lookup_empty in Hk].
  assert (calendar_succeeds d <-> exists r, date_records d ∅ = Ok r) as Hiff.
  { split.
    - intros Hok. rewrite date_records_ok by done. by eexists.
    - intros [r Hr]. by eapply date_records_returns. }
  destruct (date_records d ∅) as [m|e] eqn:Hrun; eexists _, _, _;
    (split; [done|]); (split; [done|]); [|done].
  intros r k info [= <-].
  pose proof (date_records_returns _ _ _ Hrun) as Hok.
  rewrite date_records_ok in Hrun by done. injection Hrun as <-.
  intros [Hempty | (col & Hin & Hname & Hentry)]%keyed_loop_sound.
  { by rewrite lookup_empty in Hempty. }
  unfold date_entry in Hentry.
  destruct (date_column col) as [date_col|] eqn:Hcol; [|done].
  destruct (date_record date_col) as [info'|e] eqn:Hrec; [|done].
  injection Hentry as ->.
  destruct (date_record_Ok _ _ Hrec) as (Hmiss & Hdist & Hmin & Hmax & Hrange).
  exists d, col, date_col. split_and!; try done.
  - rewrite Hmiss. apply count_split.
  - revert Hmin Hmax Hrange.
    unfold pd.date_min, pd.date_max, count_notnull.
    destruct (omap id date_col); [|simpl; lia]. simpl.
    by intros [= <-] [= <-] [= <-].
  - revert Hmin Hmax Hrange.
    unfold pd.date_min, pd.date_max, count_notnull.
    destruct (omap id date_col) as [|x rest] eqn:Hdates; [simpl; lia|].
    intros Hmin Hmax Hrange _. simpl in Hmin, Hmax.
    destruct (foldl_min_spec x rest) as [Hlo Hlo_le].
    destruct (foldl_max_spec x rest) as [Hhi Hhi_le].
    rewrite <- Hdates in Hlo, Hhi, Hlo_le, Hhi_le.
    destruct (strftime_ymd (foldl Z.min x rest)) as [first|] eqn:Hfirst; [|done].
    destruct (strftime_ymd (foldl Z.max x rest)) as [last|] eqn:Hlast; [|done].
    destruct (days_between (foldl Z.min x rest) (foldl Z.max x rest))
      as [days|] eqn:Hdays; [|done].
    simpl in Hmin, Hmax, Hrange.
    injection Hmin as Hmin. injection Hmax as Hmax. injection Hrange as Hrange.
    exists (foldl Z.min x rest), (foldl Z.max x rest), first, last, days.
    split_and!; try done.
    + by apply elem_of_omap_id.
    + by apply elem_of_omap_id.
    + intros y Hy%elem_of_omap_id. split; [by apply Hlo_le | by apply Hhi_le].
Qed.

(** X10. A column of a datetime type is never skipped by the temporal pass,
    whatever the share of its entries that are missing: the 70% test is for
    the other columns only.  On a table with pairwise distinct labels the
    pass returns exactly when the calendar raises on none of the date
    columns, and the dictionary it returns then holds the record of the
    column; when the calendar raises, the engine is left as it was. *)
Theorem X10_datetime_column_always_reported (sheet_name : option string)
    (self : ExcelInsights) (d : DataFrame) (col : Series) (out : list string) :
  select_data self sheet_name = Some d ->
  NoDup (name <$> d) ->
  col ∈ d ->
  pd.is_datetime64_any_dtype col = true ->
  exists (res : result (gmap string date_info)) (self' : ExcelInsights),
    analyze_date_columns sheet_name self out = (res, self', out)
    /\ date_column col = Some (pd.as_datetime <$> values col)
    /\ (calendar_succeeds d <-> exists r, res = Ok r)
    /\ match res with
       | Ok r =>
           exists info,
             date_record (pd.as_datetime <$> values col) = Ok info
             /\ r !! name col = Some info
       | Raise _ => self' = self
       end.
Proof.
  intros Hsel Hnd Hin Hdt.
  rewrite analyze_date_columns_run, Hsel.
  assert (date_column col = Some (pd.as_datetime <$> values col)) as Hcol.
  { unfold date_column. by rewrite Hdt. }
  assert (calendar_succeeds d <-> exists r, date_records d ∅ = Ok r) as Hiff.
  { split.
    - intros Hok. rewrite date_records_ok by done. by eexists.
    - intros [r Hr]. by eapply date_records_returns. }
  destruct (date_records d ∅) as [m|e] eqn:Hrun; eexists _, _;
    (split; [done|]); (split; [done|]); (split; [done|]); [|done].
  pose proof (date_records_returns _ _ _ Hrun) as Hok.
  destruct (Hok col _ Hin Hcol) as [info Hinfo].
  exists info. split; [done|].
  rewrite (date_records_lookup d m col) by done.
  unfold date_entry. by rewrite Hcol, Hinfo.
Qed.

End DateRecords.

Lemma X10_witness :
  select_data (engine_with [sparse_dates]) None = Some [sparse_dates]
  /\ NoDup (name <$> [sparse_dates])
  /\ sparse_dates ∈ [sparse_dates]
  /\ pd.is_datetime64_any_dtype sparse_dates = true
  /\ exists (res : result (gmap string date_info)) (self' : ExcelInsights),
      @analyze_date_columns Iso.calendar None (engine_with [sparse_dates]) []
        = (res, self', [])
      /\ @date_column Iso.calendar sparse_dates
         = Some (pd.as_datetime <$> values sparse_dates)
      /\ (@calendar_succeeds Iso.calendar [sparse_dates] <-> exists r, res = Ok r)
      /\ match res with
         | Ok r =>
             exists info,
               @date_record Iso.calendar (pd.as_datetime <$> values sparse_dates)
                 = Ok info
               /\ r !! name sparse_dates = Some info
         | Raise _ => self' = engine_with [sparse_dates]
         end.
Proof.
  assert (select_data (engine_with [sparse_dates]) None = Some [sparse_dates])
    as H1 by reflexivity.
  assert (NoDup (name <$> [sparse_dates])) as H2.
  { apply (bool_decide_unpack _). vm_compute. exact I. }
  assert (sparse_dates ∈ [sparse_dates]) as H3 by left.
  assert (pd.is_datetime64_any_dtype sparse_dates = true) as H4 by reflexivity.
  split_and!; [done..|].
  exact (@X10_datetime_column_always_reported Iso.calendar None
           (engine_with [sparse_dates]) [sparse_dates] sparse_dates [] H1 H2 H3 H4).
Defined.

(** ** The record of the summary pass *)

(** X11. When the summary pass returns a record, the table has numeric
    columns: the record lists their labels in column order, its statistics
    have an entry for exactly those labels, and on a table with pairwise
    distinct labels the entry of a column holds the figures of that column,
    whose count is the number of its non-null values. *)
Theorem X11_summary_record (sheet_name : option string) (self : ExcelInsights)
    (out : list string) :
  exists (r : option summary) (self' : ExcelInsights) (out' : list string),
    generate_summary_statistics sheet_name self out = (Ok r, self', out')
    /\ forall s,
         r = Some s ->
         exists d,
           select_data self sheet_name = Some d
           /\ numerical_columns s = name <$> pd.select_dtypes_number d
           /\ numerical_columns s ≠ []
           /\ (forall k, is_Some (statistics s !! k) <-> k ∈ numerical_columns s)
           /\ (NoDup (name <$> d) ->
               forall col, col ∈ pd.select_dtypes_number d ->
                 statistics s !! name col = Some (pd.describe col)
                 /\ pd.d_count (pd.describe col) = F64.of_nat (length (pd.dropna col))).
Proof.
  rewrite generate_summary_statistics_run.
  destruct (select_data self sheet_name) as [d|];
    [|eexists _, _, _; split; [done|]; by intros s].
  destruct (pd.select_dtypes_number d) as [|c cols] eqn:Hcols;
    [eexists _, _, _; split; [done|]; by intros s|].
  eexists _, _, _. split; [done|]. intros s [= <-].
  exists d. rewrite Hcols. unfold summary_of. cbn [numerical_columns statistics].
  set (l := (fun c => (name c, pd.describe c)) <$> c :: cols).
  assert (l.*1 = name <$> c :: cols) as Hkeys.
  { unfold l. rewrite <- list_fmap_compose.
    by apply list_fmap_ext. }
  split_and!; try done.
  - intros k. rewrite <- Hkeys. split.
    + intros Hk. destruct (decide (k ∈ l.*1)) as [|Hnot]; [done|].
      apply (not_elem_of_list_to_map_1 (M := gmap string)) in Hnot.
      rewrite Hnot in Hk. by destruct Hk.
    + intros Hk. apply not_eq_None_Some. intros Hnone.
      by apply (not_elem_of_list_to_map_2 (M := gmap string)) in Hnone.
  - intros Hnd col Hin. split; [|done].
    apply elem_of_list_to_map_1.
    + rewrite Hkeys, <- Hcols. by apply NoDup_fmap_filter.
    + unfold l. by apply (list_elem_of_fmap_2 (fun c => (name c, pd.describe c))).
Qed.

(** * Loading a workbook *)

Lemma set_file_path_id (self : ExcelInsights) :
  set_file_path self (file_path self) = self.
Proof. by destruct self. Qed.

Lemma set_sheet_id (self : ExcelInsights) (sheet : string) (df : DataFrame) :
  sheets self !! sheet = Some df -> set_sheet self sheet df = self.
Proof.
  destruct self as [fp d sh ins]. unfold set_sheet. simpl. intros Hl.
  by rewrite insert_id.
Qed.

Lemma set_data_id (self : ExcelInsights) (df : DataFrame) :
  data self = Some df -> set_data self df = self.
Proof. destruct self as [fp d sh ins]. unfold set_data. simpl. by intros ->. Qed.

Section LoadingProperties.

Context `{ExcelReader}.

(** The loop touches the sheets only, and only adds or overwrites. *)
Lemma read_sheets_frame (p : string) (sheet_names : list string)
    (self : ExcelInsights) :
  forall o self', read_sheets p sheet_names self = (o, self') ->
    file_path self' = file_path self /\ data self' = data self
    /\ insights self' = insights self
    /\ forall sheet, is_Some (sheets self !! sheet) -> is_Some (sheets self' !! sheet).
Proof.
  revert self. induction sheet_names as [|s rest IH]; intros self o self'; simpl.
  - by intros [= <- <-].
  - destruct (read_excel p s) as [df|e]; [|by intros [= <- <-]].
    intros Hr. apply IH in Hr as (Hfp & Hd & Hi & Hs). split_and!; try done.
    intros sheet Hsome. apply Hs. simpl.
    destruct (decide (s = sheet)) as [->|Hne].
    + by rewrite lookup_insert_eq.
    + by rewrite lookup_insert_ne.
Qed.

(** A sheet that holds what the reader gives for it still does after the
    loop. *)
Lemma read_sheets_keeps (p : string) (sheet_names : list string)
    (self : ExcelInsights) (sheet : string) (df : DataFrame) :
  forall o self', read_sheets p sheet_names self = (o, self') ->
    read_excel p sheet = Returned df ->
    sheets self !! sheet = Some df -> sheets self' !! sheet = Some df.
Proof.
  revert self. induction sheet_names as [|s rest IH]; intros self o self'; simpl.
  - by intros [= <- <-].
  - destruct (read_excel p s) as [df'|e] eqn:Hs; [|by intros [= <- <-]].
    intros Hr Hread Hl. apply (IH _ _ _ Hr Hread). simpl.
    destruct (decide (s = sheet)) as [->|Hne].
    + rewrite lookup_insert_eq. congruence.
    + by rewrite lookup_insert_ne.
Qed.

(** A sheet the loop does not come to keeps its table. *)
Lemma read_sheets_other (p : string) (sheet_names : list string)
    (self : ExcelInsights) (sheet : string) :
  forall o self', read_sheets p sheet_names self = (o, self') ->
    sheet ∉ sheet_names -> sheets self' !! sheet = sheets self !! sheet.
Proof.
  revert self. induction sheet_names as [|s rest IH]; intros self o self'; simpl.
  - by intros [= <- <-].
  - intros Hr Hnot. apply not_elem_of_cons in Hnot as [Hne Hnot].
    destruct (read_excel p s) as [df'|e]; [|by injection Hr as <- <-].
    rewrite (IH _ _ _ Hr Hnot). simpl. by rewrite lookup_insert_ne.
Qed.

(** The loop over sheets that can all be read. *)
Lemma read_sheets_all (p : string) (tables : string -> DataFrame)
    (sheet_names : list string) (self : ExcelInsights) :
  (forall sheet, sheet ∈ sheet_names -> read_excel p sheet = Returned (tables sheet)) ->
  exists self', read_sheets p sheet_names self = (Returned tt, self')
    /\ forall sheet, sheet ∈ sheet_names -> sheets self' !! sheet = Some (tables sheet).
Proof.
  revert self. induction sheet_names as [|s rest IH]; intros self Hall; simpl.
  - eexists. split; [done|]. by intros sheet ?%elem_of_nil.
  - rewrite (Hall s) by left.
    destruct (IH (set_sheet self s (tables s))) as (self' & Hr & Hl).
    { intros sheet Hin. apply Hall. by right. }
    exists self'. split; [done|]. intros sheet [->|Hin]%elem_of_cons; [|by apply Hl].
    eapply read_sheets_keeps; [exact Hr|by apply Hall; left|].
    simpl. by rewrite lookup_insert_eq.
Qed.

(** The loop that meets a sheet it cannot read. *)
Lemma read_sheets_failing (p : string) (tables : string -> DataFrame)
    (before : list string) (bad : string) (after : list string) (e : string)
    (self : ExcelInsights) :
  (forall sheet, sheet ∈ before -> read_excel p sheet = Returned (tables sheet)) ->
  read_excel p bad = Raised e ->
  exists self', read_sheets p (before ++ bad :: after) self = (Raised e, self')
    /\ (forall sheet, sheet ∈ before -> sheets self' !! sheet = Some (tables sheet))
    /\ (forall sheet, sheet ∉ before -> sheets self' !! sheet = sheets self !! sheet).
Proof.
  revert self. induction before as [|s rest IH]; intros self Hall Hbad; simpl.
  - rewrite Hbad. eexists. split; [done|]. split; [|done].
    by intros sheet ?%elem_of_nil.
  - rewrite (Hall s) by left.
    destruct (IH (set_sheet self s (tables s))) as (self' & Hr & Hl & Ho); [|done|].
    { intros sheet Hin. apply Hall. by right. }
    exists self'. split; [done|]. split.
    + intros sheet [->|Hin]%elem_of_cons; [|by apply Hl].
      eapply read_sheets_keeps; [exact Hr|by apply Hall; left|].
      simpl. by rewrite lookup_insert_eq.
    + intros sheet [Hne Hnot]%not_elem_of_cons. rewrite (Ho _ Hnot). simpl.
      by rewrite lookup_insert_ne.
Qed.

(** Reading again into an engine that holds what was read changes
    nothing. *)
Lemma read_sheets_again (p : string) (sheet_names : list string)
    (self : ExcelInsights) :
  forall o self1, read_sheets p sheet_names self = (o, self1) ->
    forall self2, sheets self1 ⊆ sheets self2 ->
      read_sheets p sheet_names self2 = (o, self2).
Proof.
  revert self. induction sheet_names as [|s rest IH]; intros self o self1; simpl.
  - by intros [= <- <-].
  - destruct (read_excel p s) as [df|e] eqn:Hs; [|by intros [= <- <-]].
    intros Hr self2 Hsub.
    assert (sheets self1 !! s = Some df) as Hl.
    { eapply read_sheets_keeps; [exact Hr|done|]. simpl. by rewrite lookup_insert_eq. }
    rewrite set_sheet_id; [by eapply IH|].
    by eapply lookup_weaken.
Qed.

(** The first sheet is in [self.sheets] when the loop has returned. *)
Lemma read_sheets_first (p : string) (first : string) (rest : list string)
    (self self' : ExcelInsights) :
  read_sheets p (first :: rest) self = (Returned tt, self') ->
  exists df, read_excel p first = Returned df /\ sheets self' !! first = Some df.
Proof.
  simpl. destruct (read_excel p first) as [df|e] eqn:Hs; [|done].
  intros Hr. exists df. split; [done|].
  eapply read_sheets_keeps; [exact Hr|done|]. simpl. by rewrite lookup_insert_eq.
Qed.

(** What [load_sheets] leaves, in terms of the loop. *)
Lemma load_sheets_frame (p : string) (self : ExcelInsights) (out : list string) :
  forall o self' out', load_sheets p self out = (o, self', out') ->
    file_path self' = file_path self /\ insights self' = insights self
    /\ (forall sheet, is_Some (sheets self !! sheet) -> is_Some (sheets self' !! sheet))
    /\ match o with
       | Returned _ => exists line, out' = out ++ [line]
       | Raised _ => out' = out /\ data self' = data self
       end.
Proof.
  intros o self' out'. unfold load_sheets.
  destruct (sheet_names_of p) as [sheet_names|e]; [|by intros [= <- <- <-]].
  destruct (read_sheets p sheet_names self) as [[[]|e] self1] eqn:Hr.
  - pose proof (read_sheets_frame _ _ _ _ _ Hr) as (Hfp & Hd & Hi & Hs).
    destruct sheet_names as [|first rest].
    + intros [= <- <- <-]. split_and!; eauto.
    + destruct (read_sheets_first _ _ _ _ _ Hr) as (df & _ & ->).
      intros [= <- <- <-]. simpl. split_and!; eauto.
  - pose proof (read_sheets_frame _ _ _ _ _ Hr) as (Hfp & Hd & Hi & Hs).
    by intros [= <- <- <-].
Qed.

(** [load_excel] returns, with one more line printed and the path it
    worked on as the path of the engine. *)
Lemma load_excel_returns (path : option string) (self : ExcelInsights)
    (out : list string) :
  exists (b : bool) (self' : ExcelInsights) (line : string),
    load_excel path self out = (Ok b, self', out ++ [line])
    /\ file_path self' = (if truthy path then path else file_path self).
Proof.
  unfold load_excel. cbv zeta.
  set (self0 := if truthy path then set_file_path self path else self).
  assert (file_path self0 = (if truthy path then path else file_path self)) as Hfp0.
  { unfold self0. by destruct (truthy path). }
  destruct (truthy (file_path self0)); simpl; [|by eauto].
  destruct (load_sheets (default "" (file_path self0)) self0 out)
    as [[[[]|e] self1] out1] eqn:Hl;
    apply load_sheets_frame in Hl as (Hfp & _ & _ & Ho).
  - destruct Ho as [line ->]. exists true, self1, line. split; [done|congruence].
  - destruct Ho as [-> _]. exists false, self1, (error_loading e).
    split; [done|congruence].
Qed.

(** X12. [load_excel] never raises and prints exactly one line.  The path
    of the engine becomes the one given, unless that is missing or empty;
    the insights are untouched and no sheet loaded earlier is removed; when
    it returns [False] the default table is the one from before; and with
    no path at all, it changes nothing and reports the missing path,
    whatever the reader. *)
Theorem X12_load_excel_never_raises (path : option string) (self : ExcelInsights)
    (out : list string) :
  exists (b : bool) (self' : ExcelInsights) (line : string),
    load_excel path self out = (Ok b, self', out ++ [line])
    /\ file_path self' = (if truthy path then path else file_path self)
    /\ insights self' = insights self
    /\ (forall sheet, is_Some (sheets self !! sheet) -> is_Some (sheets self' !! sheet))
    /\ (b = false -> data self' = data self)
    /\ (b = true -> truthy (file_path self') = true)
    /\ (truthy path = false -> truthy (file_path self) = false ->
        b = false /\ self' = self /\ line = no_file_path).
Proof.
  unfold load_excel. cbv zeta.
  set (self0 := if truthy path then set_file_path self path else self).
  assert (file_path self0 = (if truthy path then path else file_path self)
          /\ insights self0 = insights self /\ sheets self0 = sheets self
          /\ data self0 = data self) as (Hfp0 & Hi0 & Hs0 & Hd0).
  { unfold self0. by destruct (truthy path). }
  destruct (truthy (file_path self0)) eqn:Hp; simpl.
  - destruct (load_sheets (default "" (file_path self0)) self0 out)
      as [[[[]|e] self1] out1] eqn:Hl;
      apply load_sheets_frame in Hl as (Hfp & Hi & Hs & Ho).
    + destruct Ho as [line ->]. exists true, self1, line.
      split_and!; try done; try congruence.
      * intros sheet. rewrite <- Hs0. apply Hs.
      * intros Hf Hf'. revert Hp. by rewrite Hfp0, Hf, Hf'.
    + destruct Ho as [-> Hd]. exists false, self1, (error_loading e).
      split_and!; try done; try congruence.
      * intros sheet. rewrite <- Hs0. apply Hs.
      * intros Hf Hf'. revert Hp. by rewrite Hfp0, Hf, Hf'.
  - exists false, self0, no_file_path. split_and!; try done.
    + intros sheet. by rewrite Hs0.
    + intros Hf _. unfold self0. by rewrite Hf.
Qed.

(** The body of [try] on a workbook whose sheets can all be read. *)
Lemma load_sheets_all (file : string) (sheet_names : list string)
    (tables : string -> DataFrame) (self : ExcelInsights) (out : list string) :
  sheet_names_of file = Returned sheet_names ->
  (forall sheet, sheet ∈ sheet_names -> read_excel file sheet = Returned (tables sheet)) ->
  exists self' : ExcelInsights,
    load_sheets file self out
      = (Returned tt, self', out ++ [loaded_message sheet_names file])
    /\ file_path self' = file_path self
    /\ (forall sheet, sheet ∈ sheet_names -> sheets self' !! sheet = Some (tables sheet))
    /\ (forall sheet, sheet ∉ sheet_names -> sheets self' !! sheet = sheets self !! sheet)
    /\ data self' = match sheet_names with
                    | [] => data self
                    | first :: _ => Some (tables first)
                    end.
Proof.
  intros Hnames Hall. unfold load_sheets. rewrite Hnames.
  destruct (read_sheets_all file tables sheet_names self Hall) as (self1 & Hr & Hl).
  rewrite Hr.
  pose proof (read_sheets_frame _ _ _ _ _ Hr) as (Hfp & Hd & Hi & Hs).
  assert (forall sheet, sheet ∉ sheet_names -> sheets self1 !! sheet = sheets self !! sheet)
    as Ho.
  { intros sheet Hnot. by eapply read_sheets_other. }
  destruct sheet_names as [|first rest].
  - exists self1. by split_and!.
  - rewrite (Hl first) by left. exists (set_data self1 (tables first)).
    by split_and!.
Qed.

(** X13. When the workbook opens and each of its sheets can be read,
    [load_excel] returns [True] and reports the number of sheets and the
    base name of the file; every sheet of the workbook is stored under its
    name with the table read for it, the sheets of other names are as
    before, and the default table is the one of the first sheet (the one
    from before for a workbook without sheets). *)
Theorem X13_load_excel_loads_every_sheet (path : option string) (file : string)
    (sheet_names : list string) (tables : string -> DataFrame)
    (self : ExcelInsights) (out : list string) :
  (if truthy path then path else file_path self) = Some file ->
  file ≠ "" ->
  sheet_names_of file = Returned sheet_names ->
  (forall sheet, sheet ∈ sheet_names -> read_excel file sheet = Returned (tables sheet)) ->
  exists self' : ExcelInsights,
    load_excel path self out
      = (Ok true, self', out ++ [loaded_message sheet_names file])
    /\ file_path self' = Some file
    /\ (forall sheet, sheet ∈ sheet_names -> sheets self' !! sheet = Some (tables sheet))
    /\ (forall sheet, sheet ∉ sheet_names -> sheets self' !! sheet = sheets self !! sheet)
    /\ data self' = match sheet_names with
                    | [] => data self
                    | first :: _ => Some (tables first)
                    end.
Proof.
  intros Hfile Hne Hnames Hall. unfold load_excel. cbv zeta.
  set (self0 := if truthy path then set_file_path self path else self).
  assert (file_path self0 = Some file /\ sheets self0 = sheets self
          /\ data self0 = data self) as (Hfp0 & Hs0 & Hd0).
  { unfold self0. revert Hfile. by destruct (truthy path). }
  rewrite Hfp0. simpl. rewrite bool_decide_eq_true_2 by done. simpl.
  destruct (load_sheets_all file sheet_names tables self0 out Hnames Hall)
    as (self1 & -> & Hfp & Hl & Ho & Hd).
  exists self1. split_and!; try done.
  - congruence.
  - intros sheet Hnot. rewrite <- Hs0. by apply Ho.
  - rewrite Hd. by destruct sheet_names.
Qed.

(** The body of [try] on a workbook with a sheet that cannot be read. *)
Lemma load_sheets_failing (file : string) (before : list string) (bad : string)
    (after : list string) (e : string) (tables : string -> DataFrame)
    (self : ExcelInsights) (out : list string) :
  sheet_names_of file = Returned (before ++ bad :: after) ->
  (forall sheet, sheet ∈ before -> read_excel file sheet = Returned (tables sheet)) ->
  read_excel file bad = Raised e ->
  exists self' : ExcelInsights,
    load_sheets file self out = (Raised e, self', out)
    /\ file_path self' = file_path self
    /\ data self' = data self
    /\ (forall sheet, sheet ∈ before -> sheets self' !! sheet = Some (tables sheet))
    /\ (forall sheet, sheet ∉ before -> sheets self' !! sheet = sheets self !! sheet).
Proof.
  intros Hnames Hall Hbad. unfold load_sheets. rewrite Hnames.
  destruct (read_sheets_failing file tables before bad after e self Hall Hbad)
    as (self1 & Hr & Hl & Ho).
  rewrite Hr.
  pose proof (read_sheets_frame _ _ _ _ _ Hr) as (Hfp & Hd & Hi & Hs).
  exists self1. by split_and!.
Qed.

(** X14. Loading is not atomic.  When a sheet of the workbook cannot be
    read, [load_excel] returns [False] and prints the message of the
    exception; the default table is the one from before, but the path of
    the engine is already the new one and the sheets that come before the
    unreadable one are stored with the tables read for them; the other
    sheets are as before. *)
Theorem X14_load_excel_is_not_atomic (path : option string) (file : string)
    (before : list string) (bad : string) (after : list string) (e : string)
    (tables : string -> DataFrame) (self : ExcelInsights) (out : list string) :
  (if truthy path then path else file_path self) = Some file ->
  file ≠ "" ->
  sheet_names_of file = Returned (before ++ bad :: after) ->
  (forall sheet, sheet ∈ before -> read_excel file sheet = Returned (tables sheet)) ->
  read_excel file bad = Raised e ->
  exists self' : ExcelInsights,
    load_excel path self out = (Ok false, self', out ++ [error_loading e])
    /\ file_path self' = Some file
    /\ data self' = data self
    /\ (forall sheet, sheet ∈ before -> sheets self' !! sheet = Some (tables sheet))
    /\ (forall sheet, sheet ∉ before -> sheets self' !! sheet = sheets self !! sheet).
Proof.
  intros Hfile Hne Hnames Hall Hbad. unfold load_excel. cbv zeta.
  set (self0 := if truthy path then set_file_path self path else self).
  assert (file_path self0 = Some file /\ sheets self0 = sheets self
          /\ data self0 = data self) as (Hfp0 & Hs0 & Hd0).
  { unfold self0. revert Hfile. by destruct (truthy path). }
  rewrite Hfp0. simpl. rewrite bool_decide_eq_true_2 by done. simpl.
  destruct (load_sheets_failing file before bad after e tables self0 out
              Hnames Hall Hbad) as (self1 & -> & Hfp & Hd & Hl & Ho).
  exists self1. split_and!; try done; try congruence.
  intros sheet Hnot. rewrite <- Hs0. by apply Ho.
Qed.

(** X15. Loading the same file again changes nothing: the second call
    returns what the first returned, prints the same line and leaves the
    engine as the first call left it, also when the first call failed half
    way; so does a call without a path, which uses the path kept from the
    first call. *)
Theorem X15_load_excel_again (path : option string) (self : ExcelInsights)
    (out : list string) :
  exists (b : bool) (self' : ExcelInsights) (line : string),
    load_excel path self out = (Ok b, self', out ++ [line])
    /\ (forall out2, load_excel path self' out2 = (Ok b, self', out2 ++ [line]))
    /\ (forall out2, load_excel None self' out2 = (Ok b, self', out2 ++ [line])).
Proof.
  assert (forall self1 out1 b self' line,
            load_excel None self1 out1 = (Ok b, self', out1 ++ [line]) ->
            forall out2, load_excel None self' out2 = (Ok b, self', out2 ++ [line]))
    as Hnone.
  { intros self1 out1 b self' line. unfold load_excel. cbv zeta. simpl.
    destruct (truthy (file_path self1)) eqn:Hp; simpl.
    - unfold load_sheets.
      destruct (sheet_names_of (default "" (file_path self1))) as [sheet_names|e] eqn:Hn.
      + destruct (read_sheets (default "" (file_path self1)) sheet_names self1)
          as [[[]|e] self2] eqn:Hr.
        * pose proof (read_sheets_frame _ _ _ _ _ Hr) as (Hfp & Hd & Hi & Hs).
          destruct sheet_names as [|first rest].
          -- intros [= <- <- Hline%app_inv_head] out2.
             injection Hline as <-. rewrite Hfp, Hp. simpl. rewrite Hn.
             by rewrite (read_sheets_again _ _ _ _ _ Hr self2).
          -- destruct (read_sheets_first _ _ _ _ _ Hr) as (df & _ & Hdf).
             rewrite Hdf. intros [= <- <- Hline%app_inv_head] out2.
             injection Hline as <-. simpl. rewrite Hfp, Hp. simpl. rewrite Hn.
             rewrite (read_sheets_again _ _ _ _ _ Hr (set_data self2 df)) by done.
             simpl. rewrite Hdf. by rewrite set_data_id.
        * pose proof (read_sheets_frame _ _ _ _ _ Hr) as (Hfp & Hd & Hi & Hs).
          intros [= <- <- Hline%app_inv_head] out2.
          injection Hline as <-. rewrite Hfp, Hp. simpl. rewrite Hn.
          by rewrite (read_sheets_again _ _ _ _ _ Hr self2).
      + intros [= <- <- Hline%app_inv_head] out2.
        injection Hline as <-. rewrite Hp. simpl. by rewrite Hn.
    - intros [= <- <- Hline%app_inv_head] out2.
      injection Hline as <-. by rewrite Hp. }
  destruct (load_excel_returns path self out) as (b & self' & line & Hrun & Hfp).
  exists b, self', line. split; [done|].
  assert (load_excel path self out
          = load_excel None (if truthy path then set_file_path self path else self) out)
    as Hpre.
  { unfold load_excel. by destruct (truthy path). }
  assert (forall out2, load_excel None self' out2 = (Ok b, self', out2 ++ [line])) as H2.
  { eapply Hnone. by rewrite <- Hpre. }
  split; [|done]. intros out2. rewrite <- H2.
  unfold load_excel. cbv zeta. destruct (truthy path) eqn:Ht; simpl; [|done].
  by rewrite <- Hfp, set_file_path_id.
Qed.

End LoadingProperties.

Lemma X13_witness :
  (if truthy (Some "reports/q1.xlsx") then Some "reports/q1.xlsx"
   else file_path (init None)) = Some "reports/q1.xlsx"
  /\ "reports/q1.xlsx" ≠ ""
  /\ @sheet_names_of (memory_reader shelf) "reports/q1.xlsx" = Returned ["Sales"; "Notes"]
  /\ (forall sheet, sheet ∈ ["Sales"; "Notes"] ->
        @read_excel (memory_reader shelf) "reports/q1.xlsx" sheet
        = Returned (if bool_decide (sheet = "Sales") then three_measures
                    else mixed_labels))
  /\ exists self' : ExcelInsights,
      @load_excel (memory_reader shelf) (Some "reports/q1.xlsx") (init None) []
        = (Ok true, self',
           [] ++ [loaded_message ["Sales"; "Notes"] "reports/q1.xlsx"])
      /\ file_path self' = Some "reports/q1.xlsx"
      /\ (forall sheet, sheet ∈ ["Sales"; "Notes"] ->
            sheets self' !! sheet
            = Some (if bool_decide (sheet = "Sales") then three_measures
                    else mixed_labels))
      /\ (forall sheet, sheet ∉ ["Sales"; "Notes"] ->
            sheets self' !! sheet = sheets (init None) !! sheet)
      /\ data self' = Some (if bool_decide ("Sales" = "Sales") then three_measures
                            else mixed_labels).
Proof.
  assert ((if truthy (Some "reports/q1.xlsx") then Some "reports/q1.xlsx"
           else file_path (init None)) = Some "reports/q1.xlsx") as H1 by reflexivity.
  assert ("reports/q1.xlsx" ≠ "") as H2 by done.
  assert (@sheet_names_of (memory_reader shelf) "reports/q1.xlsx"
          = Returned ["Sales"; "Notes"]) as H3 by reflexivity.
  assert (forall sheet, sheet ∈ ["Sales"; "Notes"] ->
            @read_excel (memory_reader shelf) "reports/q1.xlsx" sheet
            = Returned (if bool_decide (sheet = "Sales") then three_measures
                        else mixed_labels)) as H4.
  { intros sheet Hin. repeat (apply elem_of_cons in Hin as [->|Hin]; [reflexivity|]).
    by apply elem_of_nil in Hin. }
  split_and!; [done..|].
  exact (@X13_load_excel_loads_every_sheet (memory_reader shelf)
           (Some "reports/q1.xlsx") "reports/q1.xlsx" ["Sales"; "Notes"]
           (fun sheet => if bool_decide (sheet = "Sales") then three_measures
                         else mixed_labels)
           (init None) [] H1 H2 H3 H4).
Defined.

Lemma X14_witness :
  (if truthy (Some "book.xlsx") then Some "book.xlsx" else file_path (init None))
  = Some "book.xlsx"
  /\ "book.xlsx" ≠ ""
  /\ @sheet_names_of damaged_reader "book.xlsx"
     = Returned (["Sales"] ++ "Totals" :: ["Notes"])
  /\ (forall sheet, sheet ∈ ["Sales"] ->
        @read_excel damaged_reader "book.xlsx" sheet = Returned three_measures)
  /\ @read_excel damaged_reader "book.xlsx" "Totals" = Raised "File is not a zip file"
  /\ exists self' : ExcelInsights,
      @load_excel damaged_reader (Some "book.xlsx") (init None) []
        = (Ok false, self', [] ++ [error_loading "File is not a zip file"])
      /\ file_path self' = Some "book.xlsx"
      /\ data self' = data (init None)
      /\ (forall sheet, sheet ∈ ["Sales"] -> sheets self' !! sheet = Some three_measures)
      /\ (forall sheet, sheet ∉ ["Sales"] ->
            sheets self' !! sheet = sheets (init None) !! sheet).
Proof.
  assert ((if truthy (Some "book.xlsx") then Some "book.xlsx"
           else file_path (init None)) = Some "book.xlsx") as H1 by reflexivity.
  assert ("book.xlsx" ≠ "") as H2 by done.
  assert (@sheet_names_of damaged_reader "book.xlsx"
          = Returned (["Sales"] ++ "Totals" :: ["Notes"])) as H3 by reflexivity.
  assert (forall sheet, sheet ∈ ["Sales"] ->
            @read_excel damaged_reader "book.xlsx" sheet = Returned three_measures) as H4.
  { intros sheet Hin. repeat (apply elem_of_cons in Hin as [->|Hin]; [reflexivity|]).
    by apply elem_of_nil in Hin. }
  assert (@read_excel damaged_reader "book.xlsx" "Totals"
          = Raised "File is not a zip file") as H5 by reflexivity.
  split_and!; [done..|].
  exact (@X14_load_excel_is_not_atomic damaged_reader (Some "book.xlsx") "book.xlsx"
           ["Sales"] "Totals" ["Notes"] "File is not a zip file"
           (fun _ => three_measures) (init None) [] H1 H2 H3 H4 H5).
Defined.

(** ** Loading, then analysing *)

Section LoadThenPass.

Context `{ExcelReader} `{Calendar}.

(** A pass returns on a table unless it is the temporal pass and the
    calendar raises on one of the date columns. *)
Lemma pass_result_returns (p : pass) (d : DataFrame) :
  (exists r, pass_result p d = Ok r) <-> p ≠ Dates \/ calendar_succeeds d.
Proof.
  split.
  - intros Hret. destruct p; try (by left). right. by apply dates_result_ok.
  - intros [Hp|Hok].
    + destruct (pass_result p d) as [r|e] eqn:Hres; [by eexists|].
      by apply pass_result_raises in Hres.
    + destruct (pass_result p d) as [r|e] eqn:Hres; [by eexists|].
      pose proof (pass_result_raises _ _ _ Hres) as ->.
      apply dates_result_ok in Hok as [r Hr]. congruence.
Qed.

(** A pass on a selected table ends and prints as it does on an engine that
    holds that table alone: with the same result, or with the same
    exception. *)
Lemma run_pass_on_table (p : pass) (sheet_name : option string)
    (self : ExcelInsights) (d : DataFrame) (out : list string) :
  select_data self sheet_name = Some d ->
  exists (res : result record) (msgs : list string) (self1 self2 : ExcelInsights),
    run_pass p sheet_name self out = (res, self1, out ++ msgs)
    /\ run_pass p None (engine_with d) [] = (res, self2, msgs)
    /\ ((exists r, res = Ok r) <-> p ≠ Dates \/ calendar_succeeds d).
Proof.
  intros Hsel. rewrite !run_pass_run, Hsel.
  change (select_data (engine_with d) None) with (Some d). cbv beta iota.
  pose proof (pass_result_returns p d) as Hret.
  destruct (pass_result p d) as [r|e].
  - eexists _, _, _, _. split_and!; [reflexivity..|done].
  - exists (Raise e), [], self, (engine_with d). by rewrite app_nil_r.
Qed.

(** X16. After a successful load, a pass that is given the name of a sheet
    of the workbook ends and prints as it does on that sheet's table alone,
    and a pass that is given no name as it does on the table of the first
    sheet of the workbook: with the same result or, for the temporal pass
    on a table with a date column on which the calendar raises, with the
    same exception.  Every other pass returns. *)
Theorem X16_pass_after_load (p : pass) (path : option string) (file : string)
    (first : string) (rest : list string) (tables : string -> DataFrame)
    (sheet : string) (self : ExcelInsights) (out : list string) :
  (if truthy path then path else file_path self) = Some file ->
  file ≠ "" ->
  sheet_names_of file = Returned (first :: rest) ->
  (forall s, s ∈ first :: rest -> read_excel file s = Returned (tables s)) ->
  sheet ∈ first :: rest ->
  sheet ≠ "" ->
  exists (self' : ExcelInsights) (out' : list string),
    load_excel path self out = (Ok true, self', out')
    /\ (exists (res : result record) (msgs : list string)
               (self1 self2 : ExcelInsights),
          run_pass p (Some sheet) self' out' = (res, self1, out' ++ msgs)
          /\ run_pass p None (engine_with (tables sheet)) [] = (res, self2, msgs)
          /\ ((exists r, res = Ok r)
              <-> p ≠ Dates \/ calendar_succeeds (tables sheet)))
    /\ (exists (res : result record) (msgs : list string)
               (self1 self2 : ExcelInsights),
          run_pass p None self' out' = (res, self1, out' ++ msgs)
          /\ run_pass p None (engine_with (tables first)) [] = (res, self2, msgs)
          /\ ((exists r, res = Ok r)
              <-> p ≠ Dates \/ calendar_succeeds (tables first))).
Proof.
  intros Hfile Hne Hnames Hall Hin Hsheet. unfold load_excel. cbv zeta.
  set (self0 := if truthy path then set_file_path self path else self).
  assert (file_path self0 = Some file) as Hfp0.
  { unfold self0. revert Hfile. by destruct (truthy path). }
  rewrite Hfp0. simpl. rewrite bool_decide_eq_true_2 by done. simpl.
  destruct (load_sheets_all file (first :: rest) tables self0 out Hnames Hall)
    as (self1 & -> & Hfp & Hl & Ho & Hd).
  eexists _, _. split; [done|]. split.
  - apply run_pass_on_table. unfold select_data. simpl.
    rewrite bool_decide_eq_true_2 by done. by rewrite (Hl sheet Hin).
  - apply run_pass_on_table. unfold select_data. simpl. by rewrite Hd.
Qed.

(** X17. A load that fails half way leaves a usable sheet behind.  After
    [load_excel] has returned [False] on a fresh engine because a sheet
    could not be read, a pass without a sheet name returns its empty result
    with the diagnostic of missing data, but a pass that is given the name
    of a sheet that comes before the unreadable one ends and prints as it
    does on that sheet's table: with the same result or, for the temporal
    pass on a table with a date column on which the calendar raises, with
    the same exception.  Every other pass returns. *)
Theorem X17_pass_after_failed_load (p : pass) (file : string)
    (before : list string) (bad : string) (after : list string) (e : string)
    (tables : string -> DataFrame) (sheet : string) (out : list string) :
  file ≠ "" ->
  sheet_names_of file = Returned (before ++ bad :: after) ->
  (forall s, s ∈ before -> read_excel file s = Returned (tables s)) ->
  read_excel file bad = Raised e ->
  sheet ∈ before ->
  sheet ≠ "" ->
  exists (self' : ExcelInsights) (out' : list string),
    load_excel (Some file) (init None) out = (Ok false, self', out')
    /\ run_pass p None self' out'
       = (Ok (empty_record p), self', out' ++ [no_data_loaded])
    /\ (exists (res : result record) (msgs : list string)
               (self1 self2 : ExcelInsights),
          run_pass p (Some sheet) self' out' = (res, self1, out' ++ msgs)
          /\ run_pass p None (engine_with (tables sheet)) [] = (res, self2, msgs)
          /\ ((exists r, res = Ok r)
              <-> p ≠ Dates \/ calendar_succeeds (tables sheet))).
Proof.
  intros Hne Hnames Hall Hbad Hin Hsheet. unfold load_excel. cbv zeta. simpl.
  rewrite !bool_decide_eq_true_2 by done. simpl.
  destruct (load_sheets_failing file before bad after e tables
              (set_file_path (init None) (Some file)) out Hnames Hall Hbad)
    as (self1 & -> & Hfp & Hd & Hl & Ho).
  rewrite bool_decide_eq_true_2 by done. simpl.
  exists self1, (out ++ [error_loading e]). split; [done|]. split.
  - rewrite run_pass_run. unfold select_data. simpl. by rewrite Hd.
  - apply run_pass_on_table. unfold select_data. simpl.
    rewrite bool_decide_eq_true_2 by done. by rewrite (Hl sheet Hin).
Qed.

End LoadThenPass.

Lemma X16_witness :
  (if truthy (Some "reports/q1.xlsx") then Some "reports/q1.xlsx"
   else file_path (init None)) = Some "reports/q1.xlsx"
  /\ "reports/q1.xlsx" ≠ ""
  /\ @sheet_names_of (memory_reader shelf) "reports/q1.xlsx" = Returned ["Sales"; "Notes"]
  /\ (forall s, s ∈ ["Sales"; "Notes"] ->
        @read_excel (memory_reader shelf) "reports/q1.xlsx" s
        = Returned (if bool_decide (s = "Sales") then three_measures else mixed_labels))
  /\ "Notes" ∈ ["Sales"; "Notes"]
  /\ "Notes" ≠ ""
  /\ exists (self' : ExcelInsights) (out' : list string),
      @load_excel (memory_reader shelf) (Some "reports/q1.xlsx") (init None) []
        = (Ok true, self', out')
      /\ (exists (res : result record) (msgs : list string)
                 (self1 self2 : ExcelInsights),
            @run_pass Iso.calendar (Categorical 3) (Some "Notes") self' out'
              = (res, self1, out' ++ msgs)
            /\ @run_pass Iso.calendar (Categorical 3) None
                 (engine_with (if bool_decide ("Notes" = "Sales") then three_measures
                               else mixed_labels)) []
               = (res, self2, msgs)
            /\ ((exists r, res = Ok r)
                <-> Categorical 3 ≠ Dates
                    \/ @calendar_succeeds Iso.calendar
                         (if bool_decide ("Notes" = "Sales") then three_measures
                          else mixed_labels)))
      /\ (exists (res : result record) (msgs : list string)
                 (self1 self2 : ExcelInsights),
            @run_pass Iso.calendar (Categorical 3) None self' out'
              = (res, self1, out' ++ msgs)
            /\ @run_pass Iso.calendar (Categorical 3) None
                 (engine_with (if bool_decide ("Sales" = "Sales") then three_measures
                               else mixed_labels)) []
               = (res, self2, msgs)
            /\ ((exists r, res = Ok r)
                <-> Categorical 3 ≠ Dates
                    \/ @calendar_succeeds Iso.calendar
                         (if bool_decide ("Sales" = "Sales") then three_measures
                          else mixed_labels))).
Proof.
  assert ((if truthy (Some "reports/q1.xlsx") then Some "reports/q1.xlsx"
           else file_path (init None)) = Some "reports/q1.xlsx") as H1 by reflexivity.
  assert ("reports/q1.xlsx" ≠ "") as H2 by done.
  assert (@sheet_names_of (memory_reader shelf) "reports/q1.xlsx"
          = Returned ["Sales"; "Notes"]) as H3 by reflexivity.
  assert (forall s, s ∈ ["Sales"; "Notes"] ->
            @read_excel (memory_reader shelf) "reports/q1.xlsx" s
            = Returned (if bool_decide (s = "Sales") then three_measures
                        else mixed_labels)) as H4.
  { intros s Hin. repeat (apply elem_of_cons in Hin as [->|Hin]; [reflexivity|]).
    by apply elem_of_nil in Hin. }
  assert ("Notes" ∈ ["Sales"; "Notes"]) as H5 by (right; left).
  assert ("Notes" ≠ "") as H6 by done.
  split_and!; [done..|].
  exact (@X16_pass_after_load (memory_reader shelf) Iso.calendar (Categorical 3)
           (Some "reports/q1.xlsx") "reports/q1.xlsx" "Sales" ["Notes"]
           (fun s => if bool_decide (s = "Sales") then three_measures else mixed_labels)
           "Notes" (init None) [] H1 H2 H3 H4 H5 H6).
Defined.

Lemma X17_witness :
  "book.xlsx" ≠ ""
  /\ @sheet_names_of damaged_reader "book.xlsx"
     = Returned (["Sales"] ++ "Totals" :: ["Notes"])
  /\ (forall s, s ∈ ["Sales"] ->
        @read_excel damaged_reader "book.xlsx" s = Returned three_measures)
  /\ @read_excel damaged_reader "book.xlsx" "Totals" = Raised "File is not a zip file"
  /\ "Sales" ∈ ["Sales"]
  /\ "Sales" ≠ ""
  /\ exists (self' : ExcelInsights) (out' : list string),
      @load_excel damaged_reader (Some "book.xlsx") (init None) []
        = (Ok false, self', out')
      /\ @run_pass Iso.calendar (Correlations (F64.lit 1 2)) None self' out'
         = (Ok (empty_record (Correlations (F64.lit 1 2))), self',
            out' ++ [no_data_loaded])
      /\ (exists (res : result record) (msgs : list string)
                 (self1 self2 : ExcelInsights),
            @run_pass Iso.calendar (Correlations (F64.lit 1 2)) (Some "Sales") self' out'
              = (res, self1, out' ++ msgs)
            /\ @run_pass Iso.calendar (Correlations (F64.lit 1 2)) None
                 (engine_with three_measures) []
               = (res, self2, msgs)
            /\ ((exists r, res = Ok r)
                <-> Correlations (F64.lit 1 2) ≠ Dates
                    \/ @calendar_succeeds Iso.calendar three_measures)).
Proof.
  assert ("book.xlsx" ≠ "") as H1 by done.
  assert (@sheet_names_of damaged_reader "book.xlsx"
          = Returned (["Sales"] ++ "Totals" :: ["Notes"])) as H2 by reflexivity.
  assert (forall s, s ∈ ["Sales"] ->
            @read_excel damaged_reader "book.xlsx" s = Returned three_measures) as H3.
  { intros s Hin. repeat (apply elem_of_cons in Hin as [->|Hin]; [reflexivity|]).
    by apply elem_of_nil in Hin. }
  assert (@read_excel damaged_reader "book.xlsx" "Totals"
          = Raised "File is not a zip file") as H4 by reflexivity.
  assert ("Sales" ∈ ["Sales"]) as H5 by left.
  assert ("Sales" ≠ "") as H6 by done.
  split_and!; [done..|].
  exact (@X17_pass_after_failed_load damaged_reader Iso.calendar
           (Correlations (F64.lit 1 2)) "book.xlsx" ["Sales"] "Totals" ["Notes"]
           "File is not a zip file" (fun _ => three_measures) "Sales" []
           H1 H2 H3 H4 H5 H6).
Defined.

(** * Charts *)

Lemma string_length_app (a b : string) :
  String.length (a +:+ b) = String.length a + String.length b.
Proof. induction a as [|c a IH]; simpl; [done|]. by rewrite IH. Qed.

Lemma string_app_inj_r (s a b : string) : a +:+ s = b +:+ s -> a = b.
Proof.
  revert b. induction a as [|c a IH]; intros [|c' b]; simpl; intros Heq.
  - done.
  - apply (f_equal String.length) in Heq.
    rewrite ?string_length_app in Heq. simpl in Heq.
    rewrite ?string_length_app in Heq. lia.
  - apply (f_equal String.length) in Heq.
    rewrite ?string_length_app in Heq. simpl in Heq.
    rewrite ?string_length_app in Heq. lia.
  - injection Heq as -> Heq. by rewrite (IH b Heq).
Qed.

Lemma os_path_join_file (dir file : string) :
  dir ≠ "" -> startswith_sep file = false -> os_path_join dir file = in_dir dir file.
Proof.
  intros Hdir Hfile. unfold os_path_join, in_dir.
  rewrite Hfile, bool_decide_eq_false_2 by done. simpl.
  by destruct (endswith_sep dir).
Qed.

Lemma in_dir_inj (dir : string) : Inj (=) (=) (in_dir dir).
Proof. intros a b Heq. unfold in_dir in Heq. by do 2 apply String.app_inj in Heq. Qed.

Lemma bind_singleton {A B} (g : A -> B) (l : list A) :
  l ≫= (fun x => [g x]) = g <$> l.
Proof. induction l as [|x l IH]; [done|]. csimpl. by rewrite IH. Qed.

Lemma bind_optional {A B} (g : A -> B) (P : A -> Prop) `{forall x, Decision (P x)}
    (l : list A) :
  l ≫= (fun x => if bool_decide (P x) then [g x] else []) = g <$> filter P l.
Proof.
  induction l as [|x l IH]; [done|]. csimpl. rewrite filter_cons, IH.
  case_bool_decide.
  - by rewrite decide_True.
  - by rewrite decide_False.
Qed.

Section ChartProperties.

Context `{Pyplot}.

Lemma plot_each_saves (cols : list Series)
    (body : Series -> list string -> outcome (list string))
    (files : Series -> list string) (saved_files : list string) :
  (forall col saved, body col saved = Returned (saved ++ files col)) ->
  plot_each cols body saved_files = Returned (saved_files ++ (cols ≫= files)).
Proof.
  intros Hbody. revert saved_files.
  induction cols as [|col rest IH]; intros saved_files; csimpl.
  - by rewrite app_nil_r.
  - rewrite Hbody. simpl. by rewrite IH, app_assoc.
Qed.

Lemma save_or_show_saves (dir : string) (c : chart) (file : string)
    (saved_files : list string) :
  dir ≠ "" -> startswith_sep file = false ->
  (forall c file, render c (Some file) = Returned tt) ->
  save_or_show (Some dir) c file saved_files
  = Returned (saved_files ++ [in_dir dir file]).
Proof.
  intros Hdir Hfile Hrender. unfold save_or_show. simpl.
  rewrite bool_decide_eq_true_2 by done. rewrite Hrender. simpl.
  by rewrite os_path_join_file.
Qed.

Lemma save_or_show_shows (output_dir : option string) (c : chart) (file : string)
    (saved_files : list string) :
  truthy output_dir = false ->
  (forall c, render c None = Returned tt) ->
  save_or_show output_dir c file saved_files = Returned saved_files.
Proof. intros Hdir Hrender. unfold save_or_show. by rewrite Hdir, Hrender. Qed.

Lemma save_or_show_if (b : bool) (dir : string) (c : chart) (file : string)
    (saved_files : list string) :
  dir ≠ "" -> startswith_sep file = false ->
  (forall c file, render c (Some file) = Returned tt) ->
  (if b then save_or_show (Some dir) c file saved_files else mret saved_files)
  = Returned (saved_files ++ (in_dir dir <$> (if b then [file] else []))).
Proof.
  intros Hdir Hfile Hrender. destruct b.
  - by apply save_or_show_saves.
  - by rewrite app_nil_r.
Qed.

(** The files saved into a directory. *)
Lemma plot_charts_saves (dir : string) (d : DataFrame) :
  dir ≠ "" ->
  (forall c file, render c (Some file) = Returned tt) ->
  plot_charts (Some dir) d = Returned (in_dir dir <$> chart_files d).
Proof.
  intros Hdir Hrender. unfold plot_charts. cbv zeta.
  rewrite (plot_each_saves _ _
             (fun col => [in_dir dir ("histogram_" +:+ name col +:+ ".png")]));
    [|by intros; apply save_or_show_saves].
  rewrite bind_singleton. cbn [mbind outcome_bind].
  rewrite (plot_each_saves _ _
             (fun col => [in_dir dir ("barchart_" +:+ name col +:+ ".png")]));
    [|by intros; apply save_or_show_saves].
  rewrite bind_singleton. cbn [mbind outcome_bind].
  rewrite save_or_show_if by done. cbn [mbind outcome_bind].
  rewrite save_or_show_if by done. cbn [mbind outcome_bind].
  rewrite (plot_each_saves _ _
             (fun col => if bool_decide (pd.nunique (values col) <= 10)
                         then [in_dir dir ("piechart_" +:+ name col +:+ ".png")]
                         else [])).
  - rewrite (bind_optional (fun col => in_dir dir ("piechart_" +:+ name col +:+ ".png"))
               (fun col => pd.nunique (values col) <= 10)).
    f_equal. unfold chart_files. cbv zeta.
    rewrite !fmap_app, <- !list_fmap_compose, <- !app_assoc.
    rewrite (bool_decide_ext (1 < length (pd.select_dtypes_number d))
               (2 <= length (pd.select_dtypes_number d))) by lia.
    rewrite (bool_decide_ext (pd.select_dtypes_number d ≠ [])
               (1 <= length (pd.select_dtypes_number d))); [done|].
    destruct (pd.select_dtypes_number d); simpl; split; (done || lia).
  - intros col saved. unfold pd.nunique. rewrite value_counts_length.
    case_bool_decide; [by apply save_or_show_saves|by rewrite app_nil_r].
Qed.

(** X18. With an output directory, a table and a plotting library that
    draws and saves what it is given, [visualize_data] prints nothing and
    returns the paths of the files it saved, each in the output directory
    and in the order of drawing: a histogram for each of the first five
    numeric columns, a bar chart for each of the first five categorical
    columns, the heatmap when there are two numeric columns or more, the
    box plots when there is one or more, and a pie chart for those of the
    first three categorical columns that have at most 10 distinct values;
    at most 15 files in all. *)
Theorem X18_visualize_data_saved_files (dir : string) (sheet_name : option string)
    (self : ExcelInsights) (d : DataFrame) (out : list string) :
  select_data self sheet_name = Some d ->
  dir ≠ "" ->
  makedirs dir = Returned tt ->
  (forall c file, render c (Some file) = Returned tt) ->
  visualize_data (Some dir) sheet_name self out
    = (Returned (in_dir dir <$> chart_files d), out)
  /\ length (chart_files d) <= 15.
Proof.
  intros Hsel Hdir Hmk Hrender. split.
  - unfold visualize_data. rewrite Hsel. simpl.
    rewrite bool_decide_eq_true_2 by done. rewrite Hmk. cbn [mbind outcome_bind].
    by rewrite plot_charts_saves.
  - unfold chart_files. cbv zeta. rewrite !length_app, !length_fmap, !length_take.
    pose proof (length_filter (fun col => pd.nunique (values col) <= 10)
                  (take 3 (pd.select_dtypes_categorical d))) as Hpie.
    rewrite length_take in Hpie.
    repeat case_bool_decide; cbn [length]; lia.
Qed.

(** The names of the charts of a table with pairwise distinct labels are
    pairwise distinct: the first two characters tell the kind of chart, the
    rest the column. *)
Lemma chart_files_NoDup (d : DataFrame) : NoDup (name <$> d) -> NoDup (chart_files d).
Proof.
  intros Hnd. unfold chart_files. cbv zeta.
  set (num := pd.select_dtypes_number d). set (cat := pd.select_dtypes_categorical d).
  assert (forall (l : list Series), l `sublist_of` d -> NoDup (name <$> l)) as Hsub.
  { intros l Hl. eapply sublist_NoDup; [exact Hnd|]. by apply fmap_sublist. }
  assert (forall (pre : string) (cols : list Series),
            NoDup (name <$> cols) ->
            NoDup ((fun col => pre +:+ name col +:+ ".png") <$> cols)) as Hinj.
  { intros pre cols Hcols.
    rewrite (list_fmap_compose name (fun n => pre +:+ n +:+ ".png")).
    apply NoDup_fmap_2; [|done].
    intros a b Heq. apply String.app_inj in Heq. by apply string_app_inj_r in Heq. }
  assert (forall (a b : ascii) (k : string) (l : list Series) (x : string),
            x ∈ (fun col => String a (String b k) +:+ name col +:+ ".png") <$> l ->
            String.get 0 x = Some a /\ String.get 1 x = Some b) as Hkind.
  { by intros a b k l x (c & -> & _)%list_elem_of_fmap. }
  assert (forall x,
            x ∈ (if bool_decide (2 <= length num) then ["correlation_heatmap.png"]
                 else []) ->
            String.get 0 x = Some "c"%char /\ String.get 1 x = Some "o"%char) as Hheat.
  { intros x. destruct (bool_decide (2 <= length num)); [by intros ->%list_elem_of_singleton|].
    by intros ?%elem_of_nil. }
  assert (forall x,
            x ∈ (if bool_decide (1 <= length num) then ["boxplots.png"] else []) ->
            String.get 0 x = Some "b"%char /\ String.get 1 x = Some "o"%char) as Hbox.
  { intros x. destruct (bool_decide (1 <= length num)); [by intros ->%list_elem_of_singleton|].
    by intros ?%elem_of_nil. }
  apply NoDup_app. split_and!.
  { apply Hinj, Hsub. etrans; [apply sublist_take|apply sublist_filter]. }
  { intros x [H0 H1]%Hkind Hy. rewrite !elem_of_app in Hy.
    destruct Hy as [Hy|[Hy|[Hy|Hy]]];
      [apply Hkind in Hy|apply Hheat in Hy|apply Hbox in Hy|apply Hkind in Hy];
      destruct Hy as [H0' H1']; congruence. }
  apply NoDup_app. split_and!.
  { apply Hinj, Hsub. etrans; [apply sublist_take|apply sublist_filter]. }
  { intros x [H0 H1]%Hkind Hy. rewrite !elem_of_app in Hy.
    destruct Hy as [Hy|[Hy|Hy]];
      [apply Hheat in Hy|apply Hbox in Hy|apply Hkind in Hy];
      destruct Hy as [H0' H1']; congruence. }
  apply NoDup_app. split_and!.
  { destruct (bool_decide (2 <= length num)); [apply NoDup_singleton|apply NoDup_nil_2]. }
  { intros x [H0 H1]%Hheat Hy. rewrite !elem_of_app in Hy.
    destruct Hy as [Hy|Hy]; [apply Hbox in Hy|apply Hkind in Hy];
      destruct Hy as [H0' H1']; congruence. }
  apply NoDup_app. split_and!.
  { destruct (bool_decide (1 <= length num)); [apply NoDup_singleton|apply NoDup_nil_2]. }
  { intros x [H0 H1]%Hbox Hy. apply Hkind in Hy as [H0' H1']. congruence. }
  apply Hinj, Hsub.
  etrans; [apply sublist_filter|]. etrans; [apply sublist_take|apply sublist_filter].
Qed.

(** X19. No chart overwrites another: on a table with pairwise distinct
    labels, the paths that [visualize_data] saves to are pairwise
    distinct. *)
Theorem X19_charts_do_not_overwrite (dir : string) (sheet_name : option string)
    (self : ExcelInsights) (d : DataFrame) (out : list string) :
  select_data self sheet_name = Some d ->
  NoDup (name <$> d) ->
  dir ≠ "" ->
  makedirs dir = Returned tt ->
  (forall c file, render c (Some file) = Returned tt) ->
  exists saved_files : list string,
    visualize_data (Some dir) sheet_name self out = (Returned saved_files, out)
    /\ NoDup saved_files.
Proof.
  intros Hsel Hnd Hdir Hmk Hrender. exists (in_dir dir <$> chart_files d). split.
  - unfold visualize_data. rewrite Hsel. simpl.
    rewrite bool_decide_eq_true_2 by done. rewrite Hmk. cbn [mbind outcome_bind].
    by rewrite plot_charts_saves.
  - apply NoDup_fmap_2; [apply in_dir_inj|by apply chart_files_NoDup].
Qed.

(** X20. Without an output directory (none, or the empty string) nothing
    is saved: when the plotting library shows what it is given,
    [visualize_data] returns the empty list; it prints nothing when there
    is a table, and the diagnostic when there is none. *)
Theorem X20_visualize_data_without_output_dir (output_dir sheet_name : option string)
    (self : ExcelInsights) (out : list string) :
  truthy output_dir = false ->
  (forall c, render c None = Returned tt) ->
  visualize_data output_dir sheet_name self out
  = (Returned [],
     out ++ match select_data self sheet_name with
            | Some _ => []
            | None => [no_data_loaded]
            end).
Proof.
  intros Hdir Hrender. unfold visualize_data.
  destruct (select_data self sheet_name) as [d|]; [|done].
  rewrite Hdir, app_nil_r. cbn [mbind outcome_bind]. f_equal.
  assert (forall c file saved,
            save_or_show output_dir c file saved = Returned saved) as Hshow.
  { intros. by apply save_or_show_shows. }
  assert (forall (b : bool) c file saved,
            (if b then save_or_show output_dir c file saved else mret saved)
            = Returned saved) as Hif.
  { intros [] c file saved; [apply Hshow|done]. }
  assert (forall cols body saved,
            (forall col s, body col s = Returned s) ->
            plot_each cols body saved = Returned saved) as Heach.
  { intros cols body saved Hbody. induction cols as [|col rest IH]; [done|].
    simpl. by rewrite Hbody. }
  unfold plot_charts. cbv zeta.
  rewrite Heach by (intros; apply Hshow). cbn [mbind outcome_bind].
  rewrite Heach by (intros; apply Hshow). cbn [mbind outcome_bind].
  rewrite Hif. cbn [mbind outcome_bind].
  rewrite Hif. cbn [mbind outcome_bind].
  apply Heach. intros col s. apply Hif.
Qed.

End ChartProperties.

Lemma X18_witness :
  select_data (engine_with mixed_labels) None = Some mixed_labels
  /\ "charts" ≠ ""
  /\ @makedirs drawing_board "charts" = Returned tt
  /\ (forall c file, @render drawing_board c (Some file) = Returned tt)
  /\ @visualize_data drawing_board (Some "charts") None (engine_with mixed_labels) []
     = (Returned (in_dir "charts" <$> chart_files mixed_labels), [])
  /\ length (chart_files mixed_labels) <= 15.
Proof.
  assert (select_data (engine_with mixed_labels) None = Some mixed_labels)
    as H1 by reflexivity.
  assert ("charts" ≠ "") as H2 by done.
  assert (@makedirs drawing_board "charts" = Returned tt) as H3 by reflexivity.
  assert (forall c file, @render drawing_board c (Some file) = Returned tt)
    as H4 by reflexivity.
  split_and!; [done..| |];
    apply (@X18_visualize_data_saved_files drawing_board "charts" None
             (engine_with mixed_labels) mixed_labels [] H1 H2 H3 H4).
Defined.

Lemma X19_witness :
  select_data (engine_with mixed_labels) None = Some mixed_labels
  /\ NoDup (name <$> mixed_labels)
  /\ "charts" ≠ ""
  /\ @makedirs drawing_board "charts" = Returned tt
  /\ (forall c file, @render drawing_board c (Some file) = Returned tt)
  /\ exists saved_files : list string,
      @visualize_data drawing_board (Some "charts") None (engine_with mixed_labels) []
        = (Returned saved_files, [])
      /\ NoDup saved_files.
Proof.
  assert (select_data (engine_with mixed_labels) None = Some mixed_labels)
    as H1 by reflexivity.
  assert (NoDup (name <$> mixed_labels)) as H2.
  { apply (bool_decide_unpack _). vm_compute. exact I. }
  assert ("charts" ≠ "") as H3 by done.
  assert (@makedirs drawing_board "charts" = Returned tt) as H4 by reflexivity.
  assert (forall c file, @render drawing_board c (Some file) = Returned tt)
    as H5 by reflexivity.
  split_and!; [done..|].
  exact (@X19_charts_do_not_overwrite drawing_board "charts" None
           (engine_with mixed_labels) mixed_labels [] H1 H2 H3 H4 H5).
Defined.

Lemma X20_witness :
  truthy (Some "") = false
  /\ (forall c, @render drawing_board c None = Returned tt)
  /\ @visualize_data drawing_board (Some "") None (engine_with mixed_labels) []
     = (Returned [],
        [] ++ match select_data (engine_with mixed_labels) None with
              | Some _ => []
              | None => [no_data_loaded]
              end).
Proof.
  assert (truthy (Some "") = false) as H1 by reflexivity.
  assert (forall c, @render drawing_board c None = Returned tt) as H2 by reflexivity.
  split_and!; [done..|].
  exact (@X20_visualize_data_without_output_dir drawing_board (Some "") None
           (engine_with mixed_labels) [] H1 H2).
Defined.
